(** * PureMVC multicore, ES6 port: the Model and Facade multitons

    A shallow embedding of [src/core/Model.js] and of
    [patterns/facade/Facade.js] (the transpiled text of it), with the
    properties the specification states about them.

    Conventions of the embedding.
    - JavaScript values that reach the framework as keys, names and
      payloads are the inductive [value]; a property access [o[k]]
      coerces [k] with [toPropertyKey].
    - [Model.instanceMap], [Facade.instanceMap] and [proxyMap] are Arrays
      used as string-keyed maps.  In the modules [Model] and [Facade]
      they are finite maps over strings, the own entries that the code
      has assigned.  That is the code on every property name but those an
      Array supplies itself: its own "length" and what it inherits
      ("constructor", "push", "__proto__", ...).  On those names the code
      does not behave as a map; [Array_names] lists them, and a property
      that depends on how a name without an entry reads, or on a write
      taking effect, is stated for the names outside the list.
    - The module [Exact] has [core/Model.js] and the constructor and
      static methods of the Facade once more, on the Arrays themselves.
      The last part of the file proves that the two embeddings agree on
      the names that the Array does not supply, and evaluates the code at
      names that it does.
    - Objects live in a store and are named by their address, so that the
      Facade's [model] field and the entry of [Model.instanceMap] alias
      the same object, and "the identical instance" is equality of
      addresses.  A store is a list, an address an index; [new] appends.
    - [core/View.js], [core/Controller.js] and the Notification and
      Observer classes are not among the sources.  What the Facade needs
      of them is modelled from the specification; each such definition
      says so.
    - Code outside the sources (the hooks of a Proxy, the callback of an
      Observer) is a parameter: a function on the state of the object that
      calls it, so that a hook or a callback can re-enter the registry it
      was called from.  Such code is taken to return normally.  Every call
      the framework itself makes to it is written to an event trace. *)

From stdpp Require Import gmap strings list fin_maps pretty.

Open Scope string_scope.
Open Scope list_scope.

(** ** JavaScript values *)

Inductive value : Type :=
| VUndefined
| VNull
| VBool (b : bool)
| VNum (z : Z)      (* an integer-valued Number *)
| VNaN
| VStr (s : string)
| VObj (o : nat).   (* a reference to a plain object *)

(** [ToBoolean]: what [if (v)] and [!v] look at. *)
Definition truthy (v : value) : bool :=
  match v with
  | VUndefined | VNull | VNaN => false
  | VBool b => b
  | VNum z => negb (Z.eqb z 0)
  | VStr s => match s with EmptyString => false | String _ _ => true end
  | VObj _ => true
  end.

(** [ToPropertyKey]: the string under which [o[v]] reads and writes.
    An integer prints in decimal, which is its name in JavaScript when it
    is a safe integer (see [exact_key]). *)
Definition toPropertyKey (v : value) : string :=
  match v with
  | VUndefined => "undefined"
  | VNull => "null"
  | VBool true => "true"
  | VBool false => "false"
  | VNum z => pretty z
  | VNaN => "NaN"
  | VStr s => s
  | VObj _ => "[object Object]"
  end.

(** What a variable or a slot that is meant to hold an object of class
    [A] can hold: the object, [null], or [undefined]. *)
Inductive jsref (A : Type) : Type :=
| Undefined
| Null
| Obj (a : A).
Arguments Undefined {A}.
Arguments Null {A}.
Arguments Obj {A} a.

Definition truthy_ref {A} (r : jsref A) : bool :=
  match r with Obj _ => true | _ => false end.

(** [r != null] and [r == null]: loose equality puts [undefined] with
    [null]. *)
Definition nullish {A} (r : jsref A) : bool :=
  match r with Obj _ => false | _ => true end.

(** Reading [m[k]] under a name that the Array does not supply itself:
    an absent property reads as [undefined]. *)
Definition read {A} (m : gmap string (jsref A)) (k : value) : jsref A :=
  default Undefined (m !! toPropertyKey k).

(** The same for a map whose stored values are all objects. *)
Definition read_obj {A} (m : gmap string A) (k : value) : jsref A :=
  match m !! toPropertyKey k with
  | Some a => Obj a
  | None => Undefined
  end.

(** Addresses in the object store. *)
Definition loc : Type := nat.

(** ** Collaborators that are not part of the sources *)

(** A Proxy is user code; the Model only holds a reference to it. *)
Inductive Proxy : Type := ProxyRef (id : nat).

Module Notification.
(** Modelled from the spec: patterns/observer/Notification.js is not in
    the sources; "Notification: an immutable envelope {name, body,
    type}". *)
Record t : Type := Mk { name : value; body : value; type : value }.
End Notification.

Module Observer.
(** Modelled from the spec: patterns/observer/Observer.js is not in the
    sources; "Attributes: notifyMethod (callback reference),
    notifyContext (execution context reference)". *)
Record t : Type := Mk { notifyMethod : nat; notifyContext : nat }.
End Observer.

(** The methods the Model calls on a Proxy. *)
Inductive ProxyMethod : Type :=
| InitializeNotifier (key : value)
| GetProxyName
| OnRegister
| OnRemove.

(** The lifecycle hooks among them ("on-register and on-remove"). *)
Definition lifecycle (m : ProxyMethod) : bool :=
  match m with
  | OnRegister | OnRemove => true
  | InitializeNotifier _ | GetProxyName => false
  end.

(** Calls that leave the framework. *)
Inductive Event : Type :=
| ProxyCall (p : Proxy) (m : ProxyMethod)
| NewNotification (n : Notification.t)
| NotifyObserver (o : Observer.t) (n : Notification.t).

Definition lifecycle_event (e : Event) : bool :=
  match e with
  | ProxyCall _ m => lifecycle m
  | _ => false
  end.

(** ** Instance state of the four multiton classes *)

Module ModelObj.
Record t : Type := Mk {
  proxyMap : gmap string (jsref Proxy);
  multitonKey : value }.

Definition set_proxyMap (f : gmap string (jsref Proxy) → gmap string (jsref Proxy))
    (this : t) : t :=
  Mk (f (proxyMap this)) (multitonKey this).
End ModelObj.

Module ViewObj.
(** Modelled from the spec: core/View.js is not in the sources;
    "observerMap: mapping from notification name -> ordered sequence of
    Observer". *)
Record t : Type := Mk {
  observerMap : gmap string (list Observer.t);
  multitonKey : value }.

Definition set_observerMap
    (f : gmap string (list Observer.t) → gmap string (list Observer.t))
    (this : t) : t :=
  Mk (f (observerMap this)) (multitonKey this).
End ViewObj.

Module ControllerObj.
(** Modelled from the spec: core/Controller.js is not in the sources;
    "commandMap: mapping from notification name -> command constructor
    reference". *)
Record t : Type := Mk {
  commandMap : gmap string nat;
  multitonKey : value }.
End ControllerObj.

Module FacadeObj.
Record t : Type := Mk {
  controller : jsref loc;
  model : jsref loc;
  view : jsref loc;
  multitonKey : value }.

Definition set_controller (r : jsref loc) (this : t) : t :=
  Mk r (model this) (view this) (multitonKey this).
Definition set_model (r : jsref loc) (this : t) : t :=
  Mk (controller this) r (view this) (multitonKey this).
Definition set_view (r : jsref loc) (this : t) : t :=
  Mk (controller this) (model this) r (multitonKey this).
Definition set_multitonKey (k : value) (this : t) : t :=
  Mk (controller this) (model this) (view this) k.
End FacadeObj.

(** ** The program state: object stores and the static instance maps *)

Record World : Type := MkWorld {
  models : list ModelObj.t;
  views : list ViewObj.t;
  controllers : list ControllerObj.t;
  facades : list FacadeObj.t;
  Model_instanceMap : gmap string loc;
  View_instanceMap : gmap string loc;
  Controller_instanceMap : gmap string loc;
  Facade_instanceMap : gmap string loc }.

Definition set_models (f : list ModelObj.t → list ModelObj.t) (w : World) : World :=
  MkWorld (f (models w)) (views w) (controllers w) (facades w)
    (Model_instanceMap w) (View_instanceMap w) (Controller_instanceMap w)
    (Facade_instanceMap w).
Definition set_views (f : list ViewObj.t → list ViewObj.t) (w : World) : World :=
  MkWorld (models w) (f (views w)) (controllers w) (facades w)
    (Model_instanceMap w) (View_instanceMap w) (Controller_instanceMap w)
    (Facade_instanceMap w).
Definition set_controllers (f : list ControllerObj.t → list ControllerObj.t)
    (w : World) : World :=
  MkWorld (models w) (views w) (f (controllers w)) (facades w)
    (Model_instanceMap w) (View_instanceMap w) (Controller_instanceMap w)
    (Facade_instanceMap w).
Definition set_facades (f : list FacadeObj.t → list FacadeObj.t) (w : World) : World :=
  MkWorld (models w) (views w) (controllers w) (f (facades w))
    (Model_instanceMap w) (View_instanceMap w) (Controller_instanceMap w)
    (Facade_instanceMap w).
Definition set_Model_instanceMap (f : gmap string loc → gmap string loc)
    (w : World) : World :=
  MkWorld (models w) (views w) (controllers w) (facades w)
    (f (Model_instanceMap w)) (View_instanceMap w) (Controller_instanceMap w)
    (Facade_instanceMap w).
Definition set_View_instanceMap (f : gmap string loc → gmap string loc)
    (w : World) : World :=
  MkWorld (models w) (views w) (controllers w) (facades w)
    (Model_instanceMap w) (f (View_instanceMap w)) (Controller_instanceMap w)
    (Facade_instanceMap w).
Definition set_Controller_instanceMap (f : gmap string loc → gmap string loc)
    (w : World) : World :=
  MkWorld (models w) (views w) (controllers w) (facades w)
    (Model_instanceMap w) (View_instanceMap w) (f (Controller_instanceMap w))
    (Facade_instanceMap w).
Definition set_Facade_instanceMap (f : gmap string loc → gmap string loc)
    (w : World) : World :=
  MkWorld (models w) (views w) (controllers w) (facades w)
    (Model_instanceMap w) (View_instanceMap w) (Controller_instanceMap w)
    (f (Facade_instanceMap w)).

(** The state before any class has been instantiated:
    [Model.instanceMap = []], [Facade.instanceMap = []]. *)
Definition initial : World := MkWorld [] [] [] [] ∅ ∅ ∅ ∅.

(** ** Computations: state, exceptions and the trace of outgoing calls *)

Inductive Error : Type :=
| JsError (msg : string)   (* [throw new Error(msg)] *)
| TypeError                (* a member access on [null] or [undefined] *)
| RangeError.              (* an invalid length assigned to an Array *)

Inductive completion (A : Type) : Type :=
| Normal (a : A)
| Throw (e : Error).
Arguments Normal {A} a.
Arguments Throw {A} e.

(** A computation over a state [S]: it completes normally or throws,
    leaves a state behind in both cases, and emits events. *)
Definition Js (S A : Type) : Type := S → completion A * S * list Event.

Definition Js_ret {S A} (a : A) : Js S A := λ s, (Normal a, s, []).

Definition Js_bind {S A B} (k : A → Js S B) (c : Js S A) : Js S B :=
  λ s, match c s with
       | (Normal a, s1, t1) =>
           match k a s1 with (r, s2, t2) => (r, s2, t1 ++ t2) end
       | (Throw e, s1, t1) => (Throw e, s1, t1)
       end.

#[global] Instance Js_mret {S} : MRet (Js S) := @Js_ret S.
#[global] Instance Js_mbind {S} : MBind (Js S) := @Js_bind S.

Definition throw {S A} (e : Error) : Js S A := λ s, (Throw e, s, []).
Definition gets {S A} (f : S → A) : Js S A := λ s, (Normal (f s), s, []).
Definition modify {S} (f : S → S) : Js S () := λ s, (Normal (), f s, []).

(** A call to code outside the framework: it is recorded, and it may
    change the state of the calling object. *)
Definition extern {S} (e : Event) (f : S → S) : Js S () :=
  λ s, (Normal (), f s, [e]).

(** Projections of a finished run. *)
Definition result {S A} (r : completion A * S * list Event) : completion A :=
  r.1.1.
Definition final {S A} (r : completion A * S * list Event) : S := r.1.2.
Definition events {S A} (r : completion A * S * list Event) : list Event := r.2.

(** [new]: the object goes to the end of its store. *)
Definition alloc_model (m : ModelObj.t) : Js World loc :=
  λ w, (Normal (length (models w)), set_models (λ h, h ++ [m]) w, []).
Definition alloc_view (v : ViewObj.t) : Js World loc :=
  λ w, (Normal (length (views w)), set_views (λ h, h ++ [v]) w, []).
Definition alloc_controller (c : ControllerObj.t) : Js World loc :=
  λ w, (Normal (length (controllers w)), set_controllers (λ h, h ++ [c]) w, []).
Definition alloc_facade (f : FacadeObj.t) : Js World loc :=
  λ w, (Normal (length (facades w)), set_facades (λ h, h ++ [f]) w, []).

(** Running a method of the object at address [l] on the store. *)
Definition on_model {A} (l : loc) (c : Js ModelObj.t A) : Js World A :=
  λ w, match models w !! l with
       | Some m =>
           match c m with (r, m1, t) => (r, set_models <[l := m1]> w, t) end
       | None => (Throw TypeError, w, [])
       end.
Definition on_view {A} (l : loc) (c : Js ViewObj.t A) : Js World A :=
  λ w, match views w !! l with
       | Some v =>
           match c v with (r, v1, t) => (r, set_views <[l := v1]> w, t) end
       | None => (Throw TypeError, w, [])
       end.
Definition on_facade {A} (l : loc) (c : Js FacadeObj.t A) : Js World A :=
  λ w, match facades w !! l with
       | Some f =>
           match c f with (r, f1, t) => (r, set_facades <[l := f1]> w, t) end
       | None => (Throw TypeError, w, [])
       end.

(** ** Behaviour of user code *)

(** The methods of a Proxy that the Model calls.  patterns/proxy/Proxy.js
    is not in the sources and a Proxy is meant to be subclassed, so each
    method is a parameter; a hook may act on the Model it is called
    from. *)
Class ProxyHooks : Type := {
  getProxyName : Proxy → value;
  initializeNotifier : Proxy → value → ModelObj.t → ModelObj.t;
  onRegister : Proxy → ModelObj.t → ModelObj.t;
  onRemove : Proxy → ModelObj.t → ModelObj.t }.

(** ** core/Model.js *)

Module Model.
Import ModelObj.

Definition MULTITON_MSG : string :=
  "Model instance for this Multiton key already constructed!".

(** [initializeModel() {}] *)
Definition initializeModel (this : loc) : Js World () := mret ().

(** [constructor(key)] *)
Definition new (key : value) : Js World loc :=
  inst ← gets (λ w, read_obj (Model_instanceMap w) key);
  if truthy_ref inst then throw (JsError MULTITON_MSG)
  else
    this ← alloc_model {| proxyMap := ∅; multitonKey := key |};
    modify (set_Model_instanceMap <[toPropertyKey key := this]>);;
    initializeModel this;;
    mret this.

(** [static getInstance(key)] *)
Definition getInstance (key : value) : Js World (jsref loc) :=
  if negb (truthy key) then mret Null
  else
    inst ← gets (λ w, read_obj (Model_instanceMap w) key);
    (if negb (truthy_ref inst)
     then this ← new key;
          modify (set_Model_instanceMap <[toPropertyKey key := this]>)
     else mret ());;
    gets (λ w, read_obj (Model_instanceMap w) key).

(** [static removeModel(key)] *)
Definition removeModel (key : value) : Js World () :=
  modify (set_Model_instanceMap (delete (toPropertyKey key))).

Section Instance.
Context `{ProxyHooks}.

(** [registerProxy(proxy)] *)
Definition registerProxy (proxy : Proxy) : Js ModelObj.t () :=
  key ← gets multitonKey;
  extern (ProxyCall proxy (InitializeNotifier key))
         (initializeNotifier proxy key);;
  extern (ProxyCall proxy GetProxyName) id;;
  modify (set_proxyMap <[toPropertyKey (getProxyName proxy) := Obj proxy]>);;
  extern (ProxyCall proxy OnRegister) (onRegister proxy).

(** [retrieveProxy(proxyName)] *)
Definition retrieveProxy (proxyName : value) : Js ModelObj.t (jsref Proxy) :=
  gets (λ this, read (proxyMap this) proxyName).

(** [hasProxy(proxyName)] *)
Definition hasProxy (proxyName : value) : Js ModelObj.t bool :=
  gets (λ this, negb (negb (truthy_ref (read (proxyMap this) proxyName)))).

(** [removeProxy(proxyName)] *)
Definition removeProxy (proxyName : value) : Js ModelObj.t (jsref Proxy) :=
  proxy ← gets (λ this, read (proxyMap this) proxyName);
  match proxy with
  | Obj p =>
      modify (set_proxyMap <[toPropertyKey proxyName := Null]>);;
      extern (ProxyCall p OnRemove) (onRemove p)
  | _ => mret ()
  end;;
  mret proxy.
End Instance.
End Model.

(** Modelled from the spec: the callback of an Observer
    (patterns/observer/Observer.js is not in the sources).  "Each Observer
    in the snapshot is notified ... by invoking its callback bound to its
    context, passing the notification"; a callback "may safely register or
    remove other Observers (including itself)", so it is a function on
    the state of the View. *)
Class ObserverHooks : Type := {
  notifyObserver : Observer.t → Notification.t → ViewObj.t → ViewObj.t }.

(** ** core/View.js *)

Module View.
Import ViewObj.

(** Modelled from the spec: the message of the View's DuplicateKeyError
    (core/View.js is not in the sources; the spec does not fix the
    text). *)
Definition MULTITON_MSG : string :=
  "View instance for this Multiton key already constructed!".

(** Modelled from the spec: the constructor of View (core/View.js is not
    in the sources).  "DuplicateKeyError - raised when a multiton
    constructor is invoked directly for a key already in use"; the
    registries of a new View are empty. *)
Definition new (key : value) : Js World loc :=
  inst ← gets (λ w, read_obj (View_instanceMap w) key);
  if truthy_ref inst then throw (JsError MULTITON_MSG)
  else
    this ← alloc_view {| observerMap := ∅; multitonKey := key |};
    modify (set_View_instanceMap <[toPropertyKey key := this]>);;
    mret this.

(** Modelled from the spec: View.getInstance (core/View.js is not in the
    sources).  The View is "scoped per multiton key": one View per key,
    constructed at the first call.  The specification is silent on a
    falsy key; the factory is given the guard of the two factories that
    are in the sources, an assumption that shows only in the fields
    [view] and [controller] of a Facade constructed with a falsy key. *)
Definition getInstance (key : value) : Js World (jsref loc) :=
  if negb (truthy key) then mret Null
  else
    inst ← gets (λ w, read_obj (View_instanceMap w) key);
    (if negb (truthy_ref inst)
     then this ← new key;
          modify (set_View_instanceMap <[toPropertyKey key := this]>)
     else mret ());;
    gets (λ w, read_obj (View_instanceMap w) key).

(** Modelled from the spec: View.removeView (core/View.js is not in the
    sources).  "an external teardown call must deterministically release
    a key's View and Controller registries". *)
Definition removeView (key : value) : Js World () :=
  modify (set_View_instanceMap (delete (toPropertyKey key))).

(** Modelled from the spec: View.registerObserver (core/View.js is not in
    the sources).  "appends observer to the ordered sequence for name,
    creating the sequence if absent". *)
Definition registerObserver (notificationName : value) (observer : Observer.t)
    : Js ViewObj.t () :=
  modify (set_observerMap (λ m,
    <[toPropertyKey notificationName :=
        default [] (m !! toPropertyKey notificationName) ++ [observer]]> m)).

(** Modelled from the spec: the scan of View.removeObserver (core/View.js
    is not in the sources): the first Observer of the sequence whose
    context is [ctx] is taken out. *)
Fixpoint remove_first (ctx : nat) (observers : list Observer.t) : list Observer.t :=
  match observers with
  | [] => []
  | o :: rest =>
      if Nat.eqb (Observer.notifyContext o) ctx then rest
      else o :: remove_first ctx rest
  end.

(** Modelled from the spec: View.removeObserver (core/View.js is not in
    the sources).  "scans the ordered sequence for name, removing the
    first-and-only Observer whose context equals contextToRemove.  If the
    resulting sequence is empty, the name key is deleted from the map
    entirely". *)
Definition removeObserver (notificationName : value) (notifyContext : nat)
    : Js ViewObj.t () :=
  modify (set_observerMap (λ m,
    match m !! toPropertyKey notificationName with
    | None => m
    | Some observers =>
        match remove_first notifyContext observers with
        | [] => delete (toPropertyKey notificationName) m
        | o :: rest => <[toPropertyKey notificationName := o :: rest]> m
        end
    end)).

Section Instance.
Context `{ObserverHooks}.

(** Modelled from the spec: the loop of View.notifyObservers over the
    snapshot (core/View.js is not in the sources): each Observer in
    turn, in the order of the snapshot. *)
Fixpoint notify_each (observers : list Observer.t) (notification : Notification.t)
    : Js ViewObj.t () :=
  match observers with
  | [] => mret ()
  | observer :: rest =>
      extern (NotifyObserver observer notification)
             (notifyObserver observer notification);;
      notify_each rest notification
  end.

(** Modelled from the spec: View.notifyObservers (core/View.js is not
    in the sources).  "if no sequence is registered for
    notification.name, returns with no effect.  Otherwise, dispatch to
    a snapshot copy of the sequence taken before notifying any
    observer"; "Each Observer in the snapshot is notified in snapshot
    order". *)
Definition notifyObservers (notification : Notification.t) : Js ViewObj.t () :=
  observers_ref ← gets (λ this,
    observerMap this !! toPropertyKey (Notification.name notification));
  match observers_ref with
  | None => mret ()
  | Some observers => notify_each observers notification
  end.
End Instance.
End View.

(** ** core/Controller.js *)

Module Controller.
Import ControllerObj.

(** Modelled from the spec: the message of the Controller's
    DuplicateKeyError (core/Controller.js is not in the sources; the spec
    does not fix the text). *)
Definition MULTITON_MSG : string :=
  "Controller instance for this Multiton key already constructed!".

(** Modelled from the spec: the constructor of Controller
    (core/Controller.js is not in the sources), as for the View. *)
Definition new (key : value) : Js World loc :=
  inst ← gets (λ w, read_obj (Controller_instanceMap w) key);
  if truthy_ref inst then throw (JsError MULTITON_MSG)
  else
    this ← alloc_controller {| commandMap := ∅; multitonKey := key |};
    modify (set_Controller_instanceMap <[toPropertyKey key := this]>);;
    mret this.

(** Modelled from the spec: Controller.getInstance (core/Controller.js is
    not in the sources).  The Controller is "scoped per multiton key";
    the factory is written as the one of the View, with the same guard
    for a falsy key. *)
Definition getInstance (key : value) : Js World (jsref loc) :=
  if negb (truthy key) then mret Null
  else
    inst ← gets (λ w, read_obj (Controller_instanceMap w) key);
    (if negb (truthy_ref inst)
     then this ← new key;
          modify (set_Controller_instanceMap <[toPropertyKey key := this]>)
     else mret ());;
    gets (λ w, read_obj (Controller_instanceMap w) key).

(** Modelled from the spec: Controller.removeController
    (core/Controller.js is not in the sources).  "an external teardown
    call must deterministically release a key's View and Controller
    registries". *)
Definition removeController (key : value) : Js World () :=
  modify (set_Controller_instanceMap (delete (toPropertyKey key))).
End Controller.

(** ** patterns/facade/Facade.js *)

Module Facade.
Import FacadeObj.

Definition MULTITON_MSG : string :=
  "Facade instance for this Multiton key already constructed!".

(** [initializeNotifier(key) { this.multitonKey = key }] *)
Definition initializeNotifier (this : loc) (key : value) : Js World () :=
  on_facade this (modify (set_multitonKey key)).

(** [initializeModel()] *)
Definition initializeModel (this : loc) : Js World () :=
  m ← on_facade this (gets model);
  if truthy_ref m then mret ()
  else
    key ← on_facade this (gets multitonKey);
    r ← Model.getInstance key;
    on_facade this (modify (set_model r)).

(** [initializeController()] *)
Definition initializeController (this : loc) : Js World () :=
  c ← on_facade this (gets controller);
  if truthy_ref c then mret ()
  else
    key ← on_facade this (gets multitonKey);
    r ← Controller.getInstance key;
    on_facade this (modify (set_controller r)).

(** [initializeView()] *)
Definition initializeView (this : loc) : Js World () :=
  v ← on_facade this (gets view);
  if truthy_ref v then mret ()
  else
    key ← on_facade this (gets multitonKey);
    r ← View.getInstance key;
    on_facade this (modify (set_view r)).

(** [initializeFacade()] *)
Definition initializeFacade (this : loc) : Js World () :=
  initializeModel this;;
  initializeController this;;
  initializeView this.

(** [function Facade(key)], called with [new]: the [_classCallCheck] of the
    transpiled text then passes. *)
Definition new (key : value) : Js World loc :=
  inst ← gets (λ w, read_obj (Facade_instanceMap w) key);
  if negb (nullish inst) then throw (JsError MULTITON_MSG)
  else
    this ← alloc_facade
      {| controller := Null; model := Null; view := Null; multitonKey := VNull |};
    initializeNotifier this key;;
    modify (set_Facade_instanceMap <[toPropertyKey key := this]>);;
    initializeFacade this;;
    mret this.

(** [Facade.getInstance] *)
Definition getInstance (key : value) : Js World (jsref loc) :=
  if negb (truthy key) then mret Null
  else
    inst ← gets (λ w, read_obj (Facade_instanceMap w) key);
    (if negb (truthy_ref inst)
     then this ← new key;
          modify (set_Facade_instanceMap <[toPropertyKey key := this]>)
     else mret ());;
    gets (λ w, read_obj (Facade_instanceMap w) key).

(** [Facade.hasCore] *)
Definition hasCore (key : value) : Js World bool :=
  gets (λ w, negb (negb (truthy_ref (read_obj (Facade_instanceMap w) key)))).

(** [Facade.removeCore] *)
Definition removeCore (key : value) : Js World () :=
  inst ← gets (λ w, read_obj (Facade_instanceMap w) key);
  if negb (truthy_ref inst) then mret ()
  else
    Model.removeModel key;;
    View.removeView key;;
    Controller.removeController key;;
    modify (set_Facade_instanceMap (delete (toPropertyKey key))).

Section Instance.
Context `{ProxyHooks} `{ObserverHooks}.

(** [this.model.m(...)]: a member access on [null] is a TypeError. *)
Definition call_model {A} (m : jsref loc) (c : Js ModelObj.t A) : Js World A :=
  match m with
  | Obj l => on_model l c
  | _ => throw TypeError
  end.

(** [registerProxy(proxy)] *)
Definition registerProxy (this : loc) (proxy : Proxy) : Js World () :=
  m ← on_facade this (gets model);
  call_model m (Model.registerProxy proxy).

(** [retrieveProxy(proxyName)] *)
Definition retrieveProxy (this : loc) (proxyName : value) : Js World (jsref Proxy) :=
  m ← on_facade this (gets model);
  call_model m (Model.retrieveProxy proxyName).

(** [removeProxy(proxyName)] *)
Definition removeProxy (this : loc) (proxyName : value) : Js World (jsref Proxy) :=
  m ← on_facade this (gets model);
  if truthy_ref m then call_model m (Model.removeProxy proxyName)
  else mret Null.

(** [hasProxy(proxyName)] *)
Definition hasProxy (this : loc) (proxyName : value) : Js World bool :=
  m ← on_facade this (gets model);
  call_model m (Model.hasProxy proxyName).

(** [notifyObservers(notification)] *)
Definition notifyObservers (this : loc) (notification : Notification.t)
    : Js World () :=
  v ← on_facade this (gets view);
  match v with
  | Obj l => on_view l (View.notifyObservers notification)
  | _ => mret ()
  end.

(** Modelled from the spec: [new Notification(notificationName, body,
    type)] (patterns/observer/Notification.js is not in the sources)
    builds the envelope {name, body, type}; the construction is
    recorded in the trace. *)
Definition new_Notification (notificationName body type : value)
    : Js World Notification.t :=
  λ w, let n := Notification.Mk notificationName body type in
       (Normal n, w, [NewNotification n]).

(** [sendNotification(notificationName, body, type)] *)
Definition sendNotification (this : loc) (notificationName body type : value)
    : Js World () :=
  notification ← new_Notification notificationName body type;
  notifyObservers this notification.
End Instance.
End Facade.

(** ** The Facade's pass-through to the Controller and the View *)

(** A Mediator and a command class are user code; the Facade only passes
    references to them on. *)
Inductive Mediator : Type := MediatorRef (id : nat).
Inductive CommandClass : Type := CommandClassRef (id : nat).

(** The methods of the Controller and of the View that the Facade calls.
    core/Controller.js and core/View.js are not in the sources, so each
    method is a parameter: a computation on the program state, given the
    address of the object it is called on. *)
Class ActorMethods : Type := {
  Controller_registerCommand : loc → value → CommandClass → Js World ();
  Controller_removeCommand : loc → value → Js World ();
  Controller_hasCommand : loc → value → Js World bool;
  View_registerMediator : loc → Mediator → Js World ();
  View_retrieveMediator : loc → value → Js World (jsref Mediator);
  View_removeMediator : loc → value → Js World (jsref Mediator);
  View_hasMediator : loc → value → Js World bool }.

Module FacadeActors.
Import FacadeObj.

Section Instance.
Context `{ActorMethods}.

(** [r.m(...)] for a field [r] of the Facade: a member access on [null]
    is a TypeError. *)
Definition member {A} (r : jsref loc) (c : loc → Js World A) : Js World A :=
  match r with
  | Obj l => c l
  | _ => throw TypeError
  end.

(** [registerCommand(notificationName, commandClassRef)] *)
Definition registerCommand (this : loc) (notificationName : value)
    (commandClassRef : CommandClass) : Js World () :=
  c ← on_facade this (gets controller);
  member c (λ l, Controller_registerCommand l notificationName commandClassRef).

(** [removeCommand(notificationName)] *)
Definition removeCommand (this : loc) (notificationName : value) : Js World () :=
  c ← on_facade this (gets controller);
  member c (λ l, Controller_removeCommand l notificationName).

(** [hasCommand(notificationName)] *)
Definition hasCommand (this : loc) (notificationName : value) : Js World bool :=
  c ← on_facade this (gets controller);
  member c (λ l, Controller_hasCommand l notificationName).

(** [registerMediator(mediator)] *)
Definition registerMediator (this : loc) (mediator : Mediator) : Js World () :=
  v ← on_facade this (gets view);
  if truthy_ref v then member v (λ l, View_registerMediator l mediator)
  else mret ().

(** [retrieveMediator(mediatorName)] *)
Definition retrieveMediator (this : loc) (mediatorName : value)
    : Js World (jsref Mediator) :=
  v ← on_facade this (gets view);
  member v (λ l, View_retrieveMediator l mediatorName).

(** [removeMediator(mediatorName)] *)
Definition removeMediator (this : loc) (mediatorName : value)
    : Js World (jsref Mediator) :=
  v ← on_facade this (gets view);
  if truthy_ref v then member v (λ l, View_removeMediator l mediatorName)
  else mret Null.

(** [hasMediator(mediatorName)] *)
Definition hasMediator (this : loc) (mediatorName : value) : Js World bool :=
  v ← on_facade this (gets view);
  member v (λ l, View_hasMediator l mediatorName).
End Instance.
End FacadeActors.

(** ** Derived notions *)

(** What [getInstance(k)] of a multiton class returns, given the
    instance map of the class as the call leaves it: the entry of [k],
    or [null] for a falsy [k]. *)
Definition instance_of (imap : gmap string loc) (k : value) : jsref loc :=
  if truthy k then read_obj imap k else Null.

(** What the factory of one core actor leaves alone: the Facades and the
    instance maps of the other classes. *)
Definition Model_frame (w w1 : World) : Prop :=
  facades w1 = facades w ∧ Facade_instanceMap w1 = Facade_instanceMap w ∧
  View_instanceMap w1 = View_instanceMap w ∧
  Controller_instanceMap w1 = Controller_instanceMap w.

Definition View_frame (w w1 : World) : Prop :=
  facades w1 = facades w ∧ Facade_instanceMap w1 = Facade_instanceMap w ∧
  Model_instanceMap w1 = Model_instanceMap w ∧
  Controller_instanceMap w1 = Controller_instanceMap w.

Definition Controller_frame (w w1 : World) : Prop :=
  facades w1 = facades w ∧ Facade_instanceMap w1 = Facade_instanceMap w ∧
  Model_instanceMap w1 = Model_instanceMap w ∧
  View_instanceMap w1 = View_instanceMap w.

(** The Facade of key [k] as its constructor leaves it: each field holds
    what the factory of its class returns for [k]. *)
Definition composed (k : value) (w : World) : FacadeObj.t :=
  FacadeObj.Mk (instance_of (Controller_instanceMap w) k)
               (instance_of (Model_instanceMap w) k)
               (instance_of (View_instanceMap w) k) k.

(** The Notifications constructed in the course of a trace. *)
Definition constructions (t : list Event) : list Notification.t :=
  omap (λ e, match e with NewNotification n => Some n | _ => None end) t.

(** The state with the entry of [pk] deleted from the four instance
    maps; the object stores are as they were. *)
Definition without_core (pk : string) (w : World) : World :=
  MkWorld (models w) (views w) (controllers w) (facades w)
    (delete pk (Model_instanceMap w)) (delete pk (View_instanceMap w))
    (delete pk (Controller_instanceMap w)) (delete pk (Facade_instanceMap w)).

(** The state [Model.getInstance(k)] leaves: for a truthy [k] without an
    entry a new Model is stored and entered under [k]; otherwise the state
    is the one before. *)
Definition ensure_model (k : value) (w : World) : World :=
  if truthy k then
    match Model_instanceMap w !! toPropertyKey k with
    | Some _ => w
    | None =>
        set_Model_instanceMap <[toPropertyKey k := length (models w)]>
          (set_models (λ h, h ++ [ModelObj.Mk ∅ k]) w)
    end
  else w.

(** The same for [Controller.getInstance(k)] and [View.getInstance(k)]. *)
Definition ensure_controller (k : value) (w : World) : World :=
  if truthy k then
    match Controller_instanceMap w !! toPropertyKey k with
    | Some _ => w
    | None =>
        set_Controller_instanceMap <[toPropertyKey k := length (controllers w)]>
          (set_controllers (λ h, h ++ [ControllerObj.Mk ∅ k]) w)
    end
  else w.

Definition ensure_view (k : value) (w : World) : World :=
  if truthy k then
    match View_instanceMap w !! toPropertyKey k with
    | Some _ => w
    | None =>
        set_View_instanceMap <[toPropertyKey k := length (views w)]>
          (set_views (λ h, h ++ [ViewObj.Mk ∅ k]) w)
    end
  else w.

(** The three factories in the order [initializeFacade] calls them. *)
Definition core_of (k : value) (w : World) : World :=
  ensure_view k (ensure_controller k (ensure_model k w)).

(** A Facade for [k], composed from the instances of [w], appended to the
    store and entered in [Facade.instanceMap]. *)
Definition add_facade (k : value) (w : World) : World :=
  set_Facade_instanceMap <[toPropertyKey k := length (facades w)]>
    (set_facades (λ h, h ++ [composed k w]) w).

(** Every entry of [Model.instanceMap] refers to a stored Model whose
    multiton key names the entry's property. *)
Definition Model_registry_ok (w : World) : Prop :=
  ∀ (s : string) (l : loc), Model_instanceMap w !! s = Some l →
    ∃ m, models w !! l = Some m ∧ toPropertyKey (ModelObj.multitonKey m) = s.

(** Every entry of [Facade.instanceMap] refers to a stored Facade whose
    multiton key names the entry's property, and whose Model, when it has
    one, is a stored Model of a key that names the same property. *)
Definition Facade_registry_ok (w : World) : Prop :=
  ∀ (s : string) (l : loc), Facade_instanceMap w !! s = Some l →
    ∃ f, facades w !! l = Some f ∧
         toPropertyKey (FacadeObj.multitonKey f) = s ∧
         ∀ lm, FacadeObj.model f = Obj lm →
           ∃ m, models w !! lm = Some m ∧
                toPropertyKey (ModelObj.multitonKey m) = s.

Definition registry_ok (w : World) : Prop :=
  Model_registry_ok w ∧ Facade_registry_ok w.

(** Every Model and every Facade of [w] is in [w1], at the same address
    and with the same fields. *)
Definition objects_kept (w w1 : World) : Prop :=
  models w `prefix_of` models w1 ∧ facades w `prefix_of` facades w1.

(** ** Property names that an Array supplies itself

    [Model.instanceMap], [Facade.instanceMap] and [proxyMap] are created
    as [[]].  An Array answers to some property names before anything is
    assigned to it: its own [length], and the names it inherits from
    [Array.prototype] and [Object.prototype], among them the accessor
    [__proto__].  Under such a name the code is not the code of a map:
    a guard reads the inherited value, [length] refuses an object and
    cannot be deleted, and a write to [__proto__] replaces the prototype.
    The list has the names of ECMAScript up to its 2025 edition, those of
    its Annex B, and those that proposals and older engines added: a name
    outside it is supplied by no Array whose prototypes are the
    engine's own. *)
Definition Array_names : list string :=
  ["length"; "constructor"; "at"; "concat"; "copyWithin"; "entries";
   "every"; "fill"; "filter"; "find"; "findIndex"; "findLast";
   "findLastIndex"; "flat"; "flatMap"; "forEach"; "includes"; "indexOf";
   "join"; "keys"; "lastIndexOf"; "map"; "pop"; "push"; "reduce";
   "reduceRight"; "reverse"; "shift"; "slice"; "some"; "sort"; "splice";
   "toLocaleString"; "toReversed"; "toSorted"; "toSpliced"; "toString";
   "unshift"; "values"; "with"; "hasOwnProperty"; "isPrototypeOf";
   "propertyIsEnumerable"; "valueOf"; "__proto__"; "__defineGetter__";
   "__defineSetter__"; "__lookupGetter__"; "__lookupSetter__"; "group";
   "groupBy"; "groupToMap"; "groupByToMap"; "flatten"; "contains";
   "item"; "lastItem"; "lastIndex"; "toSource"; "watch"; "unwatch";
   "eval"; "__noSuchMethod__"; "__count__"; "__parent__"; "filterOut";
   "filterReject"; "uniqueBy"].

Definition array_name (s : string) : bool :=
  existsb (String.eqb s) Array_names.

(** A key whose property name is the one [toPropertyKey] gives.  A Number
    prints digit by digit when it is a safe integer, at most 2^53 - 1 in
    absolute value; JavaScript rounds the digits of larger ones and
    writes them with an exponent from 10^21 on. *)
Definition exact_key (k : value) : bool :=
  match k with
  | VNum z => (Z.abs z <=? 9007199254740991)%Z
  | _ => true
  end.

(** A proxy map that has been used as a map only: it holds no entry under
    a name of the Array.  (A proxy registered as "__proto__" would become
    the prototype of the map, and names without an entry would then read
    through it.) *)
Definition ordinary_map (pm : gmap string (jsref Proxy)) : Prop :=
  ∀ s : string, array_name s = true → pm !! s = None.

(** ** Sample states and sample user code *)

(** Hooks that do nothing, with the Proxy's number as its name. *)
Definition inert_hooks : ProxyHooks := {|
  getProxyName := λ p, match p with ProxyRef i => VNum (Z.of_nat i) end;
  initializeNotifier := λ _ _ m, m;
  onRegister := λ _ m, m;
  onRemove := λ _ m, m |}.

(** Callbacks of Observers that do nothing. *)
Definition inert_observers : ObserverHooks := {|
  notifyObserver := λ _ _ v, v |}.

(** Callbacks that change the sequence under dispatch: every Observer
    removes itself when it is notified, and the one with context 1 also
    registers a newcomer for the same name. *)
Definition restless_observers : ObserverHooks := {|
  notifyObserver := λ o n v,
    let v1 := final (View.removeObserver (Notification.name n)
                       (Observer.notifyContext o) v) in
    if Nat.eqb (Observer.notifyContext o) 1
    then final (View.registerObserver (Notification.name n) (Observer.Mk 9 9) v1)
    else v1 |}.

(** Methods of the Controller and the View that do nothing and find
    nothing. *)
Definition inert_actors : ActorMethods := {|
  Controller_registerCommand := λ _ _ _, mret ();
  Controller_removeCommand := λ _ _, mret ();
  Controller_hasCommand := λ _ _, mret false;
  View_registerMediator := λ _ _, mret ();
  View_retrieveMediator := λ _ _, mret Undefined;
  View_removeMediator := λ _ _, mret Undefined;
  View_hasMediator := λ _ _, mret false |}.

(** Two cores, "a" and "b", each obtained from [Facade.getInstance]. *)
Definition two_cores : World :=
  final (Facade.getInstance (VStr "b")
           (final (Facade.getInstance (VStr "a") initial))).

(** The same with a third Facade, constructed directly with the empty
    string as its key: its three fields stay [null]. *)
Definition with_nameless_facade : World :=
  final (Facade.new (VStr "") two_cores).

(** A View with three Observers registered for "greet". *)
Definition greeting_view : ViewObj.t :=
  ViewObj.Mk
    {["greet" := [Observer.Mk 1 1; Observer.Mk 2 2; Observer.Mk 3 3]]}
    (VStr "a").

(** The three Facades, with that View as the View of core "a". *)
Definition greeting_world : World :=
  set_views <[0 := greeting_view]> with_nameless_facade.

(** * The same code on the Arrays themselves

    [Model.instanceMap], [Facade.instanceMap] and [proxyMap] once more,
    now as the Arrays they are: with their [length], with the names they
    inherit, and with the errors that an Array raises where a map does
    not.  [Exact] embeds [core/Model.js] and the constructor and the
    static methods of the Facade on these Arrays.  On property names
    that the Array does not supply itself this is the code of the modules
    [Model] and [Facade] above, which the last part of the file proves. *)

(** The property names that the prototype chain of an Array holds in the
    engine that runs the code (those of [Array.prototype] and of
    [Object.prototype]). *)
Class Engine : Type := { inherits : string → bool }.

Module JSArray.

(** An Array created as [[]] and used with string property names.  [own]
    has its own properties but [length]; they hold what the code assigns:
    an object or [null]. *)
Record t (A : Type) : Type := Mk { own : gmap string (jsref A); length : N }.
Arguments Mk {A} own length.
Arguments own {A} _.
Arguments length {A} _.

Definition empty {A} : t A := Mk ∅ 0%N.

(** What [a[s]] evaluates to. *)
Inductive read (A : Type) : Type :=
| Ref (r : jsref A)    (* an own property, or [undefined] when there is none *)
| Number (n : N)       (* the length *)
| Inherited.           (* a function of the prototype chain, or for
                          [__proto__] the prototype itself *)
Arguments Ref {A} r.
Arguments Number {A} n.
Arguments Inherited {A}.

Definition ToBoolean {A} (v : read A) : bool :=
  match v with
  | Ref r => truthy_ref r
  | Number n => negb (N.eqb n 0)
  | Inherited => true
  end.

(** [v != null]. *)
Definition not_null {A} (v : read A) : bool :=
  match v with
  | Ref r => negb (nullish r)
  | Number _ | Inherited => true
  end.

Definition digit (c : Ascii.ascii) : option N :=
  let n := Ascii.N_of_ascii c in
  if ((48 <=? n) && (n <=? 57))%N then Some (n - 48)%N else None.

Fixpoint digits (s : string) (acc : N) : option N :=
  match s with
  | EmptyString => Some acc
  | String c rest =>
      match digit c with
      | Some d => digits rest (10 * acc + d)%N
      | None => None
      end
  end.

(** The array index that a property name denotes, if any: the name is the
    canonical decimal form of an integer below 2^32 - 1. *)
Definition index (s : string) : option N :=
  match s with
  | EmptyString => None
  | String _ _ =>
      match digits s 0 with
      | Some n =>
          if (n <? 4294967295)%N && String.eqb (pretty n) s then Some n
          else None
      | None => None
      end
  end.

(** [a[s]]: the length, an own property, or what the chain holds. *)
Definition get `{Engine} {A} (a : t A) (s : string) : read A :=
  if String.eqb s "length" then Number (length a)
  else match own a !! s with
       | Some r => Ref r
       | None => if inherits s then Inherited else Ref Undefined
       end.

(** What [a[s] = v] does. *)
Inductive assigned (A : Type) : Type :=
| Assigned (a : t A)
| InvalidLength         (* RangeError: the value is no length *)
| PrototypeReplaced.    (* [__proto__]: the setter of [Object.prototype] *)
Arguments Assigned {A} a.
Arguments InvalidLength {A}.
Arguments PrototypeReplaced {A}.

(** [a[s] = v] for an object or [null].  Under "length" an object (whose
    conversion to a Number is that of a plain object: NaN) is refused and
    [null] counts as 0, which removes every index property.  An index
    name moves the length past the index.  Any other name becomes an own
    property, also one that shadows an inherited function. *)
Definition set `{Engine} {A} (a : t A) (s : string) (v : jsref A) : assigned A :=
  if String.eqb s "length" then
    match v with
    | Null =>
        Assigned (Mk (filter (λ e : string * jsref A, index e.1 = None) (own a)) 0%N)
    | Undefined | Obj _ => InvalidLength
    end
  else if String.eqb s "__proto__" && inherits "__proto__"
          && negb (bool_decide (is_Some (own a !! "__proto__")))
  then PrototypeReplaced
  else
    Assigned (Mk (<[s := v]> (own a))
                 (match index s with
                  | Some i => N.max (length a) (i + 1)
                  | None => length a
                  end)).

(** [delete a[s]] in strict code: [None] is the TypeError for the length,
    which cannot be deleted.  Deleting what is not an own property does
    nothing, and deleting an index leaves the length. *)
Definition delete {A} (a : t A) (s : string) : option (t A) :=
  if String.eqb s "length" then None
  else Some (Mk (base.delete s (own a)) (length a)).

End JSArray.

Module Exact.

Module ModelObj.
(** A Model, with [this.proxyMap = []] as the Array it is. *)
Record t : Type := Mk { proxyMap : JSArray.t Proxy; multitonKey : value }.

Definition set_proxyMap (a : JSArray.t Proxy) (this : t) : t :=
  Mk a (multitonKey this).
End ModelObj.

Module FacadeObj.
(** A Facade.  [model] holds what [Model.getInstance] returned. *)
Record t : Type := Mk {
  controller : jsref loc;
  model : JSArray.read loc;
  view : jsref loc;
  multitonKey : value }.

Definition set_controller (r : jsref loc) (this : t) : t :=
  Mk r (model this) (view this) (multitonKey this).
Definition set_model (r : JSArray.read loc) (this : t) : t :=
  Mk (controller this) r (view this) (multitonKey this).
Definition set_view (r : jsref loc) (this : t) : t :=
  Mk (controller this) (model this) r (multitonKey this).
Definition set_multitonKey (k : value) (this : t) : t :=
  Mk (controller this) (model this) (view this) k.
End FacadeObj.

(** The objects and the four static maps.  [View.instanceMap] and
    [Controller.instanceMap] stay maps of entries: their classes are not
    among the sources. *)
Record Heap : Type := MkHeap {
  models : list ModelObj.t;
  views : list ViewObj.t;
  controllers : list ControllerObj.t;
  facades : list FacadeObj.t;
  Model_instanceMap : JSArray.t loc;
  View_instanceMap : gmap string loc;
  Controller_instanceMap : gmap string loc;
  Facade_instanceMap : JSArray.t loc }.

Definition set_models (f : list ModelObj.t → list ModelObj.t) (h : Heap) : Heap :=
  MkHeap (f (models h)) (views h) (controllers h) (facades h)
    (Model_instanceMap h) (View_instanceMap h) (Controller_instanceMap h)
    (Facade_instanceMap h).
Definition set_views (f : list ViewObj.t → list ViewObj.t) (h : Heap) : Heap :=
  MkHeap (models h) (f (views h)) (controllers h) (facades h)
    (Model_instanceMap h) (View_instanceMap h) (Controller_instanceMap h)
    (Facade_instanceMap h).
Definition set_controllers (f : list ControllerObj.t → list ControllerObj.t)
    (h : Heap) : Heap :=
  MkHeap (models h) (views h) (f (controllers h)) (facades h)
    (Model_instanceMap h) (View_instanceMap h) (Controller_instanceMap h)
    (Facade_instanceMap h).
Definition set_facades (f : list FacadeObj.t → list FacadeObj.t) (h : Heap) : Heap :=
  MkHeap (models h) (views h) (controllers h) (f (facades h))
    (Model_instanceMap h) (View_instanceMap h) (Controller_instanceMap h)
    (Facade_instanceMap h).
Definition set_Model_instanceMap (a : JSArray.t loc) (h : Heap) : Heap :=
  MkHeap (models h) (views h) (controllers h) (facades h)
    a (View_instanceMap h) (Controller_instanceMap h) (Facade_instanceMap h).
Definition set_View_instanceMap (f : gmap string loc → gmap string loc)
    (h : Heap) : Heap :=
  MkHeap (models h) (views h) (controllers h) (facades h)
    (Model_instanceMap h) (f (View_instanceMap h)) (Controller_instanceMap h)
    (Facade_instanceMap h).
Definition set_Controller_instanceMap (f : gmap string loc → gmap string loc)
    (h : Heap) : Heap :=
  MkHeap (models h) (views h) (controllers h) (facades h)
    (Model_instanceMap h) (View_instanceMap h) (f (Controller_instanceMap h))
    (Facade_instanceMap h).
Definition set_Facade_instanceMap (a : JSArray.t loc) (h : Heap) : Heap :=
  MkHeap (models h) (views h) (controllers h) (facades h)
    (Model_instanceMap h) (View_instanceMap h) (Controller_instanceMap h) a.

(** [Model.instanceMap = []], [Facade.instanceMap = []]. *)
Definition initial : Heap :=
  MkHeap [] [] [] [] JSArray.empty ∅ ∅ JSArray.empty.

(** A run as in [Js], or none.  There is none once an assignment has
    replaced the prototype of an Array: what the Array inherits from then
    on is not what the engine supplies. *)
Definition Run (S A : Type) : Type := S → option (completion A * S * list Event).

Definition Run_ret {S A} (a : A) : Run S A := λ s, Some (Normal a, s, []).

Definition Run_bind {S A B} (k : A → Run S B) (c : Run S A) : Run S B :=
  λ s, match c s with
       | Some (Normal a, s1, t1) =>
           match k a s1 with
           | Some (r, s2, t2) => Some (r, s2, t1 ++ t2)
           | None => None
           end
       | Some (Throw e, s1, t1) => Some (Throw e, s1, t1)
       | None => None
       end.

#[global] Instance Run_mret {S} : MRet (Run S) := @Run_ret S.
#[global] Instance Run_mbind {S} : MBind (Run S) := @Run_bind S.

Definition lift {S A} (c : Js S A) : Run S A := λ s, Some (c s).

(** [arr[s] = v] on the Array that [arr] selects in the state. *)
Definition assign `{Engine} {S A} (arr : S → JSArray.t A)
    (put : JSArray.t A → S → S) (s : string) (v : jsref A) : Run S () :=
  λ st, match JSArray.set (arr st) s v with
        | JSArray.Assigned a => Some (Normal (), put a st, [])
        | JSArray.InvalidLength => Some (Throw RangeError, st, [])
        | JSArray.PrototypeReplaced => None
        end.

(** [delete arr[s]]. *)
Definition remove {S A} (arr : S → JSArray.t A) (put : JSArray.t A → S → S)
    (s : string) : Run S () :=
  λ st, match JSArray.delete (arr st) s with
        | Some a => Some (Normal (), put a st, [])
        | None => Some (Throw TypeError, st, [])
        end.

Definition alloc_model (m : ModelObj.t) : Run Heap loc :=
  λ h, Some (Normal (length (models h)), set_models (λ l, l ++ [m]) h, []).
Definition alloc_view (v : ViewObj.t) : Run Heap loc :=
  λ h, Some (Normal (length (views h)), set_views (λ l, l ++ [v]) h, []).
Definition alloc_controller (c : ControllerObj.t) : Run Heap loc :=
  λ h, Some (Normal (length (controllers h)), set_controllers (λ l, l ++ [c]) h, []).
Definition alloc_facade (f : FacadeObj.t) : Run Heap loc :=
  λ h, Some (Normal (length (facades h)), set_facades (λ l, l ++ [f]) h, []).

(** Running a method of the Facade at address [l] on the store. *)
Definition on_facade {A} (l : loc) (c : Run FacadeObj.t A) : Run Heap A :=
  λ h, match facades h !! l with
       | Some f =>
           match c f with
           | Some (r, f1, t) => Some (r, set_facades <[l := f1]> h, t)
           | None => None
           end
       | None => Some (Throw TypeError, h, [])
       end.

(** The methods of a Proxy, acting on the Model that calls them. *)
Class ProxyHooks : Type := {
  getProxyName : Proxy → value;
  initializeNotifier : Proxy → value → ModelObj.t → ModelObj.t;
  onRegister : Proxy → ModelObj.t → ModelObj.t;
  onRemove : Proxy → ModelObj.t → ModelObj.t }.

Module Model.
Import ModelObj.

(** [initializeModel() {}] *)
Definition initializeModel (this : loc) : Run Heap () := mret ().

(** The constructor (index.js, lines 77 to 103). *)
Definition new `{Engine} (key : value) : Run Heap loc :=
  inst ← lift (gets (λ h, JSArray.get (Model_instanceMap h) (toPropertyKey key)));
  if JSArray.ToBoolean inst then lift (throw (JsError Model.MULTITON_MSG))
  else
    this ← alloc_model {| proxyMap := JSArray.empty; multitonKey := key |};
    assign Model_instanceMap set_Model_instanceMap (toPropertyKey key) (Obj this);;
    initializeModel this;;
    mret this.

(** [static getInstance(key)] (lines 128 to 137).  It returns what
    [Model.instanceMap[key]] reads, which need not be an instance. *)
Definition getInstance `{Engine} (key : value) : Run Heap (JSArray.read loc) :=
  if negb (truthy key) then mret (JSArray.Ref Null)
  else
    inst ← lift (gets (λ h, JSArray.get (Model_instanceMap h) (toPropertyKey key)));
    (if negb (JSArray.ToBoolean inst)
     then this ← new key;
          assign Model_instanceMap set_Model_instanceMap (toPropertyKey key) (Obj this)
     else mret ());;
    lift (gets (λ h, JSArray.get (Model_instanceMap h) (toPropertyKey key))).

(** [static removeModel(key)] (lines 195 to 197). *)
Definition removeModel (key : value) : Run Heap () :=
  remove Model_instanceMap set_Model_instanceMap (toPropertyKey key).

Section Instance.
Context `{Engine} `{ProxyHooks}.

(** [registerProxy(proxy)] (lines 143 to 147). *)
Definition registerProxy (proxy : Proxy) : Run ModelObj.t () :=
  key ← lift (gets multitonKey);
  lift (extern (ProxyCall proxy (InitializeNotifier key))
          (initializeNotifier proxy key));;
  lift (extern (ProxyCall proxy GetProxyName) id);;
  assign proxyMap set_proxyMap (toPropertyKey (getProxyName proxy)) (Obj proxy);;
  lift (extern (ProxyCall proxy OnRegister) (onRegister proxy)).

(** [retrieveProxy(proxyName)] and [hasProxy(proxyName)] (lines 156 to
    168). *)
Definition retrieveProxy (proxyName : value) : Run ModelObj.t (JSArray.read Proxy) :=
  lift (gets (λ this, JSArray.get (proxyMap this) (toPropertyKey proxyName))).

Definition hasProxy (proxyName : value) : Run ModelObj.t bool :=
  lift (gets (λ this,
    negb (negb (JSArray.ToBoolean
                  (JSArray.get (proxyMap this) (toPropertyKey proxyName)))))).

(** [removeProxy(proxyName)] (lines 178 to 186).  [proxy.onRemove()] is
    a call of a hook when [proxy] is a Proxy; a function or a number has
    no [onRemove], and the call is a TypeError. *)
Definition removeProxy (proxyName : value) : Run ModelObj.t (JSArray.read Proxy) :=
  proxy ← lift (gets (λ this, JSArray.get (proxyMap this) (toPropertyKey proxyName)));
  (if JSArray.ToBoolean proxy
   then assign proxyMap set_proxyMap (toPropertyKey proxyName) Null;;
        match proxy with
        | JSArray.Ref (Obj p) => lift (extern (ProxyCall p OnRemove) (onRemove p))
        | _ => lift (throw TypeError)
        end
   else mret ());;
  mret proxy.
End Instance.
End Model.

Module View.
(** Modelled from the spec: the constructor of View, as [View.new]
    above, on this state. *)
Definition new (key : value) : Run Heap loc :=
  inst ← lift (gets (λ h, read_obj (View_instanceMap h) key));
  if truthy_ref inst then lift (throw (JsError View.MULTITON_MSG))
  else
    this ← alloc_view {| ViewObj.observerMap := ∅; ViewObj.multitonKey := key |};
    lift (modify (set_View_instanceMap <[toPropertyKey key := this]>));;
    mret this.

(** Modelled from the spec: View.getInstance, as [View.getInstance]
    above, on this state. *)
Definition getInstance (key : value) : Run Heap (jsref loc) :=
  if negb (truthy key) then mret Null
  else
    inst ← lift (gets (λ h, read_obj (View_instanceMap h) key));
    (if negb (truthy_ref inst)
     then this ← new key;
          lift (modify (set_View_instanceMap <[toPropertyKey key := this]>))
     else mret ());;
    lift (gets (λ h, read_obj (View_instanceMap h) key)).

(** Modelled from the spec: View.removeView (core/View.js is not in the
    sources).  "an external teardown call must deterministically release
    a key's View and Controller registries". *)
Definition removeView (key : value) : Run Heap () :=
  lift (modify (set_View_instanceMap (base.delete (toPropertyKey key)))).
End View.

Module Controller.
(** Modelled from the spec: the constructor of Controller, as
    [Controller.new] above, on this state. *)
Definition new (key : value) : Run Heap loc :=
  inst ← lift (gets (λ h, read_obj (Controller_instanceMap h) key));
  if truthy_ref inst then lift (throw (JsError Controller.MULTITON_MSG))
  else
    this ← alloc_controller
      {| ControllerObj.commandMap := ∅; ControllerObj.multitonKey := key |};
    lift (modify (set_Controller_instanceMap <[toPropertyKey key := this]>));;
    mret this.

(** Modelled from the spec: Controller.getInstance, as
    [Controller.getInstance] above, on this state. *)
Definition getInstance (key : value) : Run Heap (jsref loc) :=
  if negb (truthy key) then mret Null
  else
    inst ← lift (gets (λ h, read_obj (Controller_instanceMap h) key));
    (if negb (truthy_ref inst)
     then this ← new key;
          lift (modify (set_Controller_instanceMap <[toPropertyKey key := this]>))
     else mret ());;
    lift (gets (λ h, read_obj (Controller_instanceMap h) key)).

(** Modelled from the spec: Controller.removeController
    (core/Controller.js is not in the sources), as for the View. *)
Definition removeController (key : value) : Run Heap () :=
  lift (modify (set_Controller_instanceMap (base.delete (toPropertyKey key)))).
End Controller.

Module Facade.
Import FacadeObj.

(** [initializeNotifier(key) { this.multitonKey = key }] *)
Definition initializeNotifier (this : loc) (key : value) : Run Heap () :=
  on_facade this (lift (modify (set_multitonKey key))).

(** [initializeModel()] (Facade.js as transpiled, line 114). *)
Definition initializeModel `{Engine} (this : loc) : Run Heap () :=
  m ← on_facade this (lift (gets model));
  if JSArray.ToBoolean m then mret ()
  else
    key ← on_facade this (lift (gets multitonKey));
    r ← Model.getInstance key;
    on_facade this (lift (modify (set_model r))).

(** [initializeController()] (line 89). *)
Definition initializeController (this : loc) : Run Heap () :=
  c ← on_facade this (lift (gets controller));
  if truthy_ref c then mret ()
  else
    key ← on_facade this (lift (gets multitonKey));
    r ← Controller.getInstance key;
    on_facade this (lift (modify (set_controller r))).

(** [initializeView()] (line 143). *)
Definition initializeView (this : loc) : Run Heap () :=
  v ← on_facade this (lift (gets view));
  if truthy_ref v then mret ()
  else
    key ← on_facade this (lift (gets multitonKey));
    r ← View.getInstance key;
    on_facade this (lift (modify (set_view r))).

(** [initializeFacade()] (line 55). *)
Definition initializeFacade `{Engine} (this : loc) : Run Heap () :=
  initializeModel this;;
  initializeController this;;
  initializeView this.

(** [function Facade(key)], called with [new] (lines 18 to 42). *)
Definition new `{Engine} (key : value) : Run Heap loc :=
  inst ← lift (gets (λ h, JSArray.get (Facade_instanceMap h) (toPropertyKey key)));
  if JSArray.not_null inst then lift (throw (JsError Facade.MULTITON_MSG))
  else
    this ← alloc_facade
      {| controller := Null; model := JSArray.Ref Null; view := Null;
         multitonKey := VNull |};
    initializeNotifier this key;;
    assign Facade_instanceMap set_Facade_instanceMap (toPropertyKey key) (Obj this);;
    initializeFacade this;;
    mret this.

(** [Facade.getInstance] (line 63). *)
Definition getInstance `{Engine} (key : value) : Run Heap (JSArray.read loc) :=
  if negb (truthy key) then mret (JSArray.Ref Null)
  else
    inst ← lift (gets (λ h, JSArray.get (Facade_instanceMap h) (toPropertyKey key)));
    (if negb (JSArray.ToBoolean inst)
     then this ← new key;
          assign Facade_instanceMap set_Facade_instanceMap (toPropertyKey key) (Obj this)
     else mret ());;
    lift (gets (λ h, JSArray.get (Facade_instanceMap h) (toPropertyKey key))).

(** [Facade.hasCore] (Facade.js as transpiled, line 257). *)
Definition hasCore `{Engine} (key : value) : Run Heap bool :=
  lift (gets (λ h,
    negb (negb (JSArray.ToBoolean
                  (JSArray.get (Facade_instanceMap h) (toPropertyKey key)))))).

(** [Facade.removeCore] (line 265). *)
Definition removeCore `{Engine} (key : value) : Run Heap () :=
  inst ← lift (gets (λ h, JSArray.get (Facade_instanceMap h) (toPropertyKey key)));
  if negb (JSArray.ToBoolean inst) then mret ()
  else
    Model.removeModel key;;
    View.removeView key;;
    Controller.removeController key;;
    remove Facade_instanceMap set_Facade_instanceMap (toPropertyKey key).
End Facade.

End Exact.

(** An engine whose prototypes hold every listed name. *)
Definition listed_names : Engine := {|
  inherits := λ s, array_name s && negb (String.eqb s "length") |}.

(** Hooks on the exact Model that do nothing, with the names of
    [inert_hooks]. *)
Definition inert_exact_hooks : Exact.ProxyHooks := {|
  Exact.getProxyName := @getProxyName inert_hooks;
  Exact.initializeNotifier := λ _ _ m, m;
  Exact.onRegister := λ _ m, m;
  Exact.onRemove := λ _ m, m |}.

(** The same for Proxies that are all named "length". *)
Definition hooks_named_length : Exact.ProxyHooks := {|
  Exact.getProxyName := λ _, VStr "length";
  Exact.initializeNotifier := λ _ _ m, m;
  Exact.onRegister := λ _ m, m;
  Exact.onRemove := λ _ m, m |}.

(** The static state once [Facade.instanceMap["0"]] holds a Facade. *)
Definition heap_with_core_0 : Exact.Heap :=
  Exact.set_Facade_instanceMap (JSArray.Mk {["0" := Obj 0]} 1) Exact.initial.

(** ** The two embeddings side by side *)

(** A Model as a map of entries and the same Model with its Array: the
    own properties of the Array are the entries. *)
Definition same_model (a : Exact.ModelObj.t) (m : ModelObj.t) : Prop :=
  JSArray.own (Exact.ModelObj.proxyMap a) = ModelObj.proxyMap m ∧
  Exact.ModelObj.multitonKey a = ModelObj.multitonKey m.

(** The hooks of the Proxies do the same to both. *)
Definition same_hooks (HE : Exact.ProxyHooks) (HM : ProxyHooks) : Prop :=
  (∀ p, Exact.getProxyName p = getProxyName p) ∧
  (∀ p key a m, same_model a m →
     same_model (Exact.initializeNotifier p key a) (initializeNotifier p key m)) ∧
  (∀ p a m, same_model a m →
     same_model (Exact.onRegister p a) (onRegister p m)) ∧
  (∀ p a m, same_model a m →
     same_model (Exact.onRemove p a) (onRemove p m)).

(** A Facade of the one and of the other. *)
Definition same_facade (a : Exact.FacadeObj.t) (f : FacadeObj.t) : Prop :=
  Exact.FacadeObj.controller a = FacadeObj.controller f ∧
  Exact.FacadeObj.model a = JSArray.Ref (FacadeObj.model f) ∧
  Exact.FacadeObj.view a = FacadeObj.view f ∧
  Exact.FacadeObj.multitonKey a = FacadeObj.multitonKey f.

(** The Facade with its fields as the code on the Arrays holds them. *)
Definition exact_facade (f : FacadeObj.t) : Exact.FacadeObj.t :=
  Exact.FacadeObj.Mk (FacadeObj.controller f) (JSArray.Ref (FacadeObj.model f))
    (FacadeObj.view f) (FacadeObj.multitonKey f).

(** The static state: the same objects at the same addresses, and the own
    properties of each instance map are the entries. *)
Definition same_heap (h : Exact.Heap) (w : World) : Prop :=
  Forall2 same_model (Exact.models h) (models w) ∧
  Exact.views h = views w ∧
  Exact.controllers h = controllers w ∧
  Forall2 same_facade (Exact.facades h) (facades w) ∧
  JSArray.own (Exact.Model_instanceMap h) = Obj <$> Model_instanceMap w ∧
  Exact.View_instanceMap h = View_instanceMap w ∧
  Exact.Controller_instanceMap h = Controller_instanceMap w ∧
  JSArray.own (Exact.Facade_instanceMap h) = Obj <$> Facade_instanceMap w.

(** A property name that the Array does not supply itself, in the engine
    at hand. *)
Definition ordinary `{Engine} (s : string) : Prop :=
  inherits s = false ∧ s ≠ "length".

(** * Properties *)

(** ** Running computations *)

Ltac js_unfold :=
  unfold mbind, mret, Js_mbind, Js_mret, Js_bind, Js_ret,
         gets, modify, throw, extern in *.

Ltac js_run := js_unfold; cbn.

Ltac js_bind := unfold mbind, mret, Js_mbind, Js_mret, Js_bind, Js_ret.

Lemma set_facades_id (w : World) (l : loc) (f : FacadeObj.t) :
  facades w !! l = Some f → set_facades <[l := f]> w = w.
Proof.
  intros Hf. destruct w; unfold set_facades; cbn in *.
  f_equal. by apply list_insert_id.
Qed.

Lemma set_models_id (w : World) (l : loc) (m : ModelObj.t) :
  models w !! l = Some m → set_models <[l := m]> w = w.
Proof.
  intros Hm. destruct w; unfold set_models; cbn in *.
  f_equal. by apply list_insert_id.
Qed.

Lemma set_views_id (w : World) (l : loc) (v : ViewObj.t) :
  views w !! l = Some v → set_views <[l := v]> w = w.
Proof.
  intros Hv. destruct w; unfold set_views; cbn in *.
  f_equal. by apply list_insert_id.
Qed.

(** Reading a field of the Facade at [l]. *)
Lemma on_facade_gets {A} (g : FacadeObj.t → A) (l : loc) (w : World) (f : FacadeObj.t) :
  facades w !! l = Some f →
  on_facade l (gets g) w = (Normal (g f), w, []).
Proof.
  intros Hf. unfold on_facade, gets. rewrite Hf. by rewrite set_facades_id.
Qed.

(** Writing a field of the Facade at [l]. *)
Lemma on_facade_modify (g : FacadeObj.t → FacadeObj.t) (l : loc) (w : World)
    (f : FacadeObj.t) :
  facades w !! l = Some f →
  on_facade l (modify g) w = (Normal (), set_facades <[l := g f]> w, []).
Proof. intros Hf. unfold on_facade, modify. by rewrite Hf. Qed.

Lemma insert_last {A} (h : list A) (x y : A) :
  <[length h := y]> (h ++ [x]) = h ++ [y].
Proof.
  rewrite insert_app_r_alt by lia. by rewrite Nat.sub_diag.
Qed.

Lemma lookup_last {A} (h : list A) (x : A) : (h ++ [x]) !! length h = Some x.
Proof. by rewrite lookup_app_r, Nat.sub_diag by lia. Qed.

(** ** The multiton factories *)

Lemma Model_new_taken (k : value) (w : World) (l : loc) :
  Model_instanceMap w !! toPropertyKey k = Some l →
  Model.new k w = (Throw (JsError Model.MULTITON_MSG), w, []).
Proof.
  intros Hl. unfold Model.new, read_obj. js_unfold. by rewrite Hl.
Qed.

Lemma Model_new_fresh (k : value) (w : World) :
  Model_instanceMap w !! toPropertyKey k = None →
  Model.new k w =
    (Normal (length (models w)),
     set_Model_instanceMap <[toPropertyKey k := length (models w)]>
       (set_models (λ h, h ++ [ModelObj.Mk ∅ k]) w), []).
Proof.
  intros Hl. unfold Model.new, read_obj. js_unfold. by rewrite Hl.
Qed.

Lemma Model_getInstance_falsy (k : value) (w : World) :
  truthy k = false → Model.getInstance k w = (Normal Null, w, []).
Proof. intros Hk. unfold Model.getInstance. by rewrite Hk. Qed.

Lemma Model_getInstance_taken (k : value) (w : World) (l : loc) :
  truthy k = true →
  Model_instanceMap w !! toPropertyKey k = Some l →
  Model.getInstance k w = (Normal (Obj l), w, []).
Proof.
  intros Hk Hl. unfold Model.getInstance. rewrite Hk. js_run.
  unfold read_obj. rewrite Hl. cbn. by rewrite Hl.
Qed.

Lemma Model_getInstance_fresh (k : value) (w : World) :
  truthy k = true →
  Model_instanceMap w !! toPropertyKey k = None →
  Model.getInstance k w =
    (Normal (Obj (length (models w))),
     set_Model_instanceMap <[toPropertyKey k := length (models w)]>
       (set_models (λ h, h ++ [ModelObj.Mk ∅ k]) w), []).
Proof.
  intros Hk Hl. unfold Model.getInstance. rewrite Hk. js_run.
  unfold read_obj at 1. rewrite Hl. cbn.
  rewrite Model_new_fresh by done. cbn.
  unfold read_obj, set_Model_instanceMap, set_models; cbn.
  by rewrite lookup_insert_eq, insert_insert_eq.
Qed.

Lemma View_getInstance_falsy (k : value) (w : World) :
  truthy k = false → View.getInstance k w = (Normal Null, w, []).
Proof. intros Hk. unfold View.getInstance. by rewrite Hk. Qed.

Lemma View_getInstance_taken (k : value) (w : World) (l : loc) :
  truthy k = true →
  View_instanceMap w !! toPropertyKey k = Some l →
  View.getInstance k w = (Normal (Obj l), w, []).
Proof.
  intros Hk Hl. unfold View.getInstance. rewrite Hk. js_run.
  unfold read_obj. rewrite Hl. cbn. by rewrite Hl.
Qed.

Lemma View_getInstance_fresh (k : value) (w : World) :
  truthy k = true →
  View_instanceMap w !! toPropertyKey k = None →
  View.getInstance k w =
    (Normal (Obj (length (views w))),
     set_View_instanceMap <[toPropertyKey k := length (views w)]>
       (set_views (λ h, h ++ [ViewObj.Mk ∅ k]) w), []).
Proof.
  intros Hk Hl. unfold View.getInstance, View.new. rewrite Hk. js_run.
  unfold read_obj at 1. rewrite Hl. cbn.
  unfold read_obj at 1. rewrite Hl. cbn.
  unfold read_obj, set_View_instanceMap, set_views; cbn.
  by rewrite lookup_insert_eq, insert_insert_eq.
Qed.

Lemma Controller_getInstance_falsy (k : value) (w : World) :
  truthy k = false → Controller.getInstance k w = (Normal Null, w, []).
Proof. intros Hk. unfold Controller.getInstance. by rewrite Hk. Qed.

Lemma Controller_getInstance_taken (k : value) (w : World) (l : loc) :
  truthy k = true →
  Controller_instanceMap w !! toPropertyKey k = Some l →
  Controller.getInstance k w = (Normal (Obj l), w, []).
Proof.
  intros Hk Hl. unfold Controller.getInstance. rewrite Hk. js_run.
  unfold read_obj. rewrite Hl. cbn. by rewrite Hl.
Qed.

Lemma Controller_getInstance_fresh (k : value) (w : World) :
  truthy k = true →
  Controller_instanceMap w !! toPropertyKey k = None →
  Controller.getInstance k w =
    (Normal (Obj (length (controllers w))),
     set_Controller_instanceMap <[toPropertyKey k := length (controllers w)]>
       (set_controllers (λ h, h ++ [ControllerObj.Mk ∅ k]) w), []).
Proof.
  intros Hk Hl. unfold Controller.getInstance, Controller.new. rewrite Hk. js_run.
  unfold read_obj at 1. rewrite Hl. cbn.
  unfold read_obj at 1. rewrite Hl. cbn.
  unfold read_obj, set_Controller_instanceMap, set_controllers; cbn.
  by rewrite lookup_insert_eq, insert_insert_eq.
Qed.

Lemma Model_getInstance_total (k : value) (w : World) :
  ∃ w1, Model.getInstance k w =
          (Normal (instance_of (Model_instanceMap w1) k), w1, []) ∧
        Model_frame w w1 ∧
        (truthy k = true → is_Some (Model_instanceMap w1 !! toPropertyKey k)).
Proof.
  unfold instance_of. destruct (truthy k) eqn:Hk.
  - destruct (Model_instanceMap w !! toPropertyKey k) as [l|] eqn:Hl.
    + exists w. split; [| by eauto].
      rewrite (Model_getInstance_taken k w l Hk Hl). unfold read_obj.
      by rewrite Hl.
    + exists (set_Model_instanceMap <[toPropertyKey k := length (models w)]>
                (set_models (λ h, h ++ [ModelObj.Mk ∅ k]) w)).
      split; [| split; [done |]].
      * rewrite (Model_getInstance_fresh k w Hk Hl). unfold read_obj. cbn.
        by rewrite lookup_insert_eq.
      * intros _. cbn. rewrite lookup_insert_eq. by eexists.
  - exists w. split; [by apply Model_getInstance_falsy | done].
Qed.

Lemma View_getInstance_total (k : value) (w : World) :
  ∃ w1, View.getInstance k w =
          (Normal (instance_of (View_instanceMap w1) k), w1, []) ∧
        View_frame w w1.
Proof.
  unfold instance_of. destruct (truthy k) eqn:Hk.
  - destruct (View_instanceMap w !! toPropertyKey k) as [l|] eqn:Hl.
    + exists w. split; [| done].
      rewrite (View_getInstance_taken k w l Hk Hl). unfold read_obj.
      by rewrite Hl.
    + exists (set_View_instanceMap <[toPropertyKey k := length (views w)]>
                (set_views (λ h, h ++ [ViewObj.Mk ∅ k]) w)).
      split; [| done].
      rewrite (View_getInstance_fresh k w Hk Hl). unfold read_obj. cbn.
      by rewrite lookup_insert_eq.
  - exists w. split; [by apply View_getInstance_falsy | done].
Qed.

Lemma Controller_getInstance_total (k : value) (w : World) :
  ∃ w1, Controller.getInstance k w =
          (Normal (instance_of (Controller_instanceMap w1) k), w1, []) ∧
        Controller_frame w w1.
Proof.
  unfold instance_of. destruct (truthy k) eqn:Hk.
  - destruct (Controller_instanceMap w !! toPropertyKey k) as [l|] eqn:Hl.
    + exists w. split; [| done].
      rewrite (Controller_getInstance_taken k w l Hk Hl). unfold read_obj.
      by rewrite Hl.
    + exists (set_Controller_instanceMap <[toPropertyKey k := length (controllers w)]>
                (set_controllers (λ h, h ++ [ControllerObj.Mk ∅ k]) w)).
      split; [| done].
      rewrite (Controller_getInstance_fresh k w Hk Hl). unfold read_obj. cbn.
      by rewrite lookup_insert_eq.
  - exists w. split; [by apply Controller_getInstance_falsy | done].
Qed.

(** ** Construction of a Facade *)

Lemma Facade_initializeModel_run (this : loc) (w : World) (f : FacadeObj.t) :
  facades w !! this = Some f →
  truthy_ref (FacadeObj.model f) = false →
  ∃ w1, Facade.initializeModel this w = (Normal (), w1, []) ∧
        facades w1 =
          <[this := FacadeObj.set_model
                      (instance_of (Model_instanceMap w1) (FacadeObj.multitonKey f)) f]>
            (facades w) ∧
        Facade_instanceMap w1 = Facade_instanceMap w ∧
        View_instanceMap w1 = View_instanceMap w ∧
        Controller_instanceMap w1 = Controller_instanceMap w ∧
        (truthy (FacadeObj.multitonKey f) = true →
         is_Some (Model_instanceMap w1 !! toPropertyKey (FacadeObj.multitonKey f))).
Proof.
  intros Hf Hm. unfold Facade.initializeModel. js_bind.
  rewrite (on_facade_gets FacadeObj.model this w f Hf), Hm.
  rewrite (on_facade_gets FacadeObj.multitonKey this w f Hf).
  destruct (Model_getInstance_total (FacadeObj.multitonKey f) w)
    as (w1 & -> & (Hfs & Hfi & Hvi & Hci) & Hsome).
  assert (Hf1 : facades w1 !! this = Some f) by by rewrite Hfs.
  rewrite (on_facade_modify _ this w1 f Hf1). cbn.
  eexists. split; [done |]. cbn. by rewrite Hfs.
Qed.

Lemma Facade_initializeController_run (this : loc) (w : World) (f : FacadeObj.t) :
  facades w !! this = Some f →
  truthy_ref (FacadeObj.controller f) = false →
  ∃ w1, Facade.initializeController this w = (Normal (), w1, []) ∧
        facades w1 =
          <[this := FacadeObj.set_controller
                      (instance_of (Controller_instanceMap w1) (FacadeObj.multitonKey f)) f]>
            (facades w) ∧
        Facade_instanceMap w1 = Facade_instanceMap w ∧
        Model_instanceMap w1 = Model_instanceMap w ∧
        View_instanceMap w1 = View_instanceMap w.
Proof.
  intros Hf Hm. unfold Facade.initializeController. js_bind.
  rewrite (on_facade_gets FacadeObj.controller this w f Hf), Hm.
  rewrite (on_facade_gets FacadeObj.multitonKey this w f Hf).
  destruct (Controller_getInstance_total (FacadeObj.multitonKey f) w)
    as (w1 & -> & Hfs & Hfi & Hmi & Hvi).
  assert (Hf1 : facades w1 !! this = Some f) by by rewrite Hfs.
  rewrite (on_facade_modify _ this w1 f Hf1). cbn.
  eexists. split; [done |]. cbn. by rewrite Hfs.
Qed.

Lemma Facade_initializeView_run (this : loc) (w : World) (f : FacadeObj.t) :
  facades w !! this = Some f →
  truthy_ref (FacadeObj.view f) = false →
  ∃ w1, Facade.initializeView this w = (Normal (), w1, []) ∧
        facades w1 =
          <[this := FacadeObj.set_view
                      (instance_of (View_instanceMap w1) (FacadeObj.multitonKey f)) f]>
            (facades w) ∧
        Facade_instanceMap w1 = Facade_instanceMap w ∧
        Model_instanceMap w1 = Model_instanceMap w ∧
        Controller_instanceMap w1 = Controller_instanceMap w.
Proof.
  intros Hf Hm. unfold Facade.initializeView. js_bind.
  rewrite (on_facade_gets FacadeObj.view this w f Hf), Hm.
  rewrite (on_facade_gets FacadeObj.multitonKey this w f Hf).
  destruct (View_getInstance_total (FacadeObj.multitonKey f) w)
    as (w1 & -> & Hfs & Hfi & Hmi & Hci).
  assert (Hf1 : facades w1 !! this = Some f) by by rewrite Hfs.
  rewrite (on_facade_modify _ this w1 f Hf1). cbn.
  eexists. split; [done |]. cbn. by rewrite Hfs.
Qed.

(** [initializeFacade] on a Facade whose three fields are still [null]:
    it fills the fields and touches nothing else of the Facade. *)
Lemma Facade_initializeFacade_run (this : loc) (w : World) (k : value) :
  facades w !! this = Some (FacadeObj.Mk Null Null Null k) →
  ∃ w1, Facade.initializeFacade this w = (Normal (), w1, []) ∧
        facades w1 = <[this := composed k w1]> (facades w) ∧
        Facade_instanceMap w1 = Facade_instanceMap w ∧
        (truthy k = true → is_Some (Model_instanceMap w1 !! toPropertyKey k)).
Proof.
  intros Hf. unfold Facade.initializeFacade. js_bind.
  assert (Hlt : this < length (facades w)) by by eapply lookup_lt_Some.
  destruct (Facade_initializeModel_run this w _ Hf eq_refl)
    as (w1 & -> & Hf1 & Hi1 & _ & _ & Hsome).
  cbn in Hf1.
  set (m := instance_of (Model_instanceMap w1) k) in *.
  assert (Hf1' : facades w1 !! this = Some (FacadeObj.Mk Null m Null k)).
  { rewrite Hf1. by apply list_lookup_insert_eq. }
  destruct (Facade_initializeController_run this w1 _ Hf1' eq_refl)
    as (w2 & -> & Hf2 & Hi2 & Hm2 & _).
  cbn in Hf2.
  set (c := instance_of (Controller_instanceMap w2) k) in *.
  assert (Hf2' : facades w2 !! this = Some (FacadeObj.Mk c m Null k)).
  { rewrite Hf2. apply list_lookup_insert_eq. by rewrite Hf1, length_insert. }
  destruct (Facade_initializeView_run this w2 _ Hf2' eq_refl)
    as (w3 & -> & Hf3 & Hi3 & Hm3 & Hc3).
  cbn in Hf3.
  exists w3. split; [done |]. split; [| split].
  - rewrite Hf3, Hf2, Hf1. rewrite !list_insert_insert_eq.
    unfold composed. subst c m. by rewrite Hc3, Hm3, Hm2.
  - by rewrite Hi3, Hi2, Hi1.
  - rewrite Hm3, Hm2. exact Hsome.
Qed.

Lemma Facade_new_taken (k : value) (w : World) (l : loc) :
  Facade_instanceMap w !! toPropertyKey k = Some l →
  Facade.new k w = (Throw (JsError Facade.MULTITON_MSG), w, []).
Proof.
  intros Hl. unfold Facade.new, read_obj. js_unfold. by rewrite Hl.
Qed.

Lemma Facade_new_fresh (k : value) (w : World) :
  Facade_instanceMap w !! toPropertyKey k = None →
  ∃ w1,
    Facade.new k w = (Normal (length (facades w)), w1, []) ∧
    facades w1 = facades w ++ [composed k w1] ∧
    Facade_instanceMap w1 =
      <[toPropertyKey k := length (facades w)]> (Facade_instanceMap w) ∧
    (truthy k = true → is_Some (Model_instanceMap w1 !! toPropertyKey k)).
Proof.
  intros Hl. unfold Facade.new. js_bind.
  unfold gets at 1. unfold read_obj. rewrite Hl. cbn [nullish negb].
  unfold alloc_facade at 1. unfold Facade.initializeNotifier.
  set (this := length (facades w)).
  set (w0 := set_facades _ w).
  assert (Hf0 : facades w0 !! this = Some (FacadeObj.Mk Null Null Null VNull))
    by apply lookup_last.
  rewrite (on_facade_modify _ this w0 _ Hf0). cbn [app].
  unfold modify at 1.
  set (w1 := set_Facade_instanceMap _ _).
  assert (Hf1 : facades w1 !! this = Some (FacadeObj.Mk Null Null Null k)).
  { subst w1 w0 this. cbn. rewrite insert_last. apply lookup_last. }
  destruct (Facade_initializeFacade_run this w1 k Hf1)
    as (w2 & -> & Hf2 & Hi2 & Hsome).
  exists w2. split; [done |]. split; [| split; [| done]].
  - rewrite Hf2. subst w1 w0 this. cbn. by rewrite !insert_last.
  - rewrite Hi2. by subst w1 w0 this.
Qed.

Lemma Facade_getInstance_falsy (k : value) (w : World) :
  truthy k = false → Facade.getInstance k w = (Normal Null, w, []).
Proof. intros Hk. unfold Facade.getInstance. by rewrite Hk. Qed.

Lemma Facade_getInstance_taken (k : value) (w : World) (l : loc) :
  truthy k = true →
  Facade_instanceMap w !! toPropertyKey k = Some l →
  Facade.getInstance k w = (Normal (Obj l), w, []).
Proof.
  intros Hk Hl. unfold Facade.getInstance. rewrite Hk. js_run.
  unfold read_obj. rewrite Hl. cbn. by rewrite Hl.
Qed.

Lemma Facade_getInstance_fresh (k : value) (w : World) :
  truthy k = true →
  Facade_instanceMap w !! toPropertyKey k = None →
  ∃ w1,
    Facade.getInstance k w = (Normal (Obj (length (facades w))), w1, []) ∧
    facades w1 = facades w ++ [composed k w1] ∧
    Facade_instanceMap w1 =
      <[toPropertyKey k := length (facades w)]> (Facade_instanceMap w).
Proof.
  intros Hk Hl. unfold Facade.getInstance. rewrite Hk. cbn [negb]. js_bind.
  unfold gets at 1. unfold read_obj at 1. rewrite Hl. cbn [truthy_ref negb].
  destruct (Facade_new_fresh k w Hl) as (w1 & -> & Hf & Hi & _).
  exists (set_Facade_instanceMap <[toPropertyKey k := length (facades w)]> w1).
  unfold modify, gets, read_obj. cbn.
  rewrite lookup_insert_eq. split; [done |]. split; [done |].
  by rewrite Hi, insert_insert_eq.
Qed.

(** ** Teardown of a core *)

Lemma Facade_removeCore_registered (k : value) (w : World) (l : loc) :
  Facade_instanceMap w !! toPropertyKey k = Some l →
  Facade.removeCore k w = (Normal (), without_core (toPropertyKey k) w, []).
Proof.
  intros Hl. unfold Facade.removeCore, Model.removeModel, View.removeView,
    Controller.removeController, read_obj.
  js_unfold. by rewrite Hl.
Qed.

Lemma Facade_removeCore_unregistered (k : value) (w : World) :
  Facade_instanceMap w !! toPropertyKey k = None →
  Facade.removeCore k w = (Normal (), w, []).
Proof.
  intros Hl. unfold Facade.removeCore, read_obj. js_unfold. by rewrite Hl.
Qed.

(** ** The model at work *)

Example new_Model_twice :
  result (Model.new (VStr "a") (final (Model.new (VStr "a") initial))) =
    Throw (JsError Model.MULTITON_MSG).
Proof. reflexivity. Qed.

Example new_Facade_after_getInstance :
  result (Facade.new (VStr "a") two_cores) = Throw (JsError Facade.MULTITON_MSG).
Proof. reflexivity. Qed.

(** The key held as a number and the key held as a string name the same
    property. *)
Example number_and_string_keys_collide :
  result (Model.new (VStr "1") (final (Model.new (VNum 1) initial))) =
    Throw (JsError Model.MULTITON_MSG).
Proof. reflexivity. Qed.

Example getInstance_composes_the_core :
  facades two_cores !! 1 = Some (composed (VStr "b") two_cores) ∧
  Model_instanceMap two_cores !! "b" = Some 1 ∧
  models two_cores !! 1 = Some (ModelObj.Mk ∅ (VStr "b")).
Proof. vm_compute. done. Qed.

(** ** The claims about the multitons *)

(** X15.  The constructors on a key whose property name is not a name
    of the Array.  Calling the constructor of Model, or of Facade, with
    such a key when it already has an entry in the class's instance map
    throws the error with the class's MULTITON_MSG and changes nothing:
    no object store, no instance map.  When the key has no entry the
    constructor returns a new object, one that is in no store before,
    appends it to the store with [multitonKey] set to the key, and enters
    it in the instance map under the key. *)
Theorem constructor_duplicate_key (k : value) (w : World) :
  array_name (toPropertyKey k) = false →
  match Model_instanceMap w !! toPropertyKey k with
  | Some _ => Model.new k w = (Throw (JsError Model.MULTITON_MSG), w, [])
  | None =>
      ∃ w1, Model.new k w = (Normal (length (models w)), w1, []) ∧
            models w !! length (models w) = None ∧
            models w1 = models w ++ [ModelObj.Mk ∅ k] ∧
            Model_instanceMap w1 =
              <[toPropertyKey k := length (models w)]> (Model_instanceMap w)
  end ∧
  match Facade_instanceMap w !! toPropertyKey k with
  | Some _ => Facade.new k w = (Throw (JsError Facade.MULTITON_MSG), w, [])
  | None =>
      ∃ w1 f, Facade.new k w = (Normal (length (facades w)), w1, []) ∧
              facades w !! length (facades w) = None ∧
              facades w1 = facades w ++ [f] ∧
              FacadeObj.multitonKey f = k ∧
              Facade_instanceMap w1 =
                <[toPropertyKey k := length (facades w)]> (Facade_instanceMap w)
  end.
Proof.
  intros _. split.
  - destruct (Model_instanceMap w !! toPropertyKey k) as [l|] eqn:Hl.
    + by eapply Model_new_taken.
    + eexists. split; [by apply Model_new_fresh |].
      split; [by apply lookup_ge_None_2 | done].
  - destruct (Facade_instanceMap w !! toPropertyKey k) as [l|] eqn:Hl.
    + by eapply Facade_new_taken.
    + destruct (Facade_new_fresh k w Hl) as (w1 & Hrun & Hf & Hi & _).
      exists w1, (composed k w1). split; [done |].
      split; [by apply lookup_ge_None_2 | done].
Qed.

Lemma constructor_duplicate_key_witness :
  array_name "a" = false ∧
  (∃ w1, Model.new (VStr "a") initial = (Normal 0, w1, []) ∧
         models w1 = [ModelObj.Mk ∅ (VStr "a")] ∧
         Model_instanceMap w1 !! "a" = Some 0) ∧
  Model.new (VStr "a") two_cores =
    (Throw (JsError Model.MULTITON_MSG), two_cores, []) ∧
  Facade.new (VStr "a") two_cores =
    (Throw (JsError Facade.MULTITON_MSG), two_cores, []).
Proof.
  assert (Hname : array_name (toPropertyKey (VStr "a")) = false)
    by (vm_compute; reflexivity).
  split; [exact Hname |]. split.
  - destruct (constructor_duplicate_key (VStr "a") initial Hname)
      as [(w1 & Hrun & _ & Hstore & Hmap) _].
    exists w1. split; [exact Hrun |]. split; [exact Hstore |].
    rewrite Hmap. reflexivity.
  - pose proof (constructor_duplicate_key (VStr "a") two_cores Hname) as Htaken.
    assert (Hm : @eq (option loc)
                   (Model_instanceMap two_cores !! toPropertyKey (VStr "a"))
                   (Some 0)) by (vm_compute; reflexivity).
    assert (Hf : @eq (option loc)
                   (Facade_instanceMap two_cores !! toPropertyKey (VStr "a"))
                   (Some 0)) by (vm_compute; reflexivity).
    rewrite Hm, Hf in Htaken. exact Htaken.
Defined.

(** C2.  When a core is registered under [k], [Facade.removeCore(k)]
    returns normally, [Facade.hasCore(k)] is then false, and in the state
    it leaves [new Facade(k)] returns an instance instead of throwing,
    and so does [new Model(k)]; after that [new Model(k)], [new Facade(k)]
    still returns an instance. *)
Theorem removeCore_then_construct (k : value) (w : World) (l : loc) :
  Facade_instanceMap w !! toPropertyKey k = Some l →
  ∃ w1, Facade.removeCore k w = (Normal (), w1, []) ∧
        Facade.hasCore k w1 = (Normal false, w1, []) ∧
        (∃ this w2, Facade.new k w1 = (Normal this, w2, [])) ∧
        (∃ this w2, Model.new k w1 = (Normal this, w2, []) ∧
                    ∃ this' w3, Facade.new k w2 = (Normal this', w3, [])).
Proof.
  intros Hl. exists (without_core (toPropertyKey k) w).
  split; [by eapply Facade_removeCore_registered |].
  split; [| split].
  - unfold Facade.hasCore, gets, read_obj. cbn. by rewrite lookup_delete_eq.
  - destruct (Facade_new_fresh k (without_core (toPropertyKey k) w))
      as (w2 & Hrun & _); [apply lookup_delete_eq |].
    by eexists _, _.
  - eexists _, _. split; [apply Model_new_fresh; apply lookup_delete_eq |].
    match goal with |- ∃ _ _, Facade.new k ?w2 = _ =>
      destruct (Facade_new_fresh k w2) as (w3 & Hrun & _);
        [apply lookup_delete_eq |]
    end.
    by eexists _, _.
Qed.

Lemma removeCore_then_construct_witness :
  Facade_instanceMap two_cores !! "a" = Some 0 ∧
  ∃ w1, Facade.removeCore (VStr "a") two_cores = (Normal (), w1, []) ∧
        Facade.hasCore (VStr "a") w1 = (Normal false, w1, []) ∧
        (∃ this w2, Facade.new (VStr "a") w1 = (Normal this, w2, [])) ∧
        (∃ this w2, Model.new (VStr "a") w1 = (Normal this, w2, []) ∧
                    ∃ this' w3, Facade.new (VStr "a") w2 = (Normal this', w3, [])).
Proof.
  split; [reflexivity |].
  apply (removeCore_then_construct (VStr "a") two_cores 0). reflexivity.
Defined.

(** X16.  For a key [k] whose property name is not a name of the Array
    (and is the name [toPropertyKey] gives), [Facade.removeCore(k)]
    returns normally and makes no outgoing call.  If a core is registered
    under [k], the state it leaves is the old one with the entry of [k]
    deleted from [Model.instanceMap], [View.instanceMap],
    [Controller.instanceMap] and [Facade.instanceMap]: these four entries
    are gone, and every entry under another property name is as before.
    If no core is registered under [k], the state is unchanged. *)
Theorem removeCore_tears_down_one_core (k : value) (w : World) :
  array_name (toPropertyKey k) = false →
  exact_key k = true →
  Facade.removeCore k w =
    (Normal (),
     match Facade_instanceMap w !! toPropertyKey k with
     | Some _ => without_core (toPropertyKey k) w
     | None => w
     end, []) ∧
  (is_Some (Facade_instanceMap w !! toPropertyKey k) →
   let w1 := final (Facade.removeCore k w) in
   (Model_instanceMap w1 !! toPropertyKey k = None ∧
    View_instanceMap w1 !! toPropertyKey k = None ∧
    Controller_instanceMap w1 !! toPropertyKey k = None ∧
    Facade_instanceMap w1 !! toPropertyKey k = None) ∧
   ∀ s : string, s ≠ toPropertyKey k →
     Model_instanceMap w1 !! s = Model_instanceMap w !! s ∧
     View_instanceMap w1 !! s = View_instanceMap w !! s ∧
     Controller_instanceMap w1 !! s = Controller_instanceMap w !! s ∧
     Facade_instanceMap w1 !! s = Facade_instanceMap w !! s).
Proof.
  intros _ _. split.
  - destruct (Facade_instanceMap w !! toPropertyKey k) as [l|] eqn:Hl.
    + by eapply Facade_removeCore_registered.
    + by apply Facade_removeCore_unregistered.
  - intros [l Hl]. rewrite (Facade_removeCore_registered k w l Hl). cbn.
    split.
    + by rewrite !lookup_delete_eq.
    + intros s Hne. by rewrite !lookup_delete_ne.
Qed.

Lemma removeCore_tears_down_one_core_witness :
  let w1 := final (Facade.removeCore (VStr "a") two_cores) in
  array_name "a" = false ∧
  Facade_instanceMap two_cores !! "a" = Some 0 ∧
  Facade_instanceMap w1 !! "a" = None ∧
  Model_instanceMap w1 !! "b" = Model_instanceMap two_cores !! "b" ∧
  Facade_instanceMap w1 !! "b" = Some 1 ∧
  Facade.removeCore (VStr "c") two_cores = (Normal (), two_cores, []).
Proof.
  assert (Ha : array_name (toPropertyKey (VStr "a")) = false)
    by (vm_compute; reflexivity).
  assert (Hc : array_name (toPropertyKey (VStr "c")) = false)
    by (vm_compute; reflexivity).
  destruct (removeCore_tears_down_one_core (VStr "a") two_cores Ha eq_refl)
    as [_ Hframe].
  destruct Hframe as [Hgone Hkept]; [by exists 0 |].
  destruct (Hkept "b") as (Hm & _ & _ & Hf); [discriminate |].
  destruct (removeCore_tears_down_one_core (VStr "c") two_cores Hc eq_refl)
    as [Hnone _].
  assert (Hfree : @eq (option loc)
                    (Facade_instanceMap two_cores !! toPropertyKey (VStr "c"))
                    None) by (vm_compute; reflexivity).
  rewrite Hfree in Hnone.
  split; [exact Ha |]. split; [reflexivity |]. split; [apply Hgone |].
  split; [exact Hm |]. split; [exact (eq_trans Hf eq_refl) |].
  exact Hnone.
Defined.

(** C9.  For a falsy key ([null], [undefined], [false], [0], [NaN] or the
    empty string) [Model.getInstance] and [Facade.getInstance] return
    [null]; no object is constructed and no instance map is written: the
    state is the one before the call. *)
Theorem getInstance_falsy_key (k : value) (w : World) :
  truthy k = false →
  Model.getInstance k w = (Normal Null, w, []) ∧
  Facade.getInstance k w = (Normal Null, w, []).
Proof.
  intros Hk. split.
  - by apply Model_getInstance_falsy.
  - by apply Facade_getInstance_falsy.
Qed.

Lemma getInstance_falsy_key_witness :
  truthy VUndefined = false ∧
  Model.getInstance VUndefined two_cores = (Normal Null, two_cores, []) ∧
  Facade.getInstance VUndefined two_cores = (Normal Null, two_cores, []).
Proof.
  split; [reflexivity |].
  apply (getInstance_falsy_key VUndefined two_cores). reflexivity.
Defined.

(** C6, as stated, fails at the empty string.  It is a key other than
    [null], yet neither [Model.getInstance("")] nor
    [Facade.getInstance("")] returns an instance: each returns [null] and
    constructs nothing.  And the instance that [new Model("")] creates
    for the key is not what a later [Model.getInstance("")] returns. *)
Lemma getInstance_non_null_key_counterexample :
  VStr "" ≠ VNull ∧
  Model.getInstance (VStr "") initial = (Normal Null, initial, []) ∧
  Facade.getInstance (VStr "") initial = (Normal Null, initial, []) ∧
  ¬ (∃ l w1, Model.getInstance (VStr "") initial = (Normal (Obj l), w1, [])) ∧
  ¬ (∃ l w1, Facade.getInstance (VStr "") initial = (Normal (Obj l), w1, [])) ∧
  ∃ w1, Model.new (VStr "") initial = (Normal 0, w1, []) ∧
        Model_instanceMap w1 !! "" = Some 0 ∧
        Model.getInstance (VStr "") w1 = (Normal Null, w1, []).
Proof.
  split; [discriminate |]. split; [reflexivity |]. split; [reflexivity |].
  split; [by intros (l & w1 & Hrun) |]. split; [by intros (l & w1 & Hrun) |].
  eexists. split; [reflexivity |]. split; reflexivity.
Qed.

(** C6, amended.  For a truthy key [k] whose property name is not a name
    of the Array, [Model.getInstance(k)] returns an instance [l]; called
    again in the state it left it returns the same [l] and changes
    nothing; and in every later state in which [Model.instanceMap] still
    holds [l] under [k] it returns [l] again.  The same holds for
    [Facade.getInstance(k)]. *)
Theorem getInstance_singleton_per_key (k : value) (w : World) :
  truthy k = true →
  array_name (toPropertyKey k) = false →
  (∃ l w1, Model.getInstance k w = (Normal (Obj l), w1, []) ∧
           Model.getInstance k w1 = (Normal (Obj l), w1, []) ∧
           ∀ w2, Model_instanceMap w2 !! toPropertyKey k = Some l →
                 Model.getInstance k w2 = (Normal (Obj l), w2, [])) ∧
  (∃ l w1, Facade.getInstance k w = (Normal (Obj l), w1, []) ∧
           Facade.getInstance k w1 = (Normal (Obj l), w1, []) ∧
           ∀ w2, Facade_instanceMap w2 !! toPropertyKey k = Some l →
                 Facade.getInstance k w2 = (Normal (Obj l), w2, [])).
Proof.
  intros Hk _. split.
  - destruct (Model_instanceMap w !! toPropertyKey k) as [l|] eqn:Hl.
    + exists l, w. split; [by apply Model_getInstance_taken |].
      split; [by apply Model_getInstance_taken |].
      intros w2 H2. by apply Model_getInstance_taken.
    + eexists _, _. split; [by apply Model_getInstance_fresh |].
      split.
      * apply Model_getInstance_taken; [done |]. cbn. apply lookup_insert_eq.
      * intros w2 H2. by apply Model_getInstance_taken.
  - destruct (Facade_instanceMap w !! toPropertyKey k) as [l|] eqn:Hl.
    + exists l, w. split; [by apply Facade_getInstance_taken |].
      split; [by apply Facade_getInstance_taken |].
      intros w2 H2. by apply Facade_getInstance_taken.
    + destruct (Facade_getInstance_fresh k w Hk Hl)
        as (w1 & Hrun & Hf & Hi).
      exists (length (facades w)), w1. split; [done |].
      split.
      * apply Facade_getInstance_taken; [done |]. rewrite Hi.
        apply lookup_insert_eq.
      * intros w2 H2. by apply Facade_getInstance_taken.
Qed.

Lemma getInstance_singleton_per_key_witness :
  truthy (VStr "a") = true ∧
  array_name "a" = false ∧
  (∃ l w1, Model.getInstance (VStr "a") initial = (Normal (Obj l), w1, []) ∧
           Model.getInstance (VStr "a") w1 = (Normal (Obj l), w1, []) ∧
           ∀ w2, Model_instanceMap w2 !! "a" = Some l →
                 Model.getInstance (VStr "a") w2 = (Normal (Obj l), w2, [])) ∧
  (∃ l w1, Facade.getInstance (VStr "a") initial = (Normal (Obj l), w1, []) ∧
           Facade.getInstance (VStr "a") w1 = (Normal (Obj l), w1, []) ∧
           ∀ w2, Facade_instanceMap w2 !! "a" = Some l →
                 Facade.getInstance (VStr "a") w2 = (Normal (Obj l), w2, [])).
Proof.
  assert (Hname : array_name (toPropertyKey (VStr "a")) = false)
    by (vm_compute; reflexivity).
  split; [reflexivity |]. split; [exact Hname |].
  apply (getInstance_singleton_per_key (VStr "a") initial eq_refl Hname).
Defined.

(** ** The proxy map of a Model *)

Section ProxyMap.
Context `{ProxyHooks}.

Lemma Model_removeProxy_missing (n : value) (m : ModelObj.t) :
  truthy_ref (read (ModelObj.proxyMap m) n) = false →
  Model.removeProxy n m = (Normal (read (ModelObj.proxyMap m) n), m, []).
Proof.
  intros Hn. unfold Model.removeProxy. js_run.
  by destruct (read (ModelObj.proxyMap m) n).
Qed.

Lemma Model_removeProxy_registered (n : value) (p : Proxy) (m : ModelObj.t) :
  read (ModelObj.proxyMap m) n = Obj p →
  Model.removeProxy n m =
    (Normal (Obj p),
     onRemove p (ModelObj.set_proxyMap <[toPropertyKey n := Null]> m),
     [ProxyCall p OnRemove]).
Proof.
  intros Hn. unfold Model.removeProxy. js_run. by rewrite Hn.
Qed.

Lemma Model_registerProxy_run (p : Proxy) (m : ModelObj.t) :
  Model.registerProxy p m =
    (Normal (),
     onRegister p
       (ModelObj.set_proxyMap <[toPropertyKey (getProxyName p) := Obj p]>
          (initializeNotifier p (ModelObj.multitonKey m) m)),
     [ProxyCall p (InitializeNotifier (ModelObj.multitonKey m));
      ProxyCall p GetProxyName;
      ProxyCall p OnRegister]).
Proof. reflexivity. Qed.

Lemma read_insert {A} (pm : gmap string (jsref A)) (n : value) (r : jsref A) :
  read (<[toPropertyKey n := r]> pm) n = r.
Proof. unfold read. by rewrite lookup_insert_eq. Qed.
End ProxyMap.

(** X18.  For a proxy [p] whose name is not a name of the Array,
    [registerProxy(p)] makes three calls on [p], in this order:
    [initializeNotifier] with the Model's multiton key, [getProxyName],
    [onRegister]; the only lifecycle hook among them is [onRegister], and
    it runs on the state in which the proxy map already holds [p] under
    its name, a state obtained from the one [initializeNotifier] left.
    For a name [n], not a name of the Array, under which a proxy [q] is
    registered, [removeProxy(n)] makes one call, [q.onRemove()], on the
    state in which the entry of [n] has been overwritten with [null], and
    returns [q]. *)
Theorem proxy_lifecycle_hooks `{ProxyHooks} (p q : Proxy) (n : value)
    (m m' : ModelObj.t) :
  array_name (toPropertyKey (getProxyName p)) = false →
  array_name (toPropertyKey n) = false →
  read (ModelObj.proxyMap m') n = Obj q →
  (let key := ModelObj.multitonKey m in
   let stored :=
     ModelObj.set_proxyMap <[toPropertyKey (getProxyName p) := Obj p]>
       (initializeNotifier p key m) in
   Model.registerProxy p m =
     (Normal (), onRegister p stored,
      [ProxyCall p (InitializeNotifier key); ProxyCall p GetProxyName;
       ProxyCall p OnRegister]) ∧
   read (ModelObj.proxyMap stored) (getProxyName p) = Obj p ∧
   filter (λ e, lifecycle_event e = true) (events (Model.registerProxy p m)) =
     [ProxyCall p OnRegister]) ∧
  (let cleared := ModelObj.set_proxyMap <[toPropertyKey n := Null]> m' in
   Model.removeProxy n m' =
     (Normal (Obj q), onRemove q cleared, [ProxyCall q OnRemove]) ∧
   read (ModelObj.proxyMap cleared) n = Null ∧
   filter (λ e, lifecycle_event e = true) (events (Model.removeProxy n m')) =
     [ProxyCall q OnRemove]).
Proof.
  intros _ _ Hq. split; cbn zeta.
  - split; [apply Model_registerProxy_run |]. split; [apply read_insert |].
    reflexivity.
  - rewrite (Model_removeProxy_registered n q m' Hq).
    split; [done |]. split; [apply read_insert | reflexivity].
Qed.

Lemma proxy_lifecycle_hooks_witness :
  let H := inert_hooks in
  let m := ModelObj.Mk ∅ (VStr "a") in
  let m' := final (Model.registerProxy (ProxyRef 7) m) in
  array_name (toPropertyKey (getProxyName (ProxyRef 3))) = false ∧
  array_name (toPropertyKey (VNum 7)) = false ∧
  read (ModelObj.proxyMap m') (VNum 7) = Obj (ProxyRef 7) ∧
  events (Model.registerProxy (ProxyRef 3) m) =
    [ProxyCall (ProxyRef 3) (InitializeNotifier (VStr "a"));
     ProxyCall (ProxyRef 3) GetProxyName; ProxyCall (ProxyRef 3) OnRegister] ∧
  events (Model.removeProxy (VNum 7) m') = [ProxyCall (ProxyRef 7) OnRemove].
Proof.
  intros H m m'.
  assert (Hp : array_name (toPropertyKey (getProxyName (ProxyRef 3))) = false)
    by (vm_compute; reflexivity).
  assert (Hn : array_name (toPropertyKey (VNum 7)) = false)
    by (vm_compute; reflexivity).
  destruct (proxy_lifecycle_hooks (ProxyRef 3) (ProxyRef 7) (VNum 7) m m' Hp Hn)
    as [Hreg Hrem]; [reflexivity |].
  split; [exact Hp |]. split; [exact Hn |].
  split; [reflexivity |]. split.
  - destruct Hreg as [-> _]. reflexivity.
  - destruct Hrem as [-> _]. reflexivity.
Defined.

(** X19.  Register and retrieve: after [registerProxy(p)] for a proxy
    whose name is not a name of the Array, with a hook [p.onRegister]
    that leaves the entry of [p]'s name as it finds it, [hasProxy] of
    that name is true and [retrieveProxy] returns [p] itself.  Remove and
    retrieve: after [removeProxy(n)] for a name, not a name of the Array,
    under which a proxy [q] is registered, with a hook [q.onRemove] that
    leaves the entry of [n] as it finds it, [hasProxy(n)] is false and
    [retrieveProxy(n)] returns [null]. *)
Theorem proxy_round_trip `{ProxyHooks} :
  (∀ (p : Proxy) (m : ModelObj.t),
     array_name (toPropertyKey (getProxyName p)) = false →
     (∀ m1, read (ModelObj.proxyMap (onRegister p m1)) (getProxyName p) =
            read (ModelObj.proxyMap m1) (getProxyName p)) →
     let m' := final (Model.registerProxy p m) in
     Model.hasProxy (getProxyName p) m' = (Normal true, m', []) ∧
     Model.retrieveProxy (getProxyName p) m' = (Normal (Obj p), m', [])) ∧
  (∀ (n : value) (q : Proxy) (m : ModelObj.t),
     array_name (toPropertyKey n) = false →
     read (ModelObj.proxyMap m) n = Obj q →
     (∀ m1, read (ModelObj.proxyMap (onRemove q m1)) n =
            read (ModelObj.proxyMap m1) n) →
     let m' := final (Model.removeProxy n m) in
     Model.hasProxy n m' = (Normal false, m', []) ∧
     Model.retrieveProxy n m' = (Normal Null, m', [])).
Proof.
  split.
  - intros p m _ Hkeep m'. subst m'. rewrite Model_registerProxy_run.
    unfold Model.hasProxy, Model.retrieveProxy, gets, final. cbn [fst snd].
    rewrite Hkeep. unfold ModelObj.set_proxyMap. cbn [ModelObj.proxyMap].
    by rewrite read_insert.
  - intros n q m _ Hq Hkeep m'. subst m'.
    rewrite (Model_removeProxy_registered n q m Hq).
    unfold Model.hasProxy, Model.retrieveProxy, gets, final. cbn [fst snd].
    rewrite Hkeep. unfold ModelObj.set_proxyMap. cbn [ModelObj.proxyMap].
    by rewrite read_insert.
Qed.

Lemma proxy_round_trip_witness :
  let H := inert_hooks in
  let m := ModelObj.Mk ∅ (VStr "a") in
  let m1 := final (Model.registerProxy (ProxyRef 7) m) in
  let m2 := final (Model.removeProxy (VNum 7) m1) in
  array_name (toPropertyKey (VNum 7)) = false ∧
  (Model.hasProxy (VNum 7) m1 = (Normal true, m1, []) ∧
   Model.retrieveProxy (VNum 7) m1 = (Normal (Obj (ProxyRef 7)), m1, [])) ∧
  read (ModelObj.proxyMap m1) (VNum 7) = Obj (ProxyRef 7) ∧
  (Model.hasProxy (VNum 7) m2 = (Normal false, m2, []) ∧
   Model.retrieveProxy (VNum 7) m2 = (Normal Null, m2, [])).
Proof.
  intros H m m1 m2. destruct (@proxy_round_trip H) as [Hreg Hrem].
  assert (Hn : array_name (toPropertyKey (VNum 7)) = false)
    by (vm_compute; reflexivity).
  split; [exact Hn |]. split; [| split].
  - apply (Hreg (ProxyRef 7) m); [exact Hn | reflexivity].
  - reflexivity.
  - apply (Hrem (VNum 7) (ProxyRef 7) m1); [exact Hn | reflexivity ..].
Defined.

(** ** Proxies through the Facade *)

Section FacadeProxies.
Context `{ProxyHooks} `{ObserverHooks}.

Lemma Facade_removeProxy_no_model (this : loc) (n : value) (w : World)
    (f : FacadeObj.t) :
  facades w !! this = Some f →
  truthy_ref (FacadeObj.model f) = false →
  Facade.removeProxy this n w = (Normal Null, w, []).
Proof.
  intros Hf Hm. unfold Facade.removeProxy. js_bind.
  by rewrite (on_facade_gets FacadeObj.model this w f Hf), Hm.
Qed.

Lemma Facade_removeProxy_missing (this l : loc) (n : value) (w : World)
    (f : FacadeObj.t) (m : ModelObj.t) :
  facades w !! this = Some f →
  FacadeObj.model f = Obj l →
  models w !! l = Some m →
  truthy_ref (read (ModelObj.proxyMap m) n) = false →
  Facade.removeProxy this n w = (Normal (read (ModelObj.proxyMap m) n), w, []).
Proof.
  intros Hf Hl Hm Hn. unfold Facade.removeProxy. js_bind.
  rewrite (on_facade_gets FacadeObj.model this w f Hf), Hl. cbn.
  unfold on_model. rewrite Hm, (Model_removeProxy_missing n m Hn).
  by rewrite set_models_id.
Qed.

Lemma Facade_retrieveProxy_run (this l : loc) (n : value) (w : World)
    (f : FacadeObj.t) (m : ModelObj.t) :
  facades w !! this = Some f →
  FacadeObj.model f = Obj l →
  models w !! l = Some m →
  Facade.retrieveProxy this n w = (Normal (read (ModelObj.proxyMap m) n), w, []).
Proof.
  intros Hf Hl Hm. unfold Facade.retrieveProxy. js_bind.
  rewrite (on_facade_gets FacadeObj.model this w f Hf), Hl. cbn.
  unfold on_model. rewrite Hm. unfold Model.retrieveProxy, gets.
  by rewrite set_models_id.
Qed.
End FacadeProxies.

(** X17.  Let [n] be a name, not a name of the Array, under which the
    proxy map of a Model holds no proxy ([undefined]: never registered,
    or [null]: removed), the map having been used as a map only.  Then
    [Model.removeProxy(n)] returns that [undefined] or [null], does not
    throw, calls nothing, and leaves the Model as it was; so does
    [Model.retrieveProxy(n)]; and so do [Facade.removeProxy(n)] and
    [Facade.retrieveProxy(n)] on a Facade whose [model] is that Model.
    On a Facade without a Model, [Facade.removeProxy(n)] returns [null]
    and changes nothing. *)
Theorem removeProxy_missing_name `{ProxyHooks} `{ObserverHooks}
    (n : value) (m : ModelObj.t) :
  array_name (toPropertyKey n) = false →
  ordinary_map (ModelObj.proxyMap m) →
  truthy_ref (read (ModelObj.proxyMap m) n) = false →
  let r := read (ModelObj.proxyMap m) n in
  nullish r = true ∧
  Model.removeProxy n m = (Normal r, m, []) ∧
  Model.retrieveProxy n m = (Normal r, m, []) ∧
  (∀ (this l : loc) (w : World) (f : FacadeObj.t),
     facades w !! this = Some f → FacadeObj.model f = Obj l →
     models w !! l = Some m →
     Facade.removeProxy this n w = (Normal r, w, []) ∧
     Facade.retrieveProxy this n w = (Normal r, w, [])) ∧
  (∀ (this : loc) (w : World) (f : FacadeObj.t),
     facades w !! this = Some f → truthy_ref (FacadeObj.model f) = false →
     Facade.removeProxy this n w = (Normal Null, w, [])).
Proof.
  intros _ _ Hn r. subst r. split; [by destruct (read _ n) |].
  split; [by apply Model_removeProxy_missing |].
  split; [reflexivity |]. split.
  - intros this l w f Hf Hl Hm. split.
    + by eapply Facade_removeProxy_missing.
    + by eapply Facade_retrieveProxy_run.
  - intros this w f Hf Hm. by eapply Facade_removeProxy_no_model.
Qed.

Lemma removeProxy_missing_name_witness :
  let H := inert_hooks in
  let H0 := inert_observers in
  let m := ModelObj.Mk ∅ (VStr "a") in
  let w := with_nameless_facade in
  array_name "nobody" = false ∧
  ordinary_map (ModelObj.proxyMap m) ∧
  truthy_ref (read (ModelObj.proxyMap m) (VStr "nobody")) = false ∧
  Model.removeProxy (VStr "nobody") m = (Normal Undefined, m, []) ∧
  Model.retrieveProxy (VStr "nobody") m = (Normal Undefined, m, []) ∧
  Facade.removeProxy 0 (VStr "nobody") w = (Normal Undefined, w, []) ∧
  Facade.retrieveProxy 0 (VStr "nobody") w = (Normal Undefined, w, []) ∧
  Facade.removeProxy 2 (VStr "nobody") w = (Normal Null, w, []).
Proof.
  intros H H0 m w.
  assert (Hname : array_name (toPropertyKey (VStr "nobody")) = false)
    by (vm_compute; reflexivity).
  assert (Hmap : ordinary_map (ModelObj.proxyMap m))
    by (intros s _; apply lookup_empty).
  destruct (@removeProxy_missing_name H H0 (VStr "nobody") m Hname Hmap eq_refl)
    as (_ & Hrem & Hret & Hfac & Hnone).
  destruct (Hfac 0 0 w (FacadeObj.Mk (Obj 0) (Obj 0) (Obj 0) (VStr "a")))
    as [Hfrem Hfret]; [reflexivity .. |].
  split; [exact Hname |]. split; [exact Hmap |].
  split; [reflexivity |]. split; [exact Hrem |]. split; [exact Hret |].
  split; [exact Hfrem |]. split; [exact Hfret |].
  apply (Hnone 2 w (FacadeObj.Mk Null Null Null (VStr ""))); reflexivity.
Defined.

(** ** Dispatch *)

Section Dispatch.
Context `{ObserverHooks}.

(** The loop notifies the Observers of the list it was given, whatever
    the callbacks do to the View in between. *)
Lemma View_notify_each_run (n : Notification.t) (observers : list Observer.t)
    (v : ViewObj.t) :
  View.notify_each observers n v =
    (Normal (), foldl (λ v1 o, notifyObserver o n v1) v observers,
     (λ o, NotifyObserver o n) <$> observers).
Proof.
  revert v. induction observers as [|o rest IH]; intros v; [done |].
  cbn [View.notify_each]. js_bind. unfold extern at 1.
  rewrite IH. reflexivity.
Qed.

Lemma View_notifyObservers_run (n : Notification.t) (v : ViewObj.t) :
  View.notifyObservers n v =
    (Normal (),
     foldl (λ v1 o, notifyObserver o n v1) v
       (default [] (ViewObj.observerMap v !! toPropertyKey (Notification.name n))),
     (λ o, NotifyObserver o n) <$>
       default [] (ViewObj.observerMap v !! toPropertyKey (Notification.name n))).
Proof.
  unfold View.notifyObservers. js_bind. unfold gets at 1.
  destruct (ViewObj.observerMap v !! _) as [observers|]; [| done].
  by rewrite View_notify_each_run.
Qed.
End Dispatch.

(** C8.  [View.notifyObservers(n)] reads the sequence registered for
    [n.name] once, before the first callback runs.  It then calls the
    Observers of that snapshot, each once, in the order of the snapshot:
    the calls it makes are exactly these, whatever the callbacks do to
    the observer map meanwhile, and the View it leaves is the result of
    the callbacks applied in that order.  With no Observer registered for
    [n.name] it returns normally, calls nothing and leaves the View
    unchanged. *)
Theorem notifyObservers_snapshot `{ObserverHooks} (n : Notification.t)
    (v : ViewObj.t) :
  let snapshot :=
    default [] (ViewObj.observerMap v !! toPropertyKey (Notification.name n)) in
  View.notifyObservers n v =
    (Normal (), foldl (λ v1 o, notifyObserver o n v1) v snapshot,
     (λ o, NotifyObserver o n) <$> snapshot) ∧
  (snapshot = [] → View.notifyObservers n v = (Normal (), v, [])).
Proof.
  intros snapshot. split; [apply View_notifyObservers_run |].
  intros Hempty. rewrite View_notifyObservers_run. fold snapshot.
  by rewrite Hempty.
Qed.

Lemma notifyObservers_snapshot_witness :
  let H := restless_observers in
  let n := Notification.Mk (VStr "greet") (VStr "hello") (VStr "info") in
  let quiet := Notification.Mk (VStr "quiet") VUndefined VUndefined in
  events (View.notifyObservers n greeting_view) =
    [NotifyObserver (Observer.Mk 1 1) n; NotifyObserver (Observer.Mk 2 2) n;
     NotifyObserver (Observer.Mk 3 3) n] ∧
  ViewObj.observerMap (final (View.notifyObservers n greeting_view)) !! "greet" =
    Some [Observer.Mk 9 9] ∧
  ViewObj.observerMap greeting_view !! "quiet" = None ∧
  View.notifyObservers quiet greeting_view = (Normal (), greeting_view, []).
Proof.
  intros H n quiet.
  destruct (@notifyObservers_snapshot H n greeting_view) as [Hrun _].
  destruct (@notifyObservers_snapshot H quiet greeting_view) as [_ Hquiet].
  split; [rewrite Hrun; vm_compute; reflexivity |].
  split; [rewrite Hrun; vm_compute; reflexivity |].
  split; [reflexivity |]. apply Hquiet. reflexivity.
Defined.

(** ** The dispatch entry point of the Facade *)

Section FacadeDispatch.
Context `{ProxyHooks} `{ObserverHooks}.

Lemma Facade_notifyObservers_no_view (this : loc) (n : Notification.t)
    (w : World) (f : FacadeObj.t) :
  facades w !! this = Some f →
  truthy_ref (FacadeObj.view f) = false →
  Facade.notifyObservers this n w = (Normal (), w, []).
Proof.
  intros Hf Hv. unfold Facade.notifyObservers. js_bind.
  rewrite (on_facade_gets FacadeObj.view this w f Hf).
  by destruct (FacadeObj.view f).
Qed.

Lemma Facade_notifyObservers_view (this l : loc) (n : Notification.t)
    (w : World) (f : FacadeObj.t) :
  facades w !! this = Some f →
  FacadeObj.view f = Obj l →
  Facade.notifyObservers this n w = on_view l (View.notifyObservers n) w.
Proof.
  intros Hf Hv. unfold Facade.notifyObservers. js_bind.
  rewrite (on_facade_gets FacadeObj.view this w f Hf), Hv.
  by destruct (on_view l _ w) as [[r w1] t].
Qed.
End FacadeDispatch.

Lemma constructions_of_dispatch (n : Notification.t) (observers : list Observer.t) :
  constructions ((λ o, NotifyObserver o n) <$> observers) = [].
Proof. induction observers as [|o rest IH]; [done | exact IH]. Qed.

(** C4.  [sendNotification(name, body, type)] on a Facade constructs one
    Notification, with these three values, and passes it to the Facade's
    [notifyObservers], which passes it to [notifyObservers] of the View
    in the Facade's [view] field (for a Facade as its constructor
    composed it, the View of the Facade's own key): the View's Observers
    for [name] have all been called, in order, when [sendNotification]
    returns, and the trace holds the one construction followed by these
    calls.  On a Facade whose [view] is [null], [notifyObservers] does
    nothing, and [sendNotification] does nothing beyond constructing the
    Notification. *)
Theorem sendNotification_forwards `{ProxyHooks} `{ObserverHooks}
    (this : loc) (name body type : value) (w : World) (f : FacadeObj.t) :
  facades w !! this = Some f →
  let n := Notification.Mk name body type in
  (∀ (l : loc) (v : ViewObj.t),
     FacadeObj.view f = Obj l → views w !! l = Some v →
     let snapshot := default [] (ViewObj.observerMap v !! toPropertyKey name) in
     Facade.notifyObservers this n w = on_view l (View.notifyObservers n) w ∧
     Facade.sendNotification this name body type w =
       (Normal (),
        set_views <[l := foldl (λ v1 o, notifyObserver o n v1) v snapshot]> w,
        NewNotification n :: ((λ o, NotifyObserver o n) <$> snapshot)) ∧
     constructions (events (Facade.sendNotification this name body type w)) = [n]) ∧
  (truthy_ref (FacadeObj.view f) = false →
     Facade.notifyObservers this n w = (Normal (), w, []) ∧
     Facade.sendNotification this name body type w =
       (Normal (), w, [NewNotification n])).
Proof.
  intros Hf n.
  assert (Hsend : ∀ l v, FacadeObj.view f = Obj l → views w !! l = Some v →
    Facade.sendNotification this name body type w =
      (Normal (),
       set_views <[l := foldl (λ v1 o, notifyObserver o n v1) v
                          (default [] (ViewObj.observerMap v !! toPropertyKey name))]> w,
       NewNotification n :: ((λ o, NotifyObserver o n) <$>
                          default [] (ViewObj.observerMap v !! toPropertyKey name)))).
  { intros l v Hl Hv. unfold Facade.sendNotification. js_bind.
    unfold Facade.new_Notification at 1. fold n.
    rewrite (Facade_notifyObservers_view this l n w f Hf Hl).
    unfold on_view. rewrite Hv, View_notifyObservers_run. reflexivity. }
  split.
  - intros l v Hl Hv snapshot.
    split; [by eapply Facade_notifyObservers_view |].
    split; [by apply Hsend |].
    rewrite (Hsend l v Hl Hv). unfold events, constructions. cbn.
    f_equal. apply constructions_of_dispatch.
  - intros Hv. split; [by eapply Facade_notifyObservers_no_view |].
    unfold Facade.sendNotification. js_bind.
    unfold Facade.new_Notification at 1. fold n.
    by rewrite (Facade_notifyObservers_no_view this n w f Hf Hv).
Qed.

Lemma sendNotification_forwards_witness :
  let H := inert_hooks in
  let H0 := restless_observers in
  let w := greeting_world in
  let n := Notification.Mk (VStr "greet") (VStr "hello") (VStr "info") in
  facades w !! 0 = Some (FacadeObj.Mk (Obj 0) (Obj 0) (Obj 0) (VStr "a")) ∧
  events (Facade.sendNotification 0 (VStr "greet") (VStr "hello") (VStr "info") w) =
    [NewNotification n;
     NotifyObserver (Observer.Mk 1 1) n; NotifyObserver (Observer.Mk 2 2) n;
     NotifyObserver (Observer.Mk 3 3) n] ∧
  facades w !! 2 = Some (FacadeObj.Mk Null Null Null (VStr "")) ∧
  Facade.sendNotification 2 (VStr "greet") (VStr "hello") (VStr "info") w =
    (Normal (), w, [NewNotification n]).
Proof.
  intros H H0 w n.
  assert (Hf0 : facades w !! 0 =
            Some (FacadeObj.Mk (Obj 0) (Obj 0) (Obj 0) (VStr "a")))
    by (vm_compute; reflexivity).
  assert (Hf2 : facades w !! 2 = Some (FacadeObj.Mk Null Null Null (VStr "")))
    by (vm_compute; reflexivity).
  destruct (@sendNotification_forwards H H0 0 (VStr "greet") (VStr "hello")
              (VStr "info") w _ Hf0) as [Hview _].
  destruct (@sendNotification_forwards H H0 2 (VStr "greet") (VStr "hello")
              (VStr "info") w _ Hf2) as [_ Hnone].
  split; [exact Hf0 |]. split.
  - destruct (Hview 0 greeting_view eq_refl) as (_ & -> & _);
      [vm_compute; reflexivity |]. vm_compute. reflexivity.
  - split; [exact Hf2 |]. apply Hnone. reflexivity.
Defined.


(** ** Further properties of the Facade *)

(** X1.  [new Facade(k)], for a key with no entry in
    [Facade.instanceMap] and whose property name is not a name of the
    Array, gets its Model from [Model.getInstance(k)]: in
    the state the constructor leaves, the new Facade has [multitonKey]
    [k]; when [k] is truthy its [model] field holds an instance, the
    entry of [k] in [Model.instanceMap]; when [k] is falsy the field is
    [null]. *)
Theorem Facade_constructor_composes_model (k : value) (w : World) :
  array_name (toPropertyKey k) = false →
  Facade_instanceMap w !! toPropertyKey k = None →
  ∃ this w1 f,
    Facade.new k w = (Normal this, w1, []) ∧
    facades w1 !! this = Some f ∧
    FacadeObj.multitonKey f = k ∧
    (if truthy k
     then ∃ l, FacadeObj.model f = Obj l ∧
               Model_instanceMap w1 !! toPropertyKey k = Some l
     else FacadeObj.model f = Null).
Proof.
  intros _ Hl.
  destruct (Facade_new_fresh k w Hl) as (w1 & Hrun & Hf & Hi & Hsome).
  exists (length (facades w)), w1, (composed k w1).
  split; [done |]. split; [rewrite Hf; apply lookup_last |].
  split; [done |]. cbn. unfold instance_of, read_obj.
  destruct (truthy k); [| done].
  destruct (Hsome eq_refl) as [l Hm]. exists l. by rewrite Hm.
Qed.

Lemma Facade_constructor_composes_model_witness :
  array_name "a" = false ∧
  Facade_instanceMap initial !! "a" = None ∧
  ∃ this w1 f,
    Facade.new (VStr "a") initial = (Normal this, w1, []) ∧
    facades w1 !! this = Some f ∧
    FacadeObj.multitonKey f = VStr "a" ∧
    ∃ l, FacadeObj.model f = Obj l ∧ Model_instanceMap w1 !! "a" = Some l.
Proof.
  assert (Hname : array_name (toPropertyKey (VStr "a")) = false)
    by (vm_compute; reflexivity).
  split; [exact Hname |]. split; [reflexivity |].
  apply (Facade_constructor_composes_model (VStr "a") initial Hname).
  reflexivity.
Defined.

Section FacadeDelegation.
Context `{ProxyHooks} `{ObserverHooks}.

Lemma Facade_registerProxy_run (this l : loc) (p : Proxy) (w : World)
    (f : FacadeObj.t) (m : ModelObj.t) :
  facades w !! this = Some f →
  FacadeObj.model f = Obj l →
  models w !! l = Some m →
  Facade.registerProxy this p w =
    (Normal (), set_models <[l := final (Model.registerProxy p m)]> w,
     events (Model.registerProxy p m)).
Proof.
  intros Hf Hl Hm. unfold Facade.registerProxy. js_bind.
  rewrite (on_facade_gets FacadeObj.model this w f Hf), Hl.
  cbn [Facade.call_model]. unfold on_model.
  rewrite Hm, Model_registerProxy_run. reflexivity.
Qed.

Lemma Facade_lookups_without_model (this : loc) (p : Proxy) (n : value)
    (w : World) (f : FacadeObj.t) :
  facades w !! this = Some f →
  truthy_ref (FacadeObj.model f) = false →
  Facade.registerProxy this p w = (Throw TypeError, w, []) ∧
  Facade.retrieveProxy this n w = (Throw TypeError, w, []) ∧
  Facade.hasProxy this n w = (Throw TypeError, w, []).
Proof.
  intros Hf Hm.
  unfold Facade.registerProxy, Facade.retrieveProxy, Facade.hasProxy. js_bind.
  rewrite !(on_facade_gets FacadeObj.model this w f Hf).
  by destruct (FacadeObj.model f).
Qed.
End FacadeDelegation.

(** X2.  For a proxy [p] whose name is not a name of the Array,
    [Facade.registerProxy(p)] is [registerProxy(p)] of the Model in the
    Facade's [model] field, run on that Model in the store: the Model
    object that [Model.instanceMap] refers to is the one that changes,
    and the calls made on [p] are those of [Model.registerProxy]. *)
Theorem Facade_registerProxy_delegates `{ProxyHooks} `{ObserverHooks}
    (this l : loc) (p : Proxy) (w : World) (f : FacadeObj.t) (m : ModelObj.t) :
  array_name (toPropertyKey (getProxyName p)) = false →
  facades w !! this = Some f →
  FacadeObj.model f = Obj l →
  models w !! l = Some m →
  Facade.registerProxy this p w =
    (Normal (), set_models <[l := final (Model.registerProxy p m)]> w,
     events (Model.registerProxy p m)) ∧
  models (final (Facade.registerProxy this p w)) !! l =
    Some (final (Model.registerProxy p m)).
Proof.
  intros _ Hf Hl Hm. rewrite (Facade_registerProxy_run this l p w f m Hf Hl Hm).
  split; [done |]. cbn. apply list_lookup_insert_eq. by eapply lookup_lt_Some.
Qed.

Lemma Facade_registerProxy_delegates_witness :
  let H := inert_hooks in
  let H0 := inert_observers in
  let w1 := final (Facade.registerProxy 1 (ProxyRef 7) two_cores) in
  array_name (toPropertyKey (getProxyName (ProxyRef 7))) = false ∧
  Model_instanceMap two_cores !! "b" = Some 1 ∧
  models w1 !! 1 = Some (ModelObj.Mk {["7" := Obj (ProxyRef 7)]} (VStr "b")) ∧
  events (Facade.registerProxy 1 (ProxyRef 7) two_cores) =
    [ProxyCall (ProxyRef 7) (InitializeNotifier (VStr "b"));
     ProxyCall (ProxyRef 7) GetProxyName; ProxyCall (ProxyRef 7) OnRegister].
Proof.
  intros H H0 w1.
  assert (Hname : array_name (toPropertyKey (getProxyName (ProxyRef 7))) = false)
    by (vm_compute; reflexivity).
  destruct (@Facade_registerProxy_delegates H H0 1 1 (ProxyRef 7) two_cores
              (FacadeObj.Mk (Obj 1) (Obj 1) (Obj 1) (VStr "b"))
              (ModelObj.Mk ∅ (VStr "b")) Hname eq_refl eq_refl eq_refl)
    as [Hrun Hstore].
  split; [exact Hname |]. split; [reflexivity |]. split.
  - etrans; [exact Hstore |]. vm_compute. reflexivity.
  - rewrite Hrun. vm_compute. reflexivity.
Defined.

(** X3.  On a Facade that has no Model ([model] is [null], as after
    [new Facade("")]), [registerProxy], [retrieveProxy] and [hasProxy]
    throw a TypeError, the member access on [null], and change nothing;
    [removeProxy], which tests [this.model] first, returns [null]. *)
Theorem Facade_without_model `{ProxyHooks} `{ObserverHooks}
    (this : loc) (p : Proxy) (n : value) (w : World) (f : FacadeObj.t) :
  facades w !! this = Some f →
  truthy_ref (FacadeObj.model f) = false →
  Facade.registerProxy this p w = (Throw TypeError, w, []) ∧
  Facade.retrieveProxy this n w = (Throw TypeError, w, []) ∧
  Facade.hasProxy this n w = (Throw TypeError, w, []) ∧
  Facade.removeProxy this n w = (Normal Null, w, []).
Proof.
  intros Hf Hm.
  destruct (Facade_lookups_without_model this p n w f Hf Hm) as (Hr & Hg & Hh).
  split; [done |]. split; [done |]. split; [done |].
  by eapply Facade_removeProxy_no_model.
Qed.

Lemma Facade_without_model_witness :
  let H := inert_hooks in
  let H0 := inert_observers in
  let w := with_nameless_facade in
  facades w !! 2 = Some (FacadeObj.Mk Null Null Null (VStr "")) ∧
  Facade.registerProxy 2 (ProxyRef 7) w = (Throw TypeError, w, []) ∧
  Facade.retrieveProxy 2 (VNum 7) w = (Throw TypeError, w, []) ∧
  Facade.hasProxy 2 (VNum 7) w = (Throw TypeError, w, []) ∧
  Facade.removeProxy 2 (VNum 7) w = (Normal Null, w, []).
Proof.
  intros H H0 w. split; [reflexivity |].
  apply (@Facade_without_model H H0 2 (ProxyRef 7) (VNum 7) w
           (FacadeObj.Mk Null Null Null (VStr ""))); reflexivity.
Defined.

(** ** The factories in closed form *)

Lemma Model_getInstance_exact (k : value) (w : World) :
  Model.getInstance k w =
    (Normal (instance_of (Model_instanceMap (ensure_model k w)) k),
     ensure_model k w, []).
Proof.
  unfold ensure_model, instance_of. destruct (truthy k) eqn:Hk.
  - destruct (Model_instanceMap w !! toPropertyKey k) as [l|] eqn:Hl.
    + rewrite (Model_getInstance_taken k w l Hk Hl). unfold read_obj.
      by rewrite Hl.
    + rewrite (Model_getInstance_fresh k w Hk Hl). unfold read_obj. cbn.
      by rewrite lookup_insert_eq.
  - by apply Model_getInstance_falsy.
Qed.

Lemma Controller_getInstance_exact (k : value) (w : World) :
  Controller.getInstance k w =
    (Normal (instance_of (Controller_instanceMap (ensure_controller k w)) k),
     ensure_controller k w, []).
Proof.
  unfold ensure_controller, instance_of. destruct (truthy k) eqn:Hk.
  - destruct (Controller_instanceMap w !! toPropertyKey k) as [l|] eqn:Hl.
    + rewrite (Controller_getInstance_taken k w l Hk Hl). unfold read_obj.
      by rewrite Hl.
    + rewrite (Controller_getInstance_fresh k w Hk Hl). unfold read_obj. cbn.
      by rewrite lookup_insert_eq.
  - by apply Controller_getInstance_falsy.
Qed.

Lemma View_getInstance_exact (k : value) (w : World) :
  View.getInstance k w =
    (Normal (instance_of (View_instanceMap (ensure_view k w)) k),
     ensure_view k w, []).
Proof.
  unfold ensure_view, instance_of. destruct (truthy k) eqn:Hk.
  - destruct (View_instanceMap w !! toPropertyKey k) as [l|] eqn:Hl.
    + rewrite (View_getInstance_taken k w l Hk Hl). unfold read_obj.
      by rewrite Hl.
    + rewrite (View_getInstance_fresh k w Hk Hl). unfold read_obj. cbn.
      by rewrite lookup_insert_eq.
  - by apply View_getInstance_falsy.
Qed.

Lemma ensure_model_facades (k : value) (w : World) :
  facades (ensure_model k w) = facades w.
Proof.
  unfold ensure_model. destruct (truthy k); [| done].
  by destruct (Model_instanceMap w !! toPropertyKey k).
Qed.

Lemma ensure_controller_facades (k : value) (w : World) :
  facades (ensure_controller k w) = facades w.
Proof.
  unfold ensure_controller. destruct (truthy k); [| done].
  by destruct (Controller_instanceMap w !! toPropertyKey k).
Qed.

Lemma ensure_view_facades (k : value) (w : World) :
  facades (ensure_view k w) = facades w.
Proof.
  unfold ensure_view. destruct (truthy k); [| done].
  by destruct (View_instanceMap w !! toPropertyKey k).
Qed.

Lemma ensure_model_set_facades (k : value) (g : list FacadeObj.t → list FacadeObj.t)
    (w : World) :
  ensure_model k (set_facades g w) = set_facades g (ensure_model k w).
Proof.
  unfold ensure_model. destruct (truthy k); [| done]. cbn.
  by destruct (Model_instanceMap w !! toPropertyKey k).
Qed.

Lemma ensure_controller_set_facades (k : value)
    (g : list FacadeObj.t → list FacadeObj.t) (w : World) :
  ensure_controller k (set_facades g w) = set_facades g (ensure_controller k w).
Proof.
  unfold ensure_controller. destruct (truthy k); [| done]. cbn.
  by destruct (Controller_instanceMap w !! toPropertyKey k).
Qed.

Lemma ensure_view_set_facades (k : value) (g : list FacadeObj.t → list FacadeObj.t)
    (w : World) :
  ensure_view k (set_facades g w) = set_facades g (ensure_view k w).
Proof.
  unfold ensure_view. destruct (truthy k); [| done]. cbn.
  by destruct (View_instanceMap w !! toPropertyKey k).
Qed.

Lemma core_of_set_facades (k : value) (g : list FacadeObj.t → list FacadeObj.t)
    (w : World) :
  core_of k (set_facades g w) = set_facades g (core_of k w).
Proof.
  unfold core_of.
  by rewrite ensure_model_set_facades, ensure_controller_set_facades,
    ensure_view_set_facades.
Qed.

Lemma core_of_set_Facade_instanceMap (k : value)
    (g : gmap string loc → gmap string loc) (w : World) :
  core_of k (set_Facade_instanceMap g w) = set_Facade_instanceMap g (core_of k w).
Proof.
  unfold core_of, ensure_view, ensure_controller, ensure_model.
  destruct (truthy k); [| done]. cbn.
  destruct (Model_instanceMap w !! toPropertyKey k); cbn;
    destruct (Controller_instanceMap w !! toPropertyKey k); cbn;
    by destruct (View_instanceMap w !! toPropertyKey k).
Qed.

Lemma core_of_facades (k : value) (w : World) :
  facades (core_of k w) = facades w.
Proof.
  unfold core_of.
  by rewrite ensure_view_facades, ensure_controller_facades, ensure_model_facades.
Qed.

Lemma core_of_Facade_instanceMap (k : value) (w : World) :
  Facade_instanceMap (core_of k w) = Facade_instanceMap w.
Proof.
  unfold core_of, ensure_view, ensure_controller, ensure_model.
  destruct (truthy k); [| done].
  destruct (Model_instanceMap w !! toPropertyKey k); cbn;
    destruct (Controller_instanceMap w !! toPropertyKey k); cbn;
    by destruct (View_instanceMap w !! toPropertyKey k).
Qed.

Lemma Facade_initializeFacade_exact (this : loc) (k : value) (w : World) :
  facades w !! this = Some (FacadeObj.Mk Null Null Null k) →
  Facade.initializeFacade this w =
    (Normal (), set_facades <[this := composed k (core_of k w)]> (core_of k w), []).
Proof.
  intros Hf.
  assert (Hlt : this < length (facades w)) by by eapply lookup_lt_Some.
  unfold Facade.initializeFacade, Facade.initializeModel,
    Facade.initializeController, Facade.initializeView. js_bind.
  rewrite (on_facade_gets FacadeObj.model this w _ Hf).
  cbn [FacadeObj.model truthy_ref].
  rewrite (on_facade_gets FacadeObj.multitonKey this w _ Hf).
  cbn [FacadeObj.multitonKey].
  rewrite Model_getInstance_exact.
  set (w1 := ensure_model k w).
  set (m := instance_of (Model_instanceMap w1) k).
  assert (Hf1 : facades w1 !! this = Some (FacadeObj.Mk Null Null Null k)).
  { subst w1. by rewrite ensure_model_facades. }
  rewrite (on_facade_modify _ this w1 _ Hf1).
  set (w1' := set_facades _ w1).
  assert (Hf1' : facades w1' !! this = Some (FacadeObj.Mk Null m Null k)).
  { subst w1'. cbn. apply list_lookup_insert_eq. subst w1.
    by rewrite ensure_model_facades. }
  rewrite (on_facade_gets FacadeObj.controller this w1' _ Hf1').
  cbn [FacadeObj.controller truthy_ref].
  rewrite (on_facade_gets FacadeObj.multitonKey this w1' _ Hf1').
  cbn [FacadeObj.multitonKey].
  rewrite Controller_getInstance_exact.
  set (w2 := ensure_controller k w1').
  set (c := instance_of (Controller_instanceMap w2) k).
  assert (Hf2 : facades w2 !! this = Some (FacadeObj.Mk Null m Null k)).
  { subst w2. by rewrite ensure_controller_facades. }
  rewrite (on_facade_modify _ this w2 _ Hf2).
  set (w2' := set_facades _ w2).
  assert (Hf2' : facades w2' !! this = Some (FacadeObj.Mk c m Null k)).
  { subst w2'. cbn. apply list_lookup_insert_eq. subst w2.
    rewrite ensure_controller_facades. subst w1'. cbn.
    rewrite length_insert. subst w1. by rewrite ensure_model_facades. }
  rewrite (on_facade_gets FacadeObj.view this w2' _ Hf2').
  cbn [FacadeObj.view truthy_ref].
  rewrite (on_facade_gets FacadeObj.multitonKey this w2' _ Hf2').
  cbn [FacadeObj.multitonKey].
  rewrite View_getInstance_exact.
  set (w3 := ensure_view k w2').
  set (v := instance_of (View_instanceMap w3) k).
  assert (Hf3 : facades w3 !! this = Some (FacadeObj.Mk c m Null k)).
  { subst w3. by rewrite ensure_view_facades. }
  rewrite (on_facade_modify _ this w3 _ Hf3).
  cbn [app]. f_equal. f_equal.
  subst v c m w3 w2' w2 w1' w1.
  rewrite !ensure_controller_set_facades, !ensure_view_set_facades.
  unfold core_of, composed, FacadeObj.set_view, FacadeObj.set_controller,
    FacadeObj.set_model. cbn.
  set (W := ensure_view k (ensure_controller k (ensure_model k w))).
  assert (HM : Model_instanceMap W = Model_instanceMap (ensure_model k w)).
  { subst W. unfold ensure_view, ensure_controller. destruct (truthy k); [| done].
    destruct (Controller_instanceMap (ensure_model k w) !! toPropertyKey k); cbn;
      by destruct (View_instanceMap (ensure_model k w) !! toPropertyKey k). }
  assert (HC : Controller_instanceMap W =
               Controller_instanceMap (ensure_controller k (ensure_model k w))).
  { subst W. unfold ensure_view. destruct (truthy k); [| done].
    by destruct (View_instanceMap _ !! toPropertyKey k). }
  rewrite HM, HC. destruct W. unfold set_facades. cbn. f_equal.
  by rewrite !list_insert_insert_eq.
Qed.

Lemma Facade_new_exact (k : value) (w : World) :
  Facade_instanceMap w !! toPropertyKey k = None →
  Facade.new k w = (Normal (length (facades w)), add_facade k (core_of k w), []).
Proof.
  intros Hl. unfold Facade.new. js_bind.
  unfold gets at 1. unfold read_obj. rewrite Hl. cbn [nullish negb].
  unfold alloc_facade at 1. unfold Facade.initializeNotifier.
  set (this := length (facades w)).
  set (w0 := set_facades _ w).
  assert (Hf0 : facades w0 !! this = Some (FacadeObj.Mk Null Null Null VNull))
    by apply lookup_last.
  rewrite (on_facade_modify _ this w0 _ Hf0). cbn [app].
  unfold modify at 1.
  set (w1 := set_Facade_instanceMap _ _).
  assert (Hf1 : facades w1 !! this = Some (FacadeObj.Mk Null Null Null k)).
  { subst w1 w0 this. cbn. rewrite insert_last. apply lookup_last. }
  rewrite (Facade_initializeFacade_exact this k w1 Hf1). cbn [app].
  f_equal. f_equal. subst w1 w0.
  rewrite core_of_set_Facade_instanceMap, !core_of_set_facades.
  unfold add_facade. rewrite core_of_facades. fold this.
  pose proof (core_of_facades k w) as Hfs.
  unfold composed. destruct (core_of k w). cbn in *. subst facades0.
  unfold set_Facade_instanceMap, set_facades. cbn. f_equal.
  subst this. by rewrite !insert_last.
Qed.

Lemma Facade_getInstance_exact (k : value) (w : World) :
  truthy k = true →
  Facade_instanceMap w !! toPropertyKey k = None →
  Facade.getInstance k w =
    (Normal (Obj (length (facades w))), add_facade k (core_of k w), []).
Proof.
  intros Hk Hl. unfold Facade.getInstance. rewrite Hk. cbn [negb]. js_bind.
  unfold gets at 1. unfold read_obj at 1. rewrite Hl. cbn [truthy_ref negb].
  rewrite (Facade_new_exact k w Hl). unfold modify, gets, read_obj. cbn.
  rewrite lookup_insert_eq. f_equal. unfold add_facade.
  rewrite core_of_facades. unfold set_Facade_instanceMap. cbn.
  by rewrite insert_insert_eq.
Qed.

Lemma Facade_hasCore_registered (k : value) (w : World) (l : loc) :
  Facade_instanceMap w !! toPropertyKey k = Some l →
  Facade.hasCore k w = (Normal true, w, []).
Proof. intros Hl. unfold Facade.hasCore, gets, read_obj. by rewrite Hl. Qed.

Lemma Facade_hasCore_unregistered (k : value) (w : World) :
  Facade_instanceMap w !! toPropertyKey k = None →
  Facade.hasCore k w = (Normal false, w, []).
Proof. intros Hl. unfold Facade.hasCore, gets, read_obj. by rewrite Hl. Qed.

(** ** Keys are compared by their property name *)

(** X4.  The constructors and the factories index the instance map by the
    string form of the key.  Let [k'] name the same property as [k] (in
    particular [k' = k]; also [1] and ["1"], [null] and ["null"]), a
    name that is not a name of the Array.  After
    [new Model(k)] on a free key, [new Model(k')] throws, and for a truthy
    [k'] [Model.getInstance(k')] returns the instance constructed for [k]
    and changes nothing; after [Model.getInstance(k)] for a truthy [k],
    [new Model(k')] throws.  The same holds for the Facade, where
    moreover [hasCore(k')] is true and [removeCore(k')] removes the
    core. *)
Theorem keys_are_property_names (k k' : value) (w : World) :
  array_name (toPropertyKey k) = false →
  exact_key k = true →
  exact_key k' = true →
  toPropertyKey k' = toPropertyKey k →
  Model_instanceMap w !! toPropertyKey k = None →
  Facade_instanceMap w !! toPropertyKey k = None →
  (∃ this w1,
     Model.new k w = (Normal this, w1, []) ∧
     Model.new k' w1 = (Throw (JsError Model.MULTITON_MSG), w1, []) ∧
     (truthy k' = true → Model.getInstance k' w1 = (Normal (Obj this), w1, []))) ∧
  (truthy k = true →
   ∃ this w1,
     Model.getInstance k w = (Normal (Obj this), w1, []) ∧
     Model.new k' w1 = (Throw (JsError Model.MULTITON_MSG), w1, [])) ∧
  (∃ this w1,
     Facade.new k w = (Normal this, w1, []) ∧
     Facade.new k' w1 = (Throw (JsError Facade.MULTITON_MSG), w1, []) ∧
     (truthy k' = true → Facade.getInstance k' w1 = (Normal (Obj this), w1, [])) ∧
     Facade.hasCore k' w1 = (Normal true, w1, []) ∧
     Facade.hasCore k (final (Facade.removeCore k' w1)) =
       (Normal false, final (Facade.removeCore k' w1), [])) ∧
  (truthy k = true →
   ∃ this w1,
     Facade.getInstance k w = (Normal (Obj this), w1, []) ∧
     Facade.new k' w1 = (Throw (JsError Facade.MULTITON_MSG), w1, [])).
Proof.
  intros _ _ _ Hsame Hm Hf. split; [| split; [| split]].
  - eexists _, _. split; [by apply Model_new_fresh |]. split.
    + eapply Model_new_taken. cbn. rewrite Hsame. apply lookup_insert_eq.
    + intros Hk'. apply Model_getInstance_taken; [done |]. cbn.
      rewrite Hsame. apply lookup_insert_eq.
  - intros Hk. eexists _, _. split; [by apply Model_getInstance_fresh |].
    eapply Model_new_taken. cbn. rewrite Hsame. apply lookup_insert_eq.
  - exists (length (facades w)), (add_facade k (core_of k w)).
    assert (Hin : Facade_instanceMap (add_facade k (core_of k w))
                    !! toPropertyKey k' = Some (length (facades w))).
    { cbn. rewrite Hsame, core_of_facades. apply lookup_insert_eq. }
    split; [by apply Facade_new_exact |]. split; [by eapply Facade_new_taken |].
    split; [intros Hk'; by apply Facade_getInstance_taken |]. split.
    + by eapply Facade_hasCore_registered.
    + rewrite (Facade_removeCore_registered k' _ _ Hin).
      apply Facade_hasCore_unregistered. cbn.
      by rewrite Hsame, lookup_delete_eq.
  - intros Hk. exists (length (facades w)), (add_facade k (core_of k w)).
    split; [by apply Facade_getInstance_exact |].
    eapply Facade_new_taken. cbn. rewrite Hsame. apply lookup_insert_eq.
Qed.

Lemma keys_are_property_names_witness :
  array_name (toPropertyKey (VNum 1)) = false ∧
  toPropertyKey (VStr "1") = toPropertyKey (VNum 1) ∧
  (∃ this w1,
     Model.new (VNum 1) initial = (Normal this, w1, []) ∧
     Model.new (VStr "1") w1 = (Throw (JsError Model.MULTITON_MSG), w1, []) ∧
     Model.getInstance (VStr "1") w1 = (Normal (Obj this), w1, [])) ∧
  (∃ this w1,
     Facade.new (VNum 1) initial = (Normal this, w1, []) ∧
     Facade.new (VStr "1") w1 = (Throw (JsError Facade.MULTITON_MSG), w1, []) ∧
     Facade.getInstance (VStr "1") w1 = (Normal (Obj this), w1, [])).
Proof.
  assert (Hsame : toPropertyKey (VStr "1") = toPropertyKey (VNum 1))
    by (vm_compute; reflexivity).
  assert (Hname : array_name (toPropertyKey (VNum 1)) = false)
    by (vm_compute; reflexivity).
  destruct (keys_are_property_names (VNum 1) (VStr "1") initial Hname
              eq_refl eq_refl Hsame eq_refl eq_refl)
    as ((this & w1 & Hnew & Hthrow & Hget) & _ &
        (thisf & wf & Hnewf & Hthrowf & Hgetf & _) & _).
  split; [exact Hname |]. split; [exact Hsame |]. split.
  - exists this, w1. split; [exact Hnew |]. split; [exact Hthrow |].
    exact (Hget eq_refl).
  - exists thisf, wf. split; [exact Hnewf |]. split; [exact Hthrowf |].
    exact (Hgetf eq_refl).
Defined.

(** ** A core under a falsy key *)

Lemma core_of_falsy (k : value) (w : World) : truthy k = false → core_of k w = w.
Proof.
  intros Hk. unfold core_of, ensure_view, ensure_controller, ensure_model.
  by rewrite Hk.
Qed.

(** X5.  The constructor accepts a falsy key that the factory refuses.
    For a falsy [k] with no entry in [Facade.instanceMap], [new Facade(k)]
    returns a Facade with [multitonKey] [k] whose [model] is [null], the
    answer of [Model.getInstance(k)]; no Model is constructed and
    [Model.instanceMap] is not written.  The core is then registered:
    [hasCore(k)] is true and [new Facade(k)] throws; yet
    [Facade.getInstance(k)] returns [null]; and [removeCore(k)] removes
    it.  (The string forms of the falsy values are no names of the
    Array.) *)
Theorem falsy_key_core (k : value) (w : World) :
  truthy k = false →
  Facade_instanceMap w !! toPropertyKey k = None →
  ∃ this w1 f,
    Facade.new k w = (Normal this, w1, []) ∧
    facades w1 !! this = Some f ∧
    FacadeObj.multitonKey f = k ∧
    FacadeObj.model f = Null ∧
    (models w1 = models w ∧ Model_instanceMap w1 = Model_instanceMap w) ∧
    Facade.hasCore k w1 = (Normal true, w1, []) ∧
    Facade.new k w1 = (Throw (JsError Facade.MULTITON_MSG), w1, []) ∧
    Facade.getInstance k w1 = (Normal Null, w1, []) ∧
    Facade.hasCore k (final (Facade.removeCore k w1)) =
      (Normal false, final (Facade.removeCore k w1), []).
Proof.
  intros Hk Hl.
  exists (length (facades w)), (add_facade k w), (FacadeObj.Mk Null Null Null k).
  assert (Hin : Facade_instanceMap (add_facade k w) !! toPropertyKey k =
                Some (length (facades w))) by (cbn; apply lookup_insert_eq).
  split; [rewrite (Facade_new_exact k w Hl); by rewrite core_of_falsy |].
  split.
  { cbn. rewrite lookup_last. unfold composed, instance_of. by rewrite Hk. }
  split; [done |]. split; [done |]. split; [done |]. split.
  { by eapply Facade_hasCore_registered. }
  split; [by eapply Facade_new_taken |].
  split; [by apply Facade_getInstance_falsy |].
  rewrite (Facade_removeCore_registered k _ _ Hin).
  apply Facade_hasCore_unregistered. cbn. by rewrite lookup_delete_eq.
Qed.

Lemma falsy_key_core_witness :
  truthy (VNum 0) = false ∧
  ∃ this w1 f,
    Facade.new (VNum 0) two_cores = (Normal this, w1, []) ∧
    facades w1 !! this = Some f ∧
    FacadeObj.model f = Null ∧
    models w1 = models two_cores ∧
    Facade.hasCore (VNum 0) w1 = (Normal true, w1, []) ∧
    Facade.getInstance (VNum 0) w1 = (Normal Null, w1, []).
Proof.
  split; [reflexivity |].
  assert (Hfree : Facade_instanceMap two_cores !! toPropertyKey (VNum 0) = None)
    by (vm_compute; reflexivity).
  destruct (falsy_key_core (VNum 0) two_cores eq_refl Hfree)
    as (this & w1 & f & Hnew & Hf & _ & Hmod & [Hstore _] & Hhas & _ & Hget & _).
  exists this, w1, f. split; [exact Hnew |]. split; [exact Hf |].
  split; [exact Hmod |]. split; [exact Hstore |].
  split; [exact Hhas | exact Hget].
Defined.

(** ** One name at a time *)

Lemma read_insert_ne {A} (pm : gmap string (jsref A)) (n n' : value) (r : jsref A) :
  toPropertyKey n' ≠ toPropertyKey n →
  read (<[toPropertyKey n := r]> pm) n' = read pm n'.
Proof. intros Hne. unfold read. by rewrite lookup_insert_ne. Qed.

(** X6.  On a proxy map used as a map only, [registerProxy(p)] and
    [removeProxy(n)], for names that are not names of the Array, write
    one entry: the entry of [p]'s name, respectively of [n].  For every
    other such name [n'], with hooks that leave the entry of [n'] as they
    find it, [retrieveProxy(n')] and [hasProxy(n')] answer after the
    operation what they answered before. *)
Theorem proxy_operations_touch_one_name `{ProxyHooks} (p : Proxy) (n n' : value)
    (m : ModelObj.t) :
  array_name (toPropertyKey n') = false →
  exact_key n' = true →
  ordinary_map (ModelObj.proxyMap m) →
  (∀ (q : Proxy) (key : value) (m1 : ModelObj.t),
     read (ModelObj.proxyMap (initializeNotifier q key m1)) n' =
       read (ModelObj.proxyMap m1) n' ∧
     read (ModelObj.proxyMap (onRegister q m1)) n' =
       read (ModelObj.proxyMap m1) n' ∧
     read (ModelObj.proxyMap (onRemove q m1)) n' =
       read (ModelObj.proxyMap m1) n') →
  (array_name (toPropertyKey (getProxyName p)) = false →
   exact_key (getProxyName p) = true →
   toPropertyKey n' ≠ toPropertyKey (getProxyName p) →
   let m' := final (Model.registerProxy p m) in
   result (Model.retrieveProxy n' m') = result (Model.retrieveProxy n' m) ∧
   result (Model.hasProxy n' m') = result (Model.hasProxy n' m)) ∧
  (array_name (toPropertyKey n) = false →
   exact_key n = true →
   toPropertyKey n' ≠ toPropertyKey n →
   let m' := final (Model.removeProxy n m) in
   result (Model.retrieveProxy n' m') = result (Model.retrieveProxy n' m) ∧
   result (Model.hasProxy n' m') = result (Model.hasProxy n' m)).
Proof.
  intros _ _ _ Hkeep.
  assert (Hreg : toPropertyKey n' ≠ toPropertyKey (getProxyName p) →
    read (ModelObj.proxyMap (final (Model.registerProxy p m))) n' =
      read (ModelObj.proxyMap m) n').
  { intros Hne. rewrite Model_registerProxy_run. unfold final. cbn [fst snd].
    destruct (Hkeep p (ModelObj.multitonKey m) m) as (Hinit & _ & _).
    destruct (Hkeep p VNull
                (ModelObj.set_proxyMap
                   <[toPropertyKey (getProxyName p) := Obj p]>
                   (initializeNotifier p (ModelObj.multitonKey m) m)))
      as (_ & -> & _).
    unfold ModelObj.set_proxyMap. cbn [ModelObj.proxyMap].
    by rewrite read_insert_ne, Hinit. }
  assert (Hrem : toPropertyKey n' ≠ toPropertyKey n →
    read (ModelObj.proxyMap (final (Model.removeProxy n m))) n' =
      read (ModelObj.proxyMap m) n').
  { intros Hne. destruct (read (ModelObj.proxyMap m) n) as [| |q] eqn:Hn.
    - by rewrite Model_removeProxy_missing by by rewrite Hn.
    - by rewrite Model_removeProxy_missing by by rewrite Hn.
    - rewrite (Model_removeProxy_registered n q m Hn). unfold final.
      cbn [fst snd].
      destruct (Hkeep q VNull
                  (ModelObj.set_proxyMap <[toPropertyKey n := Null]> m))
        as (_ & _ & ->).
      unfold ModelObj.set_proxyMap. cbn [ModelObj.proxyMap].
      by rewrite read_insert_ne. }
  split; intros _ _ Hne m'; subst m';
    unfold Model.retrieveProxy, Model.hasProxy, gets, result; cbn [fst snd].
  - by rewrite (Hreg Hne).
  - by rewrite (Hrem Hne).
Qed.

Lemma proxy_operations_touch_one_name_witness :
  let H := inert_hooks in
  let m := final (Model.registerProxy (ProxyRef 7) (ModelObj.Mk ∅ (VStr "a"))) in
  ordinary_map (ModelObj.proxyMap m) ∧
  array_name (toPropertyKey (VNum 7)) = false ∧
  array_name (toPropertyKey (VNum 8)) = false ∧
  result (Model.retrieveProxy (VNum 7) (final (Model.registerProxy (ProxyRef 8) m))) =
    Normal (Obj (ProxyRef 7)) ∧
  result (Model.hasProxy (VNum 7) (final (Model.removeProxy (VNum 8) m))) =
    Normal true.
Proof.
  intros H m.
  assert (Hkeep : ∀ (q : Proxy) (key : value) (m1 : ModelObj.t),
     read (ModelObj.proxyMap (initializeNotifier q key m1)) (VNum 7) =
       read (ModelObj.proxyMap m1) (VNum 7) ∧
     read (ModelObj.proxyMap (onRegister q m1)) (VNum 7) =
       read (ModelObj.proxyMap m1) (VNum 7) ∧
     read (ModelObj.proxyMap (onRemove q m1)) (VNum 7) =
       read (ModelObj.proxyMap m1) (VNum 7)) by (intros; repeat split).
  assert (Hne : toPropertyKey (VNum 7) ≠ toPropertyKey (VNum 8))
    by (vm_compute; discriminate).
  assert (H7 : array_name (toPropertyKey (VNum 7)) = false)
    by (vm_compute; reflexivity).
  assert (H8 : array_name (toPropertyKey (VNum 8)) = false)
    by (vm_compute; reflexivity).
  assert (Hmap : ordinary_map (ModelObj.proxyMap m)).
  { assert (Hpm : ModelObj.proxyMap m = {["7" := Obj (ProxyRef 7)]})
      by (vm_compute; reflexivity).
    intros s Hs. rewrite Hpm. apply lookup_singleton_None. intros <-.
    vm_compute in Hs. discriminate Hs. }
  destruct (@proxy_operations_touch_one_name H (ProxyRef 8) (VNum 8) (VNum 7) m
              H7 eq_refl Hmap Hkeep)
    as [Hreg Hrem].
  split; [exact Hmap |]. split; [exact H7 |]. split; [exact H8 |]. split.
  - destruct (Hreg H8 eq_refl Hne) as [-> _]. vm_compute. reflexivity.
  - destruct (Hrem H8 eq_refl Hne) as [_ ->]. vm_compute. reflexivity.
Defined.

(** ** The pass-through to a missing Controller or View *)

(** X7.  On a Facade whose [view] is [null], [registerMediator] does
    nothing and [removeMediator] returns [null], because both test
    [this.view] first; [retrieveMediator] and [hasMediator] do not test
    it and throw a TypeError.  On a Facade whose [controller] is [null],
    [registerCommand], [removeCommand] and [hasCommand] throw a
    TypeError.  None of them changes the state or reaches the Controller
    or the View. *)
Theorem Facade_without_view_or_controller `{ActorMethods}
    (this : loc) (f : FacadeObj.t) (w : World)
    (mediator : Mediator) (cmd : CommandClass) (n : value) :
  facades w !! this = Some f →
  (truthy_ref (FacadeObj.view f) = false →
   FacadeActors.registerMediator this mediator w = (Normal (), w, []) ∧
   FacadeActors.removeMediator this n w = (Normal Null, w, []) ∧
   FacadeActors.retrieveMediator this n w = (Throw TypeError, w, []) ∧
   FacadeActors.hasMediator this n w = (Throw TypeError, w, [])) ∧
  (truthy_ref (FacadeObj.controller f) = false →
   FacadeActors.registerCommand this n cmd w = (Throw TypeError, w, []) ∧
   FacadeActors.removeCommand this n w = (Throw TypeError, w, []) ∧
   FacadeActors.hasCommand this n w = (Throw TypeError, w, [])).
Proof.
  intros Hf. split; intros Hnull.
  - unfold FacadeActors.registerMediator, FacadeActors.removeMediator,
      FacadeActors.retrieveMediator, FacadeActors.hasMediator. js_bind.
    rewrite !(on_facade_gets FacadeObj.view this w f Hf).
    by destruct (FacadeObj.view f).
  - unfold FacadeActors.registerCommand, FacadeActors.removeCommand,
      FacadeActors.hasCommand. js_bind.
    rewrite !(on_facade_gets FacadeObj.controller this w f Hf).
    by destruct (FacadeObj.controller f).
Qed.

Lemma Facade_without_view_or_controller_witness :
  let H := inert_actors in
  let w := with_nameless_facade in
  facades w !! 2 = Some (FacadeObj.Mk Null Null Null (VStr "")) ∧
  FacadeActors.registerMediator 2 (MediatorRef 1) w = (Normal (), w, []) ∧
  FacadeActors.hasMediator 2 (VStr "m") w = (Throw TypeError, w, []) ∧
  FacadeActors.hasCommand 2 (VStr "go") w = (Throw TypeError, w, []).
Proof.
  intros H w.
  assert (Hf : facades w !! 2 = Some (FacadeObj.Mk Null Null Null (VStr "")))
    by (vm_compute; reflexivity).
  destruct (@Facade_without_view_or_controller H 2 _ w (MediatorRef 1)
              (CommandClassRef 1) (VStr "m") Hf) as [Hview _].
  destruct (@Facade_without_view_or_controller H 2 _ w (MediatorRef 1)
              (CommandClassRef 1) (VStr "go") Hf) as [_ Hctl].
  destruct (Hview eq_refl) as (Hreg & _ & _ & Hhas).
  destruct (Hctl eq_refl) as (_ & _ & Hcmd).
  split; [exact Hf |]. split; [exact Hreg |]. split; [exact Hhas | exact Hcmd].
Defined.

(** ** The registries stay aligned with the stores *)

Lemma core_of_models (k : value) (w : World) :
  models (core_of k w) = models (ensure_model k w).
Proof.
  unfold core_of, ensure_view, ensure_controller. destruct (truthy k); [| done].
  destruct (Controller_instanceMap (ensure_model k w) !! toPropertyKey k); cbn;
    by destruct (View_instanceMap (ensure_model k w) !! toPropertyKey k).
Qed.

Lemma core_of_Model_instanceMap (k : value) (w : World) :
  Model_instanceMap (core_of k w) = Model_instanceMap (ensure_model k w).
Proof.
  unfold core_of, ensure_view, ensure_controller. destruct (truthy k); [| done].
  destruct (Controller_instanceMap (ensure_model k w) !! toPropertyKey k); cbn;
    by destruct (View_instanceMap (ensure_model k w) !! toPropertyKey k).
Qed.

Lemma registry_ok_fields (w w' : World) :
  models w' = models w → facades w' = facades w →
  Model_instanceMap w' = Model_instanceMap w →
  Facade_instanceMap w' = Facade_instanceMap w →
  registry_ok w → registry_ok w'.
Proof.
  intros Hm Hf Hmi Hfi [HM HF]. split.
  - intros s l. rewrite Hmi, Hm. apply HM.
  - intros s l. rewrite Hfi, Hf, Hm. apply HF.
Qed.

Lemma registry_ok_initial : registry_ok initial.
Proof. split; intros s l Hl; cbn in Hl; by rewrite lookup_empty in Hl. Qed.

Lemma registry_ok_fresh_model (k : value) (w : World) :
  registry_ok w →
  registry_ok (set_Model_instanceMap <[toPropertyKey k := length (models w)]>
                 (set_models (λ h, h ++ [ModelObj.Mk ∅ k]) w)).
Proof.
  intros [HM HF]. split.
  - intros s l. cbn. rewrite lookup_insert. case_decide as Hs.
    + intros [= <-]. subst s. exists (ModelObj.Mk ∅ k).
      split; [apply lookup_last | done].
    + intros Hl. destruct (HM s l Hl) as (m & Hm & Hk).
      exists m. split; [by apply lookup_app_l_Some | done].
  - intros s l Hl. cbn in Hl. destruct (HF s l Hl) as (f & Hf & Hk & Hmod).
    exists f. split; [done |]. split; [done |].
    intros lm Hlm. destruct (Hmod lm Hlm) as (m & Hm & Hkm).
    exists m. split; [cbn; by apply lookup_app_l_Some | done].
Qed.

Lemma registry_ok_ensure_model (k : value) (w : World) :
  registry_ok w → registry_ok (ensure_model k w).
Proof.
  intros Hok. unfold ensure_model. destruct (truthy k); [| done].
  destruct (Model_instanceMap w !! toPropertyKey k); [done |].
  by apply registry_ok_fresh_model.
Qed.

Lemma registry_ok_core_of (k : value) (w : World) :
  registry_ok w → registry_ok (core_of k w).
Proof.
  intros Hok. apply (registry_ok_fields (ensure_model k w)).
  - apply core_of_models.
  - by rewrite core_of_facades, ensure_model_facades.
  - apply core_of_Model_instanceMap.
  - rewrite core_of_Facade_instanceMap. unfold ensure_model.
    destruct (truthy k); [| done].
    by destruct (Model_instanceMap w !! toPropertyKey k).
  - by apply registry_ok_ensure_model.
Qed.

Lemma registry_ok_add_facade (k : value) (w : World) :
  registry_ok w → registry_ok (add_facade k w).
Proof.
  intros [HM HF]. split.
  - intros s l Hl. exact (HM s l Hl).
  - intros s l. cbn. rewrite lookup_insert. case_decide as Hs.
    + intros [= <-]. subst s. exists (composed k w).
      split; [apply lookup_last |]. split; [done |].
      intros lm. cbn. unfold instance_of, read_obj.
      destruct (truthy k); [| done].
      destruct (Model_instanceMap w !! toPropertyKey k) as [l|] eqn:Hl; [| done].
      intros [= <-]. by apply HM.
    + intros Hl. destruct (HF s l Hl) as (f & Hf & Hk & Hmod).
      exists f. split; [by apply lookup_app_l_Some | done].
Qed.

Lemma registry_ok_without_core (pk : string) (w : World) :
  registry_ok w → registry_ok (without_core pk w).
Proof.
  intros [HM HF]. split.
  - intros s l. cbn. rewrite lookup_delete_Some. intros [_ Hl]. by apply HM.
  - intros s l. cbn. rewrite lookup_delete_Some. intros [_ Hl]. by apply HF.
Qed.

Lemma registry_ok_removeModel (k : value) (w : World) :
  registry_ok w →
  registry_ok (set_Model_instanceMap (delete (toPropertyKey k)) w).
Proof.
  intros [HM HF]. split.
  - intros s l. cbn. rewrite lookup_delete_Some. intros [_ Hl]. by apply HM.
  - exact HF.
Qed.

(** The state each static operation leaves. *)
Lemma Model_new_final (k : value) (w : World) :
  final (Model.new k w) =
    match Model_instanceMap w !! toPropertyKey k with
    | Some _ => w
    | None =>
        set_Model_instanceMap <[toPropertyKey k := length (models w)]>
          (set_models (λ h, h ++ [ModelObj.Mk ∅ k]) w)
    end.
Proof.
  destruct (Model_instanceMap w !! toPropertyKey k) as [l|] eqn:Hl.
  - by rewrite (Model_new_taken k w l Hl).
  - by rewrite (Model_new_fresh k w Hl).
Qed.

Lemma Facade_new_final (k : value) (w : World) :
  final (Facade.new k w) =
    match Facade_instanceMap w !! toPropertyKey k with
    | Some _ => w
    | None => add_facade k (core_of k w)
    end.
Proof.
  destruct (Facade_instanceMap w !! toPropertyKey k) as [l|] eqn:Hl.
  - by rewrite (Facade_new_taken k w l Hl).
  - by rewrite (Facade_new_exact k w Hl).
Qed.

Lemma Facade_getInstance_final (k : value) (w : World) :
  final (Facade.getInstance k w) =
    if truthy k then
      match Facade_instanceMap w !! toPropertyKey k with
      | Some _ => w
      | None => add_facade k (core_of k w)
      end
    else w.
Proof.
  destruct (truthy k) eqn:Hk.
  - destruct (Facade_instanceMap w !! toPropertyKey k) as [l|] eqn:Hl.
    + by rewrite (Facade_getInstance_taken k w l Hk Hl).
    + by rewrite (Facade_getInstance_exact k w Hk Hl).
  - by rewrite (Facade_getInstance_falsy k w Hk).
Qed.

Lemma Facade_removeCore_final (k : value) (w : World) :
  final (Facade.removeCore k w) =
    match Facade_instanceMap w !! toPropertyKey k with
    | Some _ => without_core (toPropertyKey k) w
    | None => w
    end.
Proof.
  destruct (Facade_instanceMap w !! toPropertyKey k) as [l|] eqn:Hl.
  - by rewrite (Facade_removeCore_registered k w l Hl).
  - by rewrite (Facade_removeCore_unregistered k w Hl).
Qed.

(** X8.  The static operations keep the registries aligned with the
    objects.  Call a state aligned when every entry of
    [Model.instanceMap] refers to a Model whose [multitonKey] names the
    entry's property, and every entry of [Facade.instanceMap] refers to a
    Facade whose [multitonKey] names the entry's property and whose
    [model], if it has one, is a Model of a key naming the same property.
    The initial state is aligned, and from an aligned state each of
    [new Model(k)], [Model.getInstance(k)], [Model.removeModel(k)],
    [new Facade(k)], [Facade.getInstance(k)] and [Facade.removeCore(k)]
    leads to an aligned state, whether it returns or throws. *)
Theorem static_operations_keep_registries_aligned (k : value) (w : World) :
  registry_ok w →
  registry_ok initial ∧
  registry_ok (final (Model.new k w)) ∧
  registry_ok (final (Model.getInstance k w)) ∧
  registry_ok (final (Model.removeModel k w)) ∧
  registry_ok (final (Facade.new k w)) ∧
  registry_ok (final (Facade.getInstance k w)) ∧
  registry_ok (final (Facade.removeCore k w)).
Proof.
  intros Hok. split; [apply registry_ok_initial |].
  split.
  { rewrite Model_new_final.
    destruct (Model_instanceMap w !! toPropertyKey k); [done |].
    by apply registry_ok_fresh_model. }
  split.
  { rewrite Model_getInstance_exact. by apply registry_ok_ensure_model. }
  split; [by apply registry_ok_removeModel |].
  split.
  { rewrite Facade_new_final.
    destruct (Facade_instanceMap w !! toPropertyKey k); [done |].
    by apply registry_ok_add_facade, registry_ok_core_of. }
  split.
  { rewrite Facade_getInstance_final. destruct (truthy k); [| done].
    destruct (Facade_instanceMap w !! toPropertyKey k); [done |].
    by apply registry_ok_add_facade, registry_ok_core_of. }
  rewrite Facade_removeCore_final.
  destruct (Facade_instanceMap w !! toPropertyKey k); [| done].
  by apply registry_ok_without_core.
Qed.

Lemma static_operations_keep_registries_aligned_witness :
  registry_ok initial ∧
  registry_ok (final (Facade.getInstance (VStr "a") initial)) ∧
  registry_ok two_cores.
Proof.
  destruct (static_operations_keep_registries_aligned (VStr "a") initial
              registry_ok_initial) as (H0 & _ & _ & _ & _ & H1 & _).
  destruct (static_operations_keep_registries_aligned (VStr "b") _ H1)
    as (_ & _ & _ & _ & _ & H2 & _).
  split; [exact H0 |]. split; [exact H1 | exact H2].
Defined.

(** ** Existing objects *)

Lemma ensure_model_models (k : value) (w : World) :
  models w `prefix_of` models (ensure_model k w).
Proof.
  unfold ensure_model. destruct (truthy k); [| done].
  destruct (Model_instanceMap w !! toPropertyKey k); [done |].
  cbn. by apply prefix_app_r.
Qed.

Lemma objects_kept_add_facade_core_of (k : value) (w : World) :
  objects_kept w (add_facade k (core_of k w)).
Proof.
  split; cbn.
  - rewrite core_of_models. apply ensure_model_models.
  - rewrite core_of_facades. by apply prefix_app_r.
Qed.

(** X9.  No static operation changes or discards an object that exists.
    After each of [new Model(k)], [Model.getInstance(k)],
    [Model.removeModel(k)], [new Facade(k)], [Facade.getInstance(k)] and
    [Facade.removeCore(k)], every Model and every Facade that was in the
    store is still there, at its address and with its fields: a
    constructor only adds an object, and [removeModel] and [removeCore]
    only delete entries of the instance maps, so a removed Model keeps
    its proxies for whoever still holds it. *)
Theorem static_operations_keep_existing_objects (k : value) (w : World) :
  objects_kept w (final (Model.new k w)) ∧
  objects_kept w (final (Model.getInstance k w)) ∧
  objects_kept w (final (Model.removeModel k w)) ∧
  objects_kept w (final (Facade.new k w)) ∧
  objects_kept w (final (Facade.getInstance k w)) ∧
  objects_kept w (final (Facade.removeCore k w)).
Proof.
  split.
  { rewrite Model_new_final.
    destruct (Model_instanceMap w !! toPropertyKey k); [done |].
    split; cbn; [by apply prefix_app_r | done]. }
  split.
  { rewrite Model_getInstance_exact. split; cbn.
    - apply ensure_model_models.
    - by rewrite ensure_model_facades. }
  split; [done |].
  split.
  { rewrite Facade_new_final.
    destruct (Facade_instanceMap w !! toPropertyKey k); [done |].
    apply objects_kept_add_facade_core_of. }
  split.
  { rewrite Facade_getInstance_final. destruct (truthy k); [| done].
    destruct (Facade_instanceMap w !! toPropertyKey k); [done |].
    apply objects_kept_add_facade_core_of. }
  rewrite Facade_removeCore_final.
  by destruct (Facade_instanceMap w !! toPropertyKey k).
Qed.

(** ** A core removed and created again *)

Lemma ensure_model_fresh (k : value) (w : World) :
  truthy k = true →
  Model_instanceMap w !! toPropertyKey k = None →
  ensure_model k w =
    set_Model_instanceMap <[toPropertyKey k := length (models w)]>
      (set_models (λ h, h ++ [ModelObj.Mk ∅ k]) w).
Proof. intros Hk Hl. unfold ensure_model. by rewrite Hk, Hl. Qed.

(** X10.  A core created again after [removeCore] shares nothing with the
    one removed.  For a truthy [k] under which a core is registered,
    [Facade.getInstance(k)] after [Facade.removeCore(k)] returns a Facade
    that did not exist before, whose [model] is a Model that did not
    exist before, registered under [k], with an empty proxy map: the
    proxies of the removed core are not carried over. *)
Theorem recreated_core_is_new (k : value) (w : World) (l : loc) :
  truthy k = true →
  Facade_instanceMap w !! toPropertyKey k = Some l →
  ∃ this lm w2 f,
    Facade.getInstance k (final (Facade.removeCore k w)) =
      (Normal (Obj this), w2, []) ∧
    facades w !! this = None ∧
    models w !! lm = None ∧
    facades w2 !! this = Some f ∧
    FacadeObj.model f = Obj lm ∧
    Model_instanceMap w2 !! toPropertyKey k = Some lm ∧
    models w2 !! lm = Some (ModelObj.Mk ∅ k) ∧
    objects_kept w w2.
Proof.
  intros Hk Hl. rewrite (Facade_removeCore_registered k w l Hl).
  unfold final. cbn [fst snd].
  set (w1 := without_core (toPropertyKey k) w).
  assert (Hf1 : Facade_instanceMap w1 !! toPropertyKey k = None)
    by apply lookup_delete_eq.
  assert (Hm1 : Model_instanceMap w1 !! toPropertyKey k = None)
    by apply lookup_delete_eq.
  exists (length (facades w)), (length (models w)),
    (add_facade k (core_of k w1)), (composed k (core_of k w1)).
  assert (HMI : @eq (option loc)
                  (Model_instanceMap (core_of k w1) !! toPropertyKey k)
                  (Some (length (models w)))).
  { rewrite core_of_Model_instanceMap, (ensure_model_fresh k w1 Hk Hm1). cbn.
    apply lookup_insert_eq. }
  assert (HMS : models (core_of k w1) = models w ++ [ModelObj.Mk ∅ k]).
  { by rewrite core_of_models, (ensure_model_fresh k w1 Hk Hm1). }
  split; [exact (Facade_getInstance_exact k w1 Hk Hf1) |].
  split; [by apply lookup_ge_None_2 |].
  split; [by apply lookup_ge_None_2 |].
  split.
  { cbn. rewrite core_of_facades. apply lookup_last. }
  split.
  { unfold composed. cbn [FacadeObj.model]. unfold instance_of, read_obj.
    by rewrite Hk, HMI. }
  split; [exact HMI |].
  split.
  { cbn. rewrite HMS. apply lookup_last. }
  split; cbn.
  - rewrite HMS. by apply prefix_app_r.
  - rewrite core_of_facades. by apply prefix_app_r.
Qed.

Lemma recreated_core_is_new_witness :
  truthy (VStr "a") = true ∧
  Facade_instanceMap two_cores !! "a" = Some 0 ∧
  ∃ this lm w2 f,
    Facade.getInstance (VStr "a") (final (Facade.removeCore (VStr "a") two_cores)) =
      (Normal (Obj this), w2, []) ∧
    facades two_cores !! this = None ∧
    models two_cores !! lm = None ∧
    facades w2 !! this = Some f ∧
    FacadeObj.model f = Obj lm ∧
    models w2 !! lm = Some (ModelObj.Mk ∅ (VStr "a")).
Proof.
  assert (Hl : Facade_instanceMap two_cores !! toPropertyKey (VStr "a") = Some 0)
    by (vm_compute; reflexivity).
  destruct (recreated_core_is_new (VStr "a") two_cores 0 eq_refl Hl)
    as (this & lm & w2 & f & Hrun & Hnf & Hnm & Hf & Hmod & _ & Hm & _).
  split; [reflexivity |]. split; [exact Hl |].
  exists this, lm, w2, f.
  split; [exact Hrun |]. split; [exact Hnf |]. split; [exact Hnm |].
  split; [exact Hf |]. split; [exact Hmod | exact Hm].
Defined.

(** ** The Facade's Model and the registry of Models *)

Section FacadeAndRegistry.
Context `{ProxyHooks} `{ObserverHooks}.

Lemma Facade_hasProxy_run (this l : loc) (n : value) (w : World)
    (f : FacadeObj.t) (m : ModelObj.t) :
  facades w !! this = Some f →
  FacadeObj.model f = Obj l →
  models w !! l = Some m →
  Facade.hasProxy this n w =
    (Normal (truthy_ref (read (ModelObj.proxyMap m) n)), w, []).
Proof.
  intros Hf Hl Hm. unfold Facade.hasProxy. js_bind.
  rewrite (on_facade_gets FacadeObj.model this w f Hf), Hl. cbn.
  unfold on_model. rewrite Hm. unfold Model.hasProxy, gets.
  rewrite set_models_id by done. by rewrite negb_involutive.
Qed.

Lemma ensure_model_entry (k : value) (w : World) :
  truthy k = true →
  (∀ l, Model_instanceMap w !! toPropertyKey k = Some l → is_Some (models w !! l)) →
  ∃ (lm : loc) (m0 : ModelObj.t),
    Model_instanceMap (ensure_model k w) !! toPropertyKey k = Some lm ∧
    models (ensure_model k w) !! lm = Some m0.
Proof.
  intros Hk Hstored. unfold ensure_model. rewrite Hk.
  destruct (Model_instanceMap w !! toPropertyKey k) as [l|] eqn:Hl.
  - destruct (Hstored l eq_refl) as [m0 Hm0]. by exists l, m0.
  - exists (length (models w)), (ModelObj.Mk ∅ k). cbn.
    split; [apply lookup_insert_eq | apply lookup_last].
Qed.
End FacadeAndRegistry.

(** X11.  A proxy registered through the Facade of a core is the proxy
    that the core's Model holds.  Let the names of [k] and of [p] be no
    names of the Array.  For a truthy [k] with no Facade yet
    (and whose Model, if one is registered already, is a stored object):
    after [Facade.getInstance(k)] and [registerProxy(p)] on the Facade it
    returned, [Model.getInstance(k)] returns a Model on which
    [retrieveProxy] of [p]'s name gives [p]; the Facade's own
    [retrieveProxy] gives [p] and its [hasProxy] gives true.  The hook
    [p.onRegister] is taken to leave the entry of [p]'s name as it finds
    it. *)
Theorem proxy_registered_through_facade `{ProxyHooks} `{ObserverHooks}
    (k : value) (p : Proxy) (w : World) :
  truthy k = true →
  array_name (toPropertyKey k) = false →
  array_name (toPropertyKey (getProxyName p)) = false →
  Facade_instanceMap w !! toPropertyKey k = None →
  (∀ l, Model_instanceMap w !! toPropertyKey k = Some l → is_Some (models w !! l)) →
  (∀ m1, read (ModelObj.proxyMap (onRegister p m1)) (getProxyName p) =
         read (ModelObj.proxyMap m1) (getProxyName p)) →
  ∃ this w1 w2 lm m2,
    Facade.getInstance k w = (Normal (Obj this), w1, []) ∧
    result (Facade.registerProxy this p w1) = Normal () ∧
    final (Facade.registerProxy this p w1) = w2 ∧
    Model.getInstance k w2 = (Normal (Obj lm), w2, []) ∧
    models w2 !! lm = Some m2 ∧
    Model.retrieveProxy (getProxyName p) m2 = (Normal (Obj p), m2, []) ∧
    Facade.retrieveProxy this (getProxyName p) w2 = (Normal (Obj p), w2, []) ∧
    Facade.hasProxy this (getProxyName p) w2 = (Normal true, w2, []).
Proof.
  intros Hk _ _ Hfree Hstored Hkeep.
  destruct (ensure_model_entry k w Hk Hstored) as (lm & m0 & Hlm & Hm0).
  set (w1 := add_facade k (core_of k w)).
  set (this := length (facades w)).
  set (f := composed k (core_of k w)).
  assert (Hf : facades w1 !! this = Some f).
  { subst w1 this f. cbn. rewrite core_of_facades. apply lookup_last. }
  assert (Hmod : FacadeObj.model f = Obj lm).
  { subst f. unfold composed. cbn [FacadeObj.model].
    unfold instance_of, read_obj.
    by rewrite Hk, core_of_Model_instanceMap, Hlm. }
  assert (Hm1 : models w1 !! lm = Some m0).
  { subst w1. cbn. by rewrite core_of_models. }
  set (m2 := final (Model.registerProxy p m0)).
  set (w2 := set_models <[lm := m2]> w1).
  assert (Hm2 : models w2 !! lm = Some m2).
  { subst w2. cbn. apply list_lookup_insert_eq. by eapply lookup_lt_Some. }
  assert (Hread : read (ModelObj.proxyMap m2) (getProxyName p) = Obj p).
  { subst m2. rewrite Model_registerProxy_run. unfold final. cbn [fst snd].
    rewrite Hkeep. unfold ModelObj.set_proxyMap. cbn [ModelObj.proxyMap].
    apply read_insert. }
  exists this, w1, w2, lm, m2.
  split; [exact (Facade_getInstance_exact k w Hk Hfree) |].
  rewrite (Facade_registerProxy_run this lm p w1 f m0 Hf Hmod Hm1).
  split; [done |]. split; [done |].
  split.
  { apply Model_getInstance_taken; [done |]. subst w2 w1. cbn.
    by rewrite core_of_Model_instanceMap. }
  split; [exact Hm2 |].
  split; [unfold Model.retrieveProxy, gets; by rewrite Hread |].
  split.
  - rewrite (Facade_retrieveProxy_run this lm _ w2 f m2 Hf Hmod Hm2).
    by rewrite Hread.
  - rewrite (Facade_hasProxy_run this lm _ w2 f m2 Hf Hmod Hm2).
    by rewrite Hread.
Qed.

Lemma proxy_registered_through_facade_witness :
  let H := inert_hooks in
  let H0 := inert_observers in
  array_name "a" = false ∧
  array_name (toPropertyKey (getProxyName (ProxyRef 7))) = false ∧
  ∃ this w1 w2 lm m2,
    Facade.getInstance (VStr "a") initial = (Normal (Obj this), w1, []) ∧
    result (Facade.registerProxy this (ProxyRef 7) w1) = Normal () ∧
    final (Facade.registerProxy this (ProxyRef 7) w1) = w2 ∧
    Model.getInstance (VStr "a") w2 = (Normal (Obj lm), w2, []) ∧
    models w2 !! lm = Some m2 ∧
    Model.retrieveProxy (VNum 7) m2 = (Normal (Obj (ProxyRef 7)), m2, []) ∧
    Facade.retrieveProxy this (VNum 7) w2 = (Normal (Obj (ProxyRef 7)), w2, []) ∧
    Facade.hasProxy this (VNum 7) w2 = (Normal true, w2, []).
Proof.
  intros H H0.
  assert (Hk : array_name (toPropertyKey (VStr "a")) = false)
    by (vm_compute; reflexivity).
  assert (Hp : array_name (toPropertyKey (getProxyName (ProxyRef 7))) = false)
    by (vm_compute; reflexivity).
  split; [exact Hk |]. split; [exact Hp |].
  apply (@proxy_registered_through_facade H H0 (VStr "a") (ProxyRef 7) initial).
  - reflexivity.
  - exact Hk.
  - exact Hp.
  - reflexivity.
  - intros l Hl. cbn in Hl. by rewrite lookup_empty in Hl.
  - reflexivity.
Defined.

(** X12.  [Model.removeModel(k)] on its own splits a core.  Take a
    truthy [k] and a proxy [p] whose names are no names of the Array,
    and a Facade whose [model] is a stored Model.  After
    [Model.removeModel(k)] the Facade is as before and still holds that
    Model, but [Model.getInstance(k)] constructs another Model, with an
    empty proxy map; a proxy then registered through the Facade goes to
    the old Model, and the Model that [Model.getInstance(k)] returns does
    not have it. *)
Theorem removeModel_splits_the_core `{ProxyHooks} `{ObserverHooks}
    (k : value) (p : Proxy) (w : World) (lf lm : loc)
    (f : FacadeObj.t) (m : ModelObj.t) :
  truthy k = true →
  array_name (toPropertyKey k) = false →
  array_name (toPropertyKey (getProxyName p)) = false →
  facades w !! lf = Some f →
  FacadeObj.model f = Obj lm →
  models w !! lm = Some m →
  let w1 := final (Model.removeModel k w) in
  ∃ new w2,
    facades w1 = facades w ∧ Facade_instanceMap w1 = Facade_instanceMap w ∧
    Model.getInstance k w1 = (Normal (Obj new), w2, []) ∧
    new ≠ lm ∧
    models w2 !! new = Some (ModelObj.Mk ∅ k) ∧
    models w2 !! lm = Some m ∧
    facades w2 !! lf = Some f ∧
    let w3 := final (Facade.registerProxy lf p w2) in
    models w3 !! lm = Some (final (Model.registerProxy p m)) ∧
    Model.getInstance k w3 = (Normal (Obj new), w3, []) ∧
    models w3 !! new = Some (ModelObj.Mk ∅ k).
Proof.
  intros Hk _ _ Hf Hmod Hm w1. subst w1. unfold Model.removeModel, modify, final.
  cbn [fst snd].
  set (w1 := set_Model_instanceMap (delete (toPropertyKey k)) w).
  assert (Hfree : Model_instanceMap w1 !! toPropertyKey k = None)
    by apply lookup_delete_eq.
  assert (Hlt : lm < length (models w)) by by eapply lookup_lt_Some.
  set (w2 := set_Model_instanceMap <[toPropertyKey k := length (models w)]>
               (set_models (λ h, h ++ [ModelObj.Mk ∅ k]) w1)).
  assert (Hm2 : models w2 !! lm = Some m)
    by (subst w2 w1; cbn; by apply lookup_app_l_Some).
  assert (Hnew2 : models w2 !! length (models w) = Some (ModelObj.Mk ∅ k))
    by (subst w2 w1; cbn; apply lookup_last).
  exists (length (models w)), w2.
  split; [done |]. split; [done |].
  split; [exact (Model_getInstance_fresh k w1 Hk Hfree) |].
  split; [lia |]. split; [exact Hnew2 |]. split; [exact Hm2 |].
  split; [exact Hf |]. cbn zeta.
  rewrite (Facade_registerProxy_run lf lm p w2 f m Hf Hmod Hm2).
  unfold final at 1 3 4. cbn [fst snd].
  split.
  { cbn. apply list_lookup_insert_eq. rewrite length_app. lia. }
  split.
  { apply Model_getInstance_taken; [done |]. cbn. apply lookup_insert_eq. }
  cbn. rewrite list_lookup_insert_ne by lia. apply lookup_last.
Qed.

Lemma removeModel_splits_the_core_witness :
  let H := inert_hooks in
  let H0 := inert_observers in
  let w1 := final (Model.removeModel (VStr "a") two_cores) in
  array_name "a" = false ∧
  array_name (toPropertyKey (getProxyName (ProxyRef 7))) = false ∧
  ∃ new w2,
    Model.getInstance (VStr "a") w1 = (Normal (Obj new), w2, []) ∧
    new ≠ 0 ∧
    facades w2 !! 0 = Some (FacadeObj.Mk (Obj 0) (Obj 0) (Obj 0) (VStr "a")) ∧
    let w3 := final (Facade.registerProxy 0 (ProxyRef 7) w2) in
    models w3 !! 0 =
      Some (final (Model.registerProxy (ProxyRef 7) (ModelObj.Mk ∅ (VStr "a")))) ∧
    models w3 !! new = Some (ModelObj.Mk ∅ (VStr "a")).
Proof.
  intros H H0 w1.
  assert (Hk : array_name (toPropertyKey (VStr "a")) = false)
    by (vm_compute; reflexivity).
  assert (Hp : array_name (toPropertyKey (getProxyName (ProxyRef 7))) = false)
    by (vm_compute; reflexivity).
  destruct (@removeModel_splits_the_core H H0 (VStr "a") (ProxyRef 7) two_cores
              0 0 (FacadeObj.Mk (Obj 0) (Obj 0) (Obj 0) (VStr "a"))
              (ModelObj.Mk ∅ (VStr "a")) eq_refl Hk Hp eq_refl eq_refl eq_refl)
    as (new & w2 & _ & _ & Hget & Hne & _ & _ & Hf & Hold & _ & Hnew).
  split; [exact Hk |]. split; [exact Hp |].
  exists new, w2. split; [exact Hget |]. split; [exact Hne |].
  split; [exact Hf |]. split; [exact Hold | exact Hnew].
Defined.

(** X13.  [Facade.removeCore(k)] releases the Model of [k] only if a
    Facade is registered under [k].  A Model constructed for [k] without
    a Facade survives [removeCore(k)]: the state is unchanged and
    [new Model(k)] still throws; after [Model.removeModel(k)] the key is
    free and [new Model(k)] returns a new instance. *)
Theorem removeCore_needs_a_facade (k : value) (w : World) (l : loc) :
  Facade_instanceMap w !! toPropertyKey k = None →
  Model_instanceMap w !! toPropertyKey k = Some l →
  Facade.removeCore k w = (Normal (), w, []) ∧
  Model.new k (final (Facade.removeCore k w)) =
    (Throw (JsError Model.MULTITON_MSG), w, []) ∧
  ∃ w2, Model.new k (final (Model.removeModel k w)) =
          (Normal (length (models w)), w2, []) ∧
        Model_instanceMap w2 !! toPropertyKey k = Some (length (models w)).
Proof.
  intros Hf Hm. rewrite (Facade_removeCore_unregistered k w Hf).
  split; [done |]. split; [by eapply Model_new_taken |].
  unfold Model.removeModel, modify, final. cbn [fst snd].
  set (w1 := set_Model_instanceMap (delete (toPropertyKey k)) w).
  assert (Hfree : Model_instanceMap w1 !! toPropertyKey k = None)
    by apply lookup_delete_eq.
  rewrite (Model_new_fresh k w1 Hfree). eexists. split; [done |].
  cbn. apply lookup_insert_eq.
Qed.

Lemma removeCore_needs_a_facade_witness :
  let w := final (Model.new (VStr "solo") initial) in
  Facade.removeCore (VStr "solo") w = (Normal (), w, []) ∧
  Model.new (VStr "solo") (final (Facade.removeCore (VStr "solo") w)) =
    (Throw (JsError Model.MULTITON_MSG), w, []).
Proof.
  intros w.
  destruct (removeCore_needs_a_facade (VStr "solo") w 0 eq_refl eq_refl)
    as (Hrem & Hnew & _).
  split; [exact Hrem | exact Hnew].
Defined.



(** * The code on the Arrays *)

(** ** Ordinary names *)

Section OrdinaryNames.
Context `{Engine}.

Lemma JSArray_get_ordinary {A} (a : JSArray.t A) (s : string) :
  ordinary s →
  JSArray.get a s = JSArray.Ref (default Undefined (JSArray.own a !! s)).
Proof.
  intros [Hin Hlen]. unfold JSArray.get.
  apply String.eqb_neq in Hlen. rewrite Hlen, Hin.
  by destruct (JSArray.own a !! s).
Qed.

Lemma JSArray_set_ordinary {A} (a : JSArray.t A) (s : string) (v : jsref A) :
  ordinary s →
  ∃ n, JSArray.set a s v = JSArray.Assigned (JSArray.Mk (<[s := v]> (JSArray.own a)) n).
Proof.
  intros [Hin Hlen]. unfold JSArray.set.
  apply String.eqb_neq in Hlen. rewrite Hlen.
  destruct (String.eqb s "__proto__") eqn:Hp.
  - apply String.eqb_eq in Hp. subst s. rewrite Hin. cbn. by eexists.
  - cbn. by eexists.
Qed.

Lemma JSArray_delete_ordinary {A} (a : JSArray.t A) (s : string) :
  s ≠ "length" →
  JSArray.delete a s =
    Some (JSArray.Mk (delete s (JSArray.own a)) (JSArray.length a)).
Proof.
  intros Hlen. unfold JSArray.delete.
  apply String.eqb_neq in Hlen. by rewrite Hlen.
Qed.
End OrdinaryNames.

Lemma listed_names_ordinary (s : string) :
  array_name s = false → @ordinary listed_names s.
Proof.
  intros Hs. split.
  { change (array_name s && negb (String.eqb s "length") = false).
    by rewrite Hs. }
  intros ->. vm_compute in Hs. discriminate Hs.
Qed.

Ltac run_bind :=
  unfold mbind, mret, Exact.Run_mbind, Exact.Run_mret, Exact.Run_bind,
         Exact.Run_ret in *.

Ltac run_unfold :=
  unfold mbind, mret, Exact.Run_mbind, Exact.Run_mret, Exact.Run_bind,
         Exact.Run_ret, Exact.lift, Exact.assign, Exact.remove,
         Exact.alloc_model, gets, modify, throw, extern in *.

(** ** The static methods on ordinary keys *)

Ltac same_heap_parts H :=
  destruct H as (Hms & Hvs & Hcs & Hfs & Hm & Hv & Hc & Hf).

Section StaticMethods.
Context `{Engine}.

Lemma same_heap_lookup_Model (h : Exact.Heap) (w : World) (s : string) :
  same_heap h w →
  default Undefined (JSArray.own (Exact.Model_instanceMap h) !! s) =
    read_obj (Model_instanceMap w) (VStr s).
Proof.
  intros Hh. same_heap_parts Hh. rewrite Hm, lookup_fmap. unfold read_obj. cbn.
  by destruct (Model_instanceMap w !! s).
Qed.

Lemma same_heap_lookup_Facade (h : Exact.Heap) (w : World) (s : string) :
  same_heap h w →
  default Undefined (JSArray.own (Exact.Facade_instanceMap h) !! s) =
    read_obj (Facade_instanceMap w) (VStr s).
Proof.
  intros Hh. same_heap_parts Hh. rewrite Hf, lookup_fmap. unfold read_obj. cbn.
  by destruct (Facade_instanceMap w !! s).
Qed.

Lemma same_model_new (k : value) :
  same_model (Exact.ModelObj.Mk JSArray.empty k) (ModelObj.Mk ∅ k).
Proof. done. Qed.

Lemma Exact_get_Model_ordinary (k : value) (h : Exact.Heap) (w : World) :
  ordinary (toPropertyKey k) → same_heap h w →
  JSArray.get (Exact.Model_instanceMap h) (toPropertyKey k) =
    JSArray.Ref (read_obj (Model_instanceMap w) k).
Proof.
  intros Hk Hh.
  by rewrite (JSArray_get_ordinary _ _ Hk), (same_heap_lookup_Model h w _ Hh).
Qed.

Lemma Exact_get_Facade_ordinary (k : value) (h : Exact.Heap) (w : World) :
  ordinary (toPropertyKey k) → same_heap h w →
  JSArray.get (Exact.Facade_instanceMap h) (toPropertyKey k) =
    JSArray.Ref (read_obj (Facade_instanceMap w) k).
Proof.
  intros Hk Hh.
  by rewrite (JSArray_get_ordinary _ _ Hk), (same_heap_lookup_Facade h w _ Hh).
Qed.

Lemma Exact_Model_new_taken (k : value) (h : Exact.Heap) (w : World) (l : loc) :
  ordinary (toPropertyKey k) → same_heap h w →
  Model_instanceMap w !! toPropertyKey k = Some l →
  Exact.Model.new k h = Some (Throw (JsError Model.MULTITON_MSG), h, []).
Proof.
  intros Hk Hh Hl. unfold Exact.Model.new. run_unfold.
  rewrite (Exact_get_Model_ordinary k h w Hk Hh).
  unfold read_obj. cbn. by rewrite Hl.
Qed.

Lemma Exact_Model_new_fresh (k : value) (h : Exact.Heap) (w : World) :
  ordinary (toPropertyKey k) → same_heap h w →
  Model_instanceMap w !! toPropertyKey k = None →
  ∃ h1, Exact.Model.new k h = Some (Normal (length (models w)), h1, []) ∧
        same_heap h1
          (set_Model_instanceMap <[toPropertyKey k := length (models w)]>
             (set_models (λ s, s ++ [ModelObj.Mk ∅ k]) w)).
Proof.
  intros Hk Hh Hl. unfold Exact.Model.new. run_unfold.
  rewrite (Exact_get_Model_ordinary k h w Hk Hh).
  unfold read_obj. cbn. rewrite Hl. cbn.
  match goal with |- context [JSArray.set ?a ?s ?v] =>
    destruct (JSArray_set_ordinary a s v Hk) as [n Hset]
  end.
  rewrite Hset. cbn. same_heap_parts Hh.
  rewrite (Forall2_length _ _ _ Hms).
  eexists. split; [reflexivity |].
  unfold same_heap. cbn. split; [| by rewrite Hm, fmap_insert].
  apply Forall2_app; [done |]. constructor; [apply same_model_new | constructor].
Qed.

Lemma Exact_assign_Model_ordinary (s : string) (l : loc) (h : Exact.Heap) (w : World) :
  ordinary s → same_heap h w →
  ∃ h1, Exact.assign Exact.Model_instanceMap Exact.set_Model_instanceMap s (Obj l) h =
          Some (Normal (), h1, []) ∧
        same_heap h1 (set_Model_instanceMap <[s := l]> w).
Proof.
  intros Hs Hh. same_heap_parts Hh. unfold Exact.assign.
  destruct (JSArray_set_ordinary (Exact.Model_instanceMap h) s (Obj l) Hs)
    as [n ->].
  eexists. split; [reflexivity |].
  unfold same_heap. cbn. by rewrite Hm, fmap_insert.
Qed.

Lemma Exact_assign_Facade_ordinary (s : string) (l : loc) (h : Exact.Heap) (w : World) :
  ordinary s → same_heap h w →
  ∃ h1, Exact.assign Exact.Facade_instanceMap Exact.set_Facade_instanceMap s (Obj l) h =
          Some (Normal (), h1, []) ∧
        same_heap h1 (set_Facade_instanceMap <[s := l]> w).
Proof.
  intros Hs Hh. same_heap_parts Hh. unfold Exact.assign.
  destruct (JSArray_set_ordinary (Exact.Facade_instanceMap h) s (Obj l) Hs)
    as [n ->].
  eexists. split; [reflexivity |].
  unfold same_heap. cbn. by rewrite Hf, fmap_insert.
Qed.

Lemma Exact_Model_getInstance_ordinary (k : value) (h : Exact.Heap) (w : World) :
  ordinary (toPropertyKey k) → same_heap h w →
  ∃ h1, Exact.Model.getInstance k h =
          Some (Normal (JSArray.Ref (instance_of (Model_instanceMap (ensure_model k w)) k)),
                h1, []) ∧
        same_heap h1 (ensure_model k w).
Proof.
  intros Hk Hh. unfold Exact.Model.getInstance, ensure_model, instance_of.
  destruct (truthy k) eqn:Htruthy; cbn [negb].
  2: { exists h. by split. }
  run_unfold. rewrite (Exact_get_Model_ordinary k h w Hk Hh).
  unfold read_obj at 1.
  destruct (Model_instanceMap w !! toPropertyKey k) as [l|] eqn:Hl; cbn.
  - exists h. rewrite (Exact_get_Model_ordinary k h w Hk Hh). unfold read_obj.
    rewrite Hl. by split.
  - destruct (Exact_Model_new_fresh k h w Hk Hh Hl) as (h1 & -> & Hh1).
    destruct (Exact_assign_Model_ordinary (toPropertyKey k) (length (models w))
                h1 _ Hk Hh1) as (h2 & Hassign & Hh2).
    unfold Exact.assign in Hassign. rewrite Hassign. cbn.
    match type of Hh2 with same_heap _ ?w2 =>
      assert (Hsame : w2 =
                set_Model_instanceMap <[toPropertyKey k := length (models w)]>
                  (set_models (λ s, s ++ [ModelObj.Mk ∅ k]) w))
        by (unfold set_Model_instanceMap, set_models; cbn;
            by rewrite insert_insert_eq);
      rewrite Hsame in Hh2
    end.
    exists h2. rewrite (Exact_get_Model_ordinary k h2 _ Hk Hh2).
    unfold read_obj. cbn. rewrite !lookup_insert_eq. by split.
Qed.

Lemma Exact_Model_removeModel_ordinary (k : value) (h : Exact.Heap) (w : World) :
  toPropertyKey k ≠ "length" → same_heap h w →
  ∃ h1, Exact.Model.removeModel k h = Some (Normal (), h1, []) ∧
        same_heap h1 (set_Model_instanceMap (delete (toPropertyKey k)) w).
Proof.
  intros Hk Hh. same_heap_parts Hh.
  unfold Exact.Model.removeModel, Exact.remove.
  rewrite (JSArray_delete_ordinary _ _ Hk).
  eexists. split; [reflexivity |].
  unfold same_heap. cbn. by rewrite Hm, fmap_delete.
Qed.

Lemma Exact_Facade_hasCore_ordinary (k : value) (h : Exact.Heap) (w : World) :
  ordinary (toPropertyKey k) → same_heap h w →
  Exact.Facade.hasCore k h = Some (result (Facade.hasCore k w), h, []).
Proof.
  intros Hk Hh. unfold Exact.Facade.hasCore, Facade.hasCore. run_unfold.
  by rewrite (Exact_get_Facade_ordinary k h w Hk Hh).
Qed.

Lemma Exact_Facade_removeCore_ordinary (k : value) (h : Exact.Heap) (w : World) :
  ordinary (toPropertyKey k) → same_heap h w →
  ∃ h1, Exact.Facade.removeCore k h = Some (Normal (), h1, []) ∧
        same_heap h1 (final (Facade.removeCore k w)).
Proof.
  intros Hk Hh. unfold Exact.Facade.removeCore. run_unfold.
  rewrite (Exact_get_Facade_ordinary k h w Hk Hh). unfold read_obj.
  destruct (Facade_instanceMap w !! toPropertyKey k) as [l|] eqn:Hl; cbn.
  - rewrite (Facade_removeCore_registered k w l Hl).
    destruct Hk as [Hin Hlen].
    destruct (Exact_Model_removeModel_ordinary k h w Hlen Hh) as (h1 & -> & Hh1).
    unfold Exact.View.removeView, Exact.Controller.removeController. run_unfold.
    rewrite (JSArray_delete_ordinary _ _ Hlen). cbn.
    eexists. split; [reflexivity |].
    same_heap_parts Hh1. cbn in *.
    unfold same_heap, without_core. cbn. rewrite Hv, Hc.
    repeat split; try done. by rewrite Hf, fmap_delete.
  - rewrite (Facade_removeCore_unregistered k w Hl). exists h. by split.
Qed.

(** The factories of the View and of the Controller are the same text on
    both sides. *)
Lemma Exact_View_getInstance_same (k : value) (h : Exact.Heap) (w : World) :
  same_heap h w →
  ∃ h1, Exact.View.getInstance k h =
          Some (Normal (instance_of (View_instanceMap (ensure_view k w)) k), h1, []) ∧
        same_heap h1 (ensure_view k w).
Proof.
  intros Hh. unfold Exact.View.getInstance, ensure_view, instance_of.
  destruct (truthy k) eqn:Htruthy; cbn [negb].
  2: { exists h. by split. }
  same_heap_parts Hh. unfold Exact.View.new. run_unfold. rewrite Hv.
  unfold read_obj.
  destruct (View_instanceMap w !! toPropertyKey k) as [l|] eqn:Hl; cbn.
  - rewrite Hv, Hl. exists h. by split.
  - rewrite Hv, Hl. cbn. rewrite Hvs, ?lookup_insert_eq. cbn.
    rewrite ?lookup_insert_eq. eexists. split; [reflexivity |].
    unfold same_heap. cbn. by rewrite Hvs, Hv, insert_insert_eq.
Qed.

Lemma Exact_Controller_getInstance_same (k : value) (h : Exact.Heap) (w : World) :
  same_heap h w →
  ∃ h1, Exact.Controller.getInstance k h =
          Some (Normal (instance_of (Controller_instanceMap (ensure_controller k w)) k),
                h1, []) ∧
        same_heap h1 (ensure_controller k w).
Proof.
  intros Hh. unfold Exact.Controller.getInstance, ensure_controller, instance_of.
  destruct (truthy k) eqn:Htruthy; cbn [negb].
  2: { exists h. by split. }
  same_heap_parts Hh. unfold Exact.Controller.new. run_unfold. rewrite Hc.
  unfold read_obj.
  destruct (Controller_instanceMap w !! toPropertyKey k) as [l|] eqn:Hl; cbn.
  - rewrite Hc, Hl. exists h. by split.
  - rewrite Hc, Hl. cbn. rewrite Hcs, ?lookup_insert_eq. cbn.
    rewrite ?lookup_insert_eq. eexists. split; [reflexivity |].
    unfold same_heap. cbn. by rewrite Hcs, Hc, insert_insert_eq.
Qed.

(** *** Construction of a Facade *)

Lemma same_facade_exact (f : FacadeObj.t) : same_facade (exact_facade f) f.
Proof. done. Qed.

Lemma same_heap_facade (h : Exact.Heap) (w : World) (l : loc) (f : FacadeObj.t) :
  same_heap h w → facades w !! l = Some f →
  Exact.facades h !! l = Some (exact_facade f).
Proof.
  intros Hh Hl. same_heap_parts Hh.
  destruct (Forall2_lookup_r _ _ _ _ _ Hfs Hl) as (a & Ha & H1 & H2 & H3 & H4).
  etrans; [exact Ha |]. destruct a. cbn in *. by subst.
Qed.

Lemma same_heap_set_facade (h : Exact.Heap) (w : World) (l : loc) (f : FacadeObj.t) :
  same_heap h w →
  same_heap (Exact.set_facades <[l := exact_facade f]> h) (set_facades <[l := f]> w).
Proof.
  intros Hh. same_heap_parts Hh. unfold same_heap. cbn.
  repeat split; try done. apply Forall2_insert; [done | apply same_facade_exact].
Qed.

Lemma same_heap_alloc_facade (h : Exact.Heap) (w : World) (f : FacadeObj.t) :
  same_heap h w →
  same_heap (Exact.set_facades (λ l, l ++ [exact_facade f]) h)
            (set_facades (λ l, l ++ [f]) w).
Proof.
  intros Hh. same_heap_parts Hh. unfold same_heap. cbn.
  repeat split; try done. apply Forall2_app; [done |].
  constructor; [apply same_facade_exact | constructor].
Qed.

Lemma Exact_on_facade_gets {A} (g : Exact.FacadeObj.t → A) (l : loc)
    (h : Exact.Heap) (a : Exact.FacadeObj.t) :
  Exact.facades h !! l = Some a →
  Exact.on_facade l (Exact.lift (gets g)) h = Some (Normal (g a), h, []).
Proof.
  intros Ha. unfold Exact.on_facade, Exact.lift, gets.
  assert (Hid : Exact.set_facades <[l := a]> h = h).
  { destruct h; unfold Exact.set_facades; cbn in *. f_equal.
    by apply list_insert_id. }
  destruct (Exact.facades h !! l) eqn:Hl; simplify_eq. by rewrite Hid.
Qed.

Lemma Exact_on_facade_modify (g : Exact.FacadeObj.t → Exact.FacadeObj.t) (l : loc)
    (h : Exact.Heap) (a : Exact.FacadeObj.t) :
  Exact.facades h !! l = Some a →
  Exact.on_facade l (Exact.lift (modify g)) h =
    Some (Normal (), Exact.set_facades <[l := g a]> h, []).
Proof.
  intros Ha. unfold Exact.on_facade, Exact.lift, modify.
  by destruct (Exact.facades h !! l); simplify_eq.
Qed.

(** [initializeModel], [initializeController] and [initializeView] on a
    Facade at [this], on both sides at once. *)
Lemma Exact_Facade_initializeModel_ordinary (this : loc) (h : Exact.Heap)
    (w : World) (f : FacadeObj.t) :
  ordinary (toPropertyKey (FacadeObj.multitonKey f)) →
  same_heap h w → facades w !! this = Some f →
  ∃ h1 w1 f1, Exact.Facade.initializeModel this h = Some (Normal (), h1, []) ∧
              Facade.initializeModel this w = (Normal (), w1, []) ∧
              same_heap h1 w1 ∧ facades w1 !! this = Some f1 ∧
              FacadeObj.multitonKey f1 = FacadeObj.multitonKey f.
Proof.
  intros Hk Hh Hf.
  pose proof (same_heap_facade h w this f Hh Hf) as Ha.
  unfold Exact.Facade.initializeModel, Facade.initializeModel. run_bind. js_bind.
  rewrite (Exact_on_facade_gets _ this h _ Ha).
  rewrite (on_facade_gets FacadeObj.model this w f Hf).
  cbn [exact_facade Exact.FacadeObj.model JSArray.ToBoolean].
  destruct (truthy_ref (FacadeObj.model f)).
  { by exists h, w, f. }
  rewrite (Exact_on_facade_gets _ this h _ Ha).
  rewrite (on_facade_gets FacadeObj.multitonKey this w f Hf).
  cbn [exact_facade Exact.FacadeObj.multitonKey].
  destruct (Exact_Model_getInstance_ordinary _ h w Hk Hh) as (h1 & -> & Hh1).
  rewrite Model_getInstance_exact.
  set (w1 := ensure_model (FacadeObj.multitonKey f) w) in *.
  set (r := instance_of (Model_instanceMap w1) (FacadeObj.multitonKey f)).
  assert (Hf1 : facades w1 !! this = Some f).
  { subst w1. by rewrite ensure_model_facades. }
  rewrite (Exact_on_facade_modify _ this h1 _ (same_heap_facade h1 w1 this f Hh1 Hf1)).
  rewrite (on_facade_modify _ this w1 f Hf1).
  eexists _, _, (FacadeObj.set_model r f).
  split; [reflexivity |]. split; [reflexivity |].
  split; [apply (same_heap_set_facade h1 w1 this (FacadeObj.set_model r f) Hh1) |].
  split; [| done]. cbn. apply list_lookup_insert_eq. by eapply lookup_lt_Some.
Qed.

Lemma Exact_Facade_initializeController_same (this : loc) (h : Exact.Heap)
    (w : World) (f : FacadeObj.t) :
  same_heap h w → facades w !! this = Some f →
  ∃ h1 w1 f1, Exact.Facade.initializeController this h = Some (Normal (), h1, []) ∧
              Facade.initializeController this w = (Normal (), w1, []) ∧
              same_heap h1 w1 ∧ facades w1 !! this = Some f1 ∧
              FacadeObj.multitonKey f1 = FacadeObj.multitonKey f.
Proof.
  intros Hh Hf.
  pose proof (same_heap_facade h w this f Hh Hf) as Ha.
  unfold Exact.Facade.initializeController, Facade.initializeController.
  run_bind. js_bind.
  rewrite (Exact_on_facade_gets _ this h _ Ha).
  rewrite (on_facade_gets FacadeObj.controller this w f Hf).
  cbn [exact_facade Exact.FacadeObj.controller].
  destruct (truthy_ref (FacadeObj.controller f)).
  { by exists h, w, f. }
  rewrite (Exact_on_facade_gets _ this h _ Ha).
  rewrite (on_facade_gets FacadeObj.multitonKey this w f Hf).
  cbn [exact_facade Exact.FacadeObj.multitonKey].
  destruct (Exact_Controller_getInstance_same (FacadeObj.multitonKey f) h w Hh)
    as (h1 & -> & Hh1).
  rewrite Controller_getInstance_exact.
  set (w1 := ensure_controller (FacadeObj.multitonKey f) w) in *.
  set (r := instance_of (Controller_instanceMap w1) (FacadeObj.multitonKey f)).
  assert (Hf1 : facades w1 !! this = Some f).
  { subst w1. by rewrite ensure_controller_facades. }
  rewrite (Exact_on_facade_modify _ this h1 _ (same_heap_facade h1 w1 this f Hh1 Hf1)).
  rewrite (on_facade_modify _ this w1 f Hf1).
  eexists _, _, (FacadeObj.set_controller r f).
  split; [reflexivity |]. split; [reflexivity |].
  split; [apply (same_heap_set_facade h1 w1 this (FacadeObj.set_controller r f) Hh1) |].
  split; [| done]. cbn. apply list_lookup_insert_eq. by eapply lookup_lt_Some.
Qed.

Lemma Exact_Facade_initializeView_same (this : loc) (h : Exact.Heap)
    (w : World) (f : FacadeObj.t) :
  same_heap h w → facades w !! this = Some f →
  ∃ h1 w1 f1, Exact.Facade.initializeView this h = Some (Normal (), h1, []) ∧
              Facade.initializeView this w = (Normal (), w1, []) ∧
              same_heap h1 w1 ∧ facades w1 !! this = Some f1 ∧
              FacadeObj.multitonKey f1 = FacadeObj.multitonKey f.
Proof.
  intros Hh Hf.
  pose proof (same_heap_facade h w this f Hh Hf) as Ha.
  unfold Exact.Facade.initializeView, Facade.initializeView.
  run_bind. js_bind.
  rewrite (Exact_on_facade_gets _ this h _ Ha).
  rewrite (on_facade_gets FacadeObj.view this w f Hf).
  cbn [exact_facade Exact.FacadeObj.view].
  destruct (truthy_ref (FacadeObj.view f)).
  { by exists h, w, f. }
  rewrite (Exact_on_facade_gets _ this h _ Ha).
  rewrite (on_facade_gets FacadeObj.multitonKey this w f Hf).
  cbn [exact_facade Exact.FacadeObj.multitonKey].
  destruct (Exact_View_getInstance_same (FacadeObj.multitonKey f) h w Hh)
    as (h1 & -> & Hh1).
  rewrite View_getInstance_exact.
  set (w1 := ensure_view (FacadeObj.multitonKey f) w) in *.
  set (r := instance_of (View_instanceMap w1) (FacadeObj.multitonKey f)).
  assert (Hf1 : facades w1 !! this = Some f).
  { subst w1. by rewrite ensure_view_facades. }
  rewrite (Exact_on_facade_modify _ this h1 _ (same_heap_facade h1 w1 this f Hh1 Hf1)).
  rewrite (on_facade_modify _ this w1 f Hf1).
  eexists _, _, (FacadeObj.set_view r f).
  split; [reflexivity |]. split; [reflexivity |].
  split; [apply (same_heap_set_facade h1 w1 this (FacadeObj.set_view r f) Hh1) |].
  split; [| done]. cbn. apply list_lookup_insert_eq. by eapply lookup_lt_Some.
Qed.

Lemma Exact_Facade_initializeFacade_ordinary (this : loc) (h : Exact.Heap)
    (w : World) (f : FacadeObj.t) :
  ordinary (toPropertyKey (FacadeObj.multitonKey f)) →
  same_heap h w → facades w !! this = Some f →
  ∃ h1 w1, Exact.Facade.initializeFacade this h = Some (Normal (), h1, []) ∧
           Facade.initializeFacade this w = (Normal (), w1, []) ∧
           same_heap h1 w1.
Proof.
  intros Hk Hh Hf.
  unfold Exact.Facade.initializeFacade, Facade.initializeFacade. run_bind. js_bind.
  destruct (Exact_Facade_initializeModel_ordinary this h w f Hk Hh Hf)
    as (h1 & w1 & f1 & -> & -> & Hh1 & Hf1 & Hk1).
  destruct (Exact_Facade_initializeController_same this h1 w1 f1 Hh1 Hf1)
    as (h2 & w2 & f2 & -> & -> & Hh2 & Hf2 & Hk2).
  destruct (Exact_Facade_initializeView_same this h2 w2 f2 Hh2 Hf2)
    as (h3 & w3 & f3 & -> & -> & Hh3 & _).
  by exists h3, w3.
Qed.

Lemma Exact_Facade_new_taken (k : value) (h : Exact.Heap) (w : World) (l : loc) :
  ordinary (toPropertyKey k) → same_heap h w →
  Facade_instanceMap w !! toPropertyKey k = Some l →
  Exact.Facade.new k h = Some (Throw (JsError Facade.MULTITON_MSG), h, []).
Proof.
  intros Hk Hh Hl. unfold Exact.Facade.new. run_unfold.
  rewrite (Exact_get_Facade_ordinary k h w Hk Hh).
  unfold read_obj. cbn. by rewrite Hl.
Qed.

Lemma Exact_Facade_new_fresh (k : value) (h : Exact.Heap) (w : World) :
  ordinary (toPropertyKey k) → same_heap h w →
  Facade_instanceMap w !! toPropertyKey k = None →
  ∃ h1, Exact.Facade.new k h = Some (Normal (length (facades w)), h1, []) ∧
        same_heap h1 (add_facade k (core_of k w)).
Proof.
  intros Hk Hh Hl.
  pose proof (Facade_new_exact k w Hl) as Hnew. revert Hnew.
  unfold Exact.Facade.new, Facade.new. run_bind. js_bind.
  unfold Exact.lift at 1. unfold gets at 1 2.
  rewrite (Exact_get_Facade_ordinary k h w Hk Hh).
  unfold read_obj. rewrite Hl. cbn [JSArray.not_null nullish negb].
  unfold Exact.alloc_facade, alloc_facade.
  unfold Exact.Facade.initializeNotifier, Facade.initializeNotifier.
  pose proof Hh as Hparts. same_heap_parts Hparts.
  rewrite (Forall2_length _ _ _ Hfs).
  set (this := length (facades w)).
  set (f0 := FacadeObj.Mk Null Null Null VNull).
  pose proof (same_heap_alloc_facade h w f0 Hh) as Hh0.
  change (exact_facade f0) with
    (Exact.FacadeObj.Mk Null (JSArray.Ref Null) Null VNull) in Hh0.
  set (h0 := Exact.set_facades _ h) in *.
  set (w0 := set_facades _ w) in *.
  assert (Hf0 : facades w0 !! this = Some f0) by apply lookup_last.
  rewrite (Exact_on_facade_modify _ this h0 _ (same_heap_facade h0 w0 this f0 Hh0 Hf0)).
  rewrite (on_facade_modify _ this w0 f0 Hf0).
  pose proof (same_heap_set_facade h0 w0 this (FacadeObj.set_multitonKey k f0) Hh0)
    as Hh0'.
  change (exact_facade (FacadeObj.set_multitonKey k f0)) with
    (Exact.FacadeObj.set_multitonKey k (exact_facade f0)) in Hh0'.
  set (h0' := Exact.set_facades _ h0) in *.
  set (w0' := set_facades _ w0) in *.
  destruct (Exact_assign_Facade_ordinary (toPropertyKey k) this h0' w0' Hk Hh0')
    as (h1 & Hassign & Hh1).
  rewrite Hassign. unfold modify at 1.
  set (w1 := set_Facade_instanceMap _ w0') in *.
  assert (Hf1 : facades w1 !! this = Some (FacadeObj.set_multitonKey k f0)).
  { subst w1 w0' w0 this. cbn. rewrite insert_last. apply lookup_last. }
  destruct (Exact_Facade_initializeFacade_ordinary this h1 w1
              (FacadeObj.set_multitonKey k f0) Hk Hh1 Hf1)
    as (h2 & w2 & -> & -> & Hh2).
  cbn. intros [= <-]. by exists h2.
Qed.

Lemma Exact_Facade_getInstance_ordinary (k : value) (h : Exact.Heap) (w : World) :
  ordinary (toPropertyKey k) → same_heap h w →
  ∃ r h1, result (Facade.getInstance k w) = Normal r ∧
          Exact.Facade.getInstance k h = Some (Normal (JSArray.Ref r), h1, []) ∧
          same_heap h1 (final (Facade.getInstance k w)).
Proof.
  intros Hk Hh. unfold Exact.Facade.getInstance.
  destruct (truthy k) eqn:Htruthy; cbn [negb].
  2: { rewrite (Facade_getInstance_falsy k w Htruthy). by exists Null, h. }
  run_bind. unfold Exact.lift at 1. unfold gets at 1.
  rewrite (Exact_get_Facade_ordinary k h w Hk Hh). unfold read_obj at 1.
  destruct (Facade_instanceMap w !! toPropertyKey k) as [l|] eqn:Hl;
    cbn [JSArray.ToBoolean truthy_ref default negb].
  - rewrite (Facade_getInstance_taken k w l Htruthy Hl).
    exists (Obj l), h. unfold Exact.lift, gets.
    rewrite (Exact_get_Facade_ordinary k h w Hk Hh). unfold read_obj.
    rewrite Hl. by split.
  - rewrite (Facade_getInstance_exact k w Htruthy Hl).
    destruct (Exact_Facade_new_fresh k h w Hk Hh Hl) as (h1 & -> & Hh1).
    destruct (Exact_assign_Facade_ordinary (toPropertyKey k) (length (facades w))
                h1 _ Hk Hh1) as (h2 & -> & Hh2).
    match type of Hh2 with same_heap _ ?w2 =>
      assert (Hsame : w2 = add_facade k (core_of k w))
        by (unfold add_facade, set_Facade_instanceMap; cbn;
            by rewrite core_of_facades, insert_insert_eq);
      rewrite Hsame in Hh2
    end.
    exists (Obj (length (facades w))), h2. unfold Exact.lift, gets.
    rewrite (Exact_get_Facade_ordinary k h2 _ Hk Hh2). unfold read_obj.
    unfold add_facade at 1. cbn. rewrite core_of_facades, lookup_insert_eq.
    by split.
Qed.
End StaticMethods.

(** ** The proxy map under ordinary names *)

Section ProxyMethods.
Context `{Engine} (HE : Exact.ProxyHooks) (HM : ProxyHooks).

Lemma Exact_get_proxyMap_ordinary (n : value) (a : Exact.ModelObj.t) (m : ModelObj.t) :
  ordinary (toPropertyKey n) → same_model a m →
  JSArray.get (Exact.ModelObj.proxyMap a) (toPropertyKey n) =
    JSArray.Ref (read (ModelObj.proxyMap m) n).
Proof.
  intros Hn [Hpm _]. rewrite (JSArray_get_ordinary _ _ Hn). by rewrite Hpm.
Qed.

Lemma Exact_assign_proxyMap_ordinary (s : string) (r : jsref Proxy)
    (a : Exact.ModelObj.t) (m : ModelObj.t) :
  ordinary s → same_model a m →
  ∃ a1, Exact.assign Exact.ModelObj.proxyMap Exact.ModelObj.set_proxyMap s r a =
          Some (Normal (), a1, []) ∧
        same_model a1 (ModelObj.set_proxyMap <[s := r]> m).
Proof.
  intros Hs [Hpm Hkey]. unfold Exact.assign.
  destruct (JSArray_set_ordinary (Exact.ModelObj.proxyMap a) s r Hs) as [k ->].
  eexists. split; [reflexivity |]. split; cbn; [by rewrite Hpm | done].
Qed.

Lemma Exact_registerProxy_ordinary (p : Proxy) (a : Exact.ModelObj.t) (m : ModelObj.t) :
  same_hooks HE HM → same_model a m →
  ordinary (toPropertyKey (getProxyName p)) →
  ∃ a1, Exact.Model.registerProxy p a =
          Some (Normal (), a1, events (Model.registerProxy p m)) ∧
        same_model a1 (final (Model.registerProxy p m)).
Proof.
  intros (Hname & Hinit & Hreg & Hrem) Ham Hp.
  rewrite Model_registerProxy_run. unfold events, final. cbn [fst snd].
  unfold Exact.Model.registerProxy. run_unfold.
  destruct Ham as [Hpm Hkey]. rewrite Hkey, Hname.
  destruct (Exact_assign_proxyMap_ordinary (toPropertyKey (getProxyName p)) (Obj p)
              (Exact.initializeNotifier p (ModelObj.multitonKey m) a)
              (initializeNotifier p (ModelObj.multitonKey m) m) Hp)
    as (a1 & Hassign & Ha1); [by apply Hinit |].
  unfold Exact.assign in Hassign. cbn. rewrite Hassign. cbn.
  eexists. split; [reflexivity |]. by apply Hreg.
Qed.

Lemma Exact_retrieveProxy_ordinary (n : value) (a : Exact.ModelObj.t) (m : ModelObj.t) :
  ordinary (toPropertyKey n) → same_model a m →
  Exact.Model.retrieveProxy n a =
    Some (Normal (JSArray.Ref (read (ModelObj.proxyMap m) n)), a, []).
Proof.
  intros Hn Ham. unfold Exact.Model.retrieveProxy. run_unfold.
  by rewrite (Exact_get_proxyMap_ordinary n a m Hn Ham).
Qed.

Lemma Exact_hasProxy_ordinary (n : value) (a : Exact.ModelObj.t) (m : ModelObj.t) :
  ordinary (toPropertyKey n) → same_model a m →
  Exact.Model.hasProxy n a = Some (result (Model.hasProxy n m), a, []).
Proof.
  intros Hn Ham. unfold Exact.Model.hasProxy. run_unfold.
  by rewrite (Exact_get_proxyMap_ordinary n a m Hn Ham).
Qed.

Lemma Exact_removeProxy_ordinary (n : value) (a : Exact.ModelObj.t) (m : ModelObj.t) :
  same_hooks HE HM → same_model a m →
  ordinary (toPropertyKey n) →
  ∃ (r : jsref Proxy) (a1 : Exact.ModelObj.t),
    result (Model.removeProxy n m) = Normal r ∧
    Exact.Model.removeProxy n a =
      Some (Normal (JSArray.Ref r), a1, events (Model.removeProxy n m)) ∧
    same_model a1 (final (Model.removeProxy n m)).
Proof.
  intros (Hname & Hinit & Hreg & Hrem) Ham Hn.
  unfold Exact.Model.removeProxy. run_unfold.
  rewrite (Exact_get_proxyMap_ordinary n a m Hn Ham).
  destruct (read (ModelObj.proxyMap m) n) as [| |q] eqn:Hread.
  - rewrite Model_removeProxy_missing by by rewrite Hread. rewrite Hread.
    exists Undefined, a. by split.
  - rewrite Model_removeProxy_missing by by rewrite Hread. rewrite Hread.
    exists Null, a. by split.
  - rewrite (Model_removeProxy_registered n q m Hread).
    unfold result, events, final. cbn [fst snd JSArray.ToBoolean truthy_ref].
    destruct (Exact_assign_proxyMap_ordinary (toPropertyKey n) Null a m Hn Ham)
      as (a1 & Hassign & Ha1).
    unfold Exact.assign in Hassign. rewrite Hassign. cbn.
    exists (Obj q). eexists. split; [done |]. split; [reflexivity |].
    by apply Hrem.
Qed.
End ProxyMethods.

(** ** The two embeddings agree on ordinary names *)

(** X20.  On a key whose property name the Array does not supply itself,
    the static methods on the Arrays do what they do on the maps of
    entries: from states that correspond, [new Model(k)],
    [Model.getInstance(k)], [Model.removeModel(k)], [Facade.hasCore(k)]
    and [Facade.removeCore(k)] complete in the same way, with the same
    result, and leave states that correspond. *)
Theorem static_methods_on_ordinary_keys `{Engine} (k : value)
    (h : Exact.Heap) (w : World) :
  ordinary (toPropertyKey k) →
  same_heap h w →
  (∃ h1, Exact.Model.new k h = Some (result (Model.new k w), h1, []) ∧
         same_heap h1 (final (Model.new k w))) ∧
  (∃ r h1, result (Model.getInstance k w) = Normal r ∧
           Exact.Model.getInstance k h = Some (Normal (JSArray.Ref r), h1, []) ∧
           same_heap h1 (final (Model.getInstance k w))) ∧
  (∃ h1, Exact.Model.removeModel k h = Some (result (Model.removeModel k w), h1, []) ∧
         same_heap h1 (final (Model.removeModel k w))) ∧
  Exact.Facade.hasCore k h = Some (result (Facade.hasCore k w), h, []) ∧
  (∃ h1, Exact.Facade.removeCore k h =
           Some (result (Facade.removeCore k w), h1, []) ∧
         same_heap h1 (final (Facade.removeCore k w))).
Proof.
  intros Hk Hh. split; [| split; [| split; [| split]]].
  - destruct (Model_instanceMap w !! toPropertyKey k) as [l|] eqn:Hl.
    + rewrite (Model_new_taken k w l Hl). exists h.
      split; [by eapply Exact_Model_new_taken | done].
    + rewrite (Model_new_fresh k w Hl).
      destruct (Exact_Model_new_fresh k h w Hk Hh Hl) as (h1 & Hrun & Hh1).
      by exists h1.
  - rewrite Model_getInstance_exact.
    destruct (Exact_Model_getInstance_ordinary k h w Hk Hh) as (h1 & Hrun & Hh1).
    by eexists _, h1.
  - destruct Hk as [_ Hlen].
    destruct (Exact_Model_removeModel_ordinary k h w Hlen Hh) as (h1 & Hrun & Hh1).
    by exists h1.
  - by apply Exact_Facade_hasCore_ordinary.
  - destruct (Exact_Facade_removeCore_ordinary k h w Hk Hh) as (h1 & Hrun & Hh1).
    exists h1. split; [| done]. rewrite Hrun.
    by destruct (Facade_instanceMap w !! toPropertyKey k) as [l|] eqn:Hl;
      [rewrite (Facade_removeCore_registered k w l Hl)
      | rewrite (Facade_removeCore_unregistered k w Hl)].
Qed.

Lemma same_heap_initial : same_heap Exact.initial initial.
Proof.
  split; [constructor |]. cbn. by rewrite fmap_empty.
Qed.

Lemma static_methods_on_ordinary_keys_witness :
  let E := listed_names in
  ordinary "a" ∧
  same_heap Exact.initial initial ∧
  ∃ h1, Exact.Model.getInstance (VStr "a") Exact.initial =
          Some (Normal (JSArray.Ref (Obj 0)), h1, []) ∧
        same_heap h1 (final (Model.getInstance (VStr "a") initial)).
Proof.
  intros E.
  assert (Hname : ordinary (toPropertyKey (VStr "a")))
    by (apply listed_names_ordinary; vm_compute; reflexivity).
  destruct (static_methods_on_ordinary_keys (VStr "a") Exact.initial initial
              Hname same_heap_initial)
    as (_ & (r & h1 & Hr & Hrun & Hh1) & _).
  split; [exact Hname |]. split; [exact same_heap_initial |].
  exists h1. split; [| exact Hh1].
  assert (Hobj : r = Obj 0) by (vm_compute in Hr; congruence).
  rewrite <- Hobj. exact Hrun.
Defined.

(** X21.  On names that the Array does not supply itself, the methods of
    a Model on the proxy Array do what they do on the map of entries:
    from Models that correspond, with hooks that do the same to both,
    [registerProxy(p)], [retrieveProxy(n)], [hasProxy(n)] and
    [removeProxy(n)] complete in the same way, with the same result and
    the same calls, and leave Models that correspond. *)
Theorem proxy_methods_on_ordinary_names `{Engine} (HE : Exact.ProxyHooks)
    (HM : ProxyHooks) (p : Proxy) (n : value)
    (a : Exact.ModelObj.t) (m : ModelObj.t) :
  same_hooks HE HM →
  same_model a m →
  ordinary (toPropertyKey (getProxyName p)) →
  ordinary (toPropertyKey n) →
  (∃ a1, Exact.Model.registerProxy p a =
           Some (result (Model.registerProxy p m), a1,
                 events (Model.registerProxy p m)) ∧
         same_model a1 (final (Model.registerProxy p m))) ∧
  (∃ r, result (Model.retrieveProxy n m) = Normal r ∧
        Exact.Model.retrieveProxy n a = Some (Normal (JSArray.Ref r), a, [])) ∧
  Exact.Model.hasProxy n a = Some (result (Model.hasProxy n m), a, []) ∧
  (∃ r a1, result (Model.removeProxy n m) = Normal r ∧
           Exact.Model.removeProxy n a =
             Some (Normal (JSArray.Ref r), a1, events (Model.removeProxy n m)) ∧
           same_model a1 (final (Model.removeProxy n m))).
Proof.
  intros Hhooks Ham Hp Hn. split; [| split; [| split]].
  - destruct (Exact_registerProxy_ordinary HE HM p a m Hhooks Ham Hp)
      as (a1 & Hrun & Ha1).
    exists a1. split; [| done]. rewrite Hrun. by rewrite Model_registerProxy_run.
  - eexists. split; [reflexivity |].
    by apply Exact_retrieveProxy_ordinary.
  - by apply Exact_hasProxy_ordinary.
  - by apply Exact_removeProxy_ordinary.
Qed.

Lemma same_hooks_inert : same_hooks inert_exact_hooks inert_hooks.
Proof.
  split; [done |]. split; [by intros p key a m Ham |].
  split; by intros p a m Ham.
Qed.

Lemma proxy_methods_on_ordinary_names_witness :
  let E := listed_names in
  let a := Exact.ModelObj.Mk JSArray.empty (VStr "a") in
  let m := ModelObj.Mk ∅ (VStr "a") in
  same_hooks inert_exact_hooks inert_hooks ∧
  same_model a m ∧
  ∃ a1, @Exact.Model.registerProxy E inert_exact_hooks (ProxyRef 7) a =
          Some (Normal (), a1,
                [ProxyCall (ProxyRef 7) (InitializeNotifier (VStr "a"));
                 ProxyCall (ProxyRef 7) GetProxyName;
                 ProxyCall (ProxyRef 7) OnRegister]) ∧
        same_model a1 (final (@Model.registerProxy inert_hooks (ProxyRef 7) m)).
Proof.
  intros E a m.
  assert (Hname : ordinary (toPropertyKey (@getProxyName inert_hooks (ProxyRef 7))))
    by (apply listed_names_ordinary; vm_compute; reflexivity).
  destruct (proxy_methods_on_ordinary_names inert_exact_hooks inert_hooks
              (ProxyRef 7) (VNum 7) a m same_hooks_inert (same_model_new _)
              Hname Hname)
    as ((a1 & Hrun & Ha1) & _).
  split; [exact same_hooks_inert |]. split; [exact (same_model_new _) |].
  exists a1. split; [exact Hrun | exact Ha1].
Defined.

(** ** Names of the Array *)

(** C1.  The constructor at two keys that are not in use, in a program
    that has constructed nothing yet.  [new Model("constructor")] throws
    the error of a key in use: the guard reads the function that the
    Array inherits.  [new Model("length")] passes the guard, which reads
    0, and throws a RangeError when it assigns the instance to the length
    of the Array; the instance is registered nowhere. *)
Theorem new_Model_with_a_name_of_the_Array `{Engine} :
  inherits "constructor" = true →
  JSArray.own (Exact.Model_instanceMap Exact.initial) = ∅ ∧
  Exact.Model.new (VStr "constructor") Exact.initial =
    Some (Throw (JsError Model.MULTITON_MSG), Exact.initial, []) ∧
  Exact.Model.new (VStr "length") Exact.initial =
    Some (Throw RangeError,
          Exact.set_models
            (λ _, [Exact.ModelObj.Mk JSArray.empty (VStr "length")])
            Exact.initial, []).
Proof.
  intros Hin. split; [reflexivity |]. split.
  - unfold Exact.Model.new. run_unfold. cbn. unfold JSArray.get. cbn.
    rewrite lookup_empty, Hin. reflexivity.
  - reflexivity.
Qed.

Lemma new_Model_with_a_name_of_the_Array_witness :
  let E := listed_names in
  inherits "constructor" = true ∧
  Exact.Model.new (VStr "constructor") Exact.initial =
    Some (Throw (JsError Model.MULTITON_MSG), Exact.initial, []).
Proof.
  intros E.
  assert (Hin : inherits "constructor" = true) by (vm_compute; reflexivity).
  destruct (new_Model_with_a_name_of_the_Array Hin) as (_ & Hrun & _).
  split; [exact Hin | exact Hrun].
Defined.

(** C3.  [Facade.removeCore("length")] when [Facade.instanceMap] has an
    index property, as after a core has been registered under "0": no
    core is registered under "length", yet the guard reads the length,
    which is not 0, and [delete Model.instanceMap["length"]] throws a
    TypeError. *)
Theorem removeCore_with_the_length `{Engine} (h : Exact.Heap) :
  JSArray.length (Exact.Facade_instanceMap h) ≠ 0%N →
  Exact.Facade.hasCore (VStr "length") h = Some (Normal true, h, []) ∧
  Exact.Facade.removeCore (VStr "length") h = Some (Throw TypeError, h, []).
Proof.
  intros Hlen.
  assert (Hn : N.eqb (JSArray.length (Exact.Facade_instanceMap h)) 0 = false)
    by by apply N.eqb_neq.
  unfold Exact.Facade.hasCore, Exact.Facade.removeCore. run_unfold.
  unfold JSArray.get. cbn. rewrite Hn. cbn. split; [reflexivity |].
  unfold Exact.Model.removeModel, Exact.remove. reflexivity.
Qed.

Lemma removeCore_with_the_length_witness :
  let E := listed_names in
  JSArray.set JSArray.empty "0" (Obj 0) =
    JSArray.Assigned (Exact.Facade_instanceMap heap_with_core_0) ∧
  JSArray.own (Exact.Facade_instanceMap heap_with_core_0) !! "length" = None ∧
  Exact.Facade.removeCore (VStr "length") heap_with_core_0 =
    Some (Throw TypeError, heap_with_core_0, []).
Proof.
  intros E.
  destruct (removeCore_with_the_length heap_with_core_0) as [_ Hrun];
    [discriminate |].
  split; [vm_compute; reflexivity |]. split; [reflexivity | exact Hrun].
Defined.

(** C5.  The name "push" on a Model that has just been constructed, with
    nothing registered: [retrieveProxy("push")] returns the function that
    the Array inherits, [hasProxy("push")] is true, and
    [removeProxy("push")] writes [null] under "push" and throws a
    TypeError at [proxy.onRemove()]. *)
Theorem removeProxy_of_an_inherited_name `{Engine} `{Exact.ProxyHooks} (key : value) :
  inherits "push" = true →
  let m := Exact.ModelObj.Mk JSArray.empty key in
  Exact.Model.retrieveProxy (VStr "push") m = Some (Normal JSArray.Inherited, m, []) ∧
  Exact.Model.hasProxy (VStr "push") m = Some (Normal true, m, []) ∧
  Exact.Model.removeProxy (VStr "push") m =
    Some (Throw TypeError,
          Exact.ModelObj.Mk (JSArray.Mk {["push" := Null]} 0) key, []).
Proof.
  intros Hin m.
  unfold Exact.Model.retrieveProxy, Exact.Model.hasProxy, Exact.Model.removeProxy.
  run_unfold. unfold JSArray.get. cbn. rewrite lookup_empty, Hin. cbn.
  split; [reflexivity |]. split; [reflexivity |]. reflexivity.
Qed.

Lemma removeProxy_of_an_inherited_name_witness :
  let E := listed_names in
  let H := inert_exact_hooks in
  let m := Exact.ModelObj.Mk JSArray.empty (VStr "a") in
  inherits "push" = true ∧
  Exact.Model.removeProxy (VStr "push") m =
    Some (Throw TypeError,
          Exact.ModelObj.Mk (JSArray.Mk {["push" := Null]} 0) (VStr "a"), []).
Proof.
  intros E H m.
  assert (Hin : inherits "push" = true) by (vm_compute; reflexivity).
  destruct (@removeProxy_of_an_inherited_name E H (VStr "a") Hin) as (_ & _ & Hrun).
  split; [exact Hin | exact Hrun].
Defined.

(** C7.  [registerProxy(p)] for a Proxy named "length":
    [initializeNotifier] and [getProxyName] are called, the assignment
    [this.proxyMap["length"] = p] throws a RangeError, and [onRegister]
    is not called: no lifecycle hook runs. *)
Theorem registerProxy_named_length `{Engine} `{Exact.ProxyHooks}
    (p : Proxy) (m : Exact.ModelObj.t) :
  Exact.getProxyName p = VStr "length" →
  let key := Exact.ModelObj.multitonKey m in
  Exact.Model.registerProxy p m =
    Some (Throw RangeError, Exact.initializeNotifier p key m,
          [ProxyCall p (InitializeNotifier key); ProxyCall p GetProxyName]) ∧
  ∀ r m1 t, Exact.Model.registerProxy p m = Some (r, m1, t) →
    filter (λ e, lifecycle_event e = true) t = [].
Proof.
  intros Hname key.
  assert (Hrun : Exact.Model.registerProxy p m =
    Some (Throw RangeError, Exact.initializeNotifier p key m,
          [ProxyCall p (InitializeNotifier key); ProxyCall p GetProxyName])).
  { unfold Exact.Model.registerProxy. run_unfold. rewrite Hname. reflexivity. }
  split; [exact Hrun |].
  intros r m1 t Ht. rewrite Hrun in Ht. injection Ht as _ _ <-. reflexivity.
Qed.

Lemma registerProxy_named_length_witness :
  let E := listed_names in
  let H := hooks_named_length in
  let m := Exact.ModelObj.Mk JSArray.empty (VStr "a") in
  Exact.getProxyName (ProxyRef 1) = VStr "length" ∧
  Exact.Model.registerProxy (ProxyRef 1) m =
    Some (Throw RangeError, m,
          [ProxyCall (ProxyRef 1) (InitializeNotifier (VStr "a"));
           ProxyCall (ProxyRef 1) GetProxyName]).
Proof.
  intros E H m.
  destruct (@registerProxy_named_length E H (ProxyRef 1) m eq_refl) as [Hrun _].
  split; [reflexivity | exact Hrun].
Defined.

(** C10.  Register and retrieve for a Proxy named "length", on a Model
    whose proxy Array is empty when the assignment is reached:
    [registerProxy(p)] throws, and afterwards [hasProxy("length")] is
    false and [retrieveProxy("length")] returns the number 0, not
    [p]. *)
Theorem round_trip_named_length `{Engine} `{Exact.ProxyHooks}
    (p : Proxy) (m : Exact.ModelObj.t) :
  Exact.getProxyName p = VStr "length" →
  JSArray.length
    (Exact.ModelObj.proxyMap
       (Exact.initializeNotifier p (Exact.ModelObj.multitonKey m) m)) = 0%N →
  ∃ m1 t, Exact.Model.registerProxy p m = Some (Throw RangeError, m1, t) ∧
          Exact.Model.hasProxy (Exact.getProxyName p) m1 =
            Some (Normal false, m1, []) ∧
          Exact.Model.retrieveProxy (Exact.getProxyName p) m1 =
            Some (Normal (JSArray.Number 0), m1, []).
Proof.
  intros Hname Hempty. eexists _, _. split.
  - unfold Exact.Model.registerProxy. run_unfold. rewrite Hname. reflexivity.
  - rewrite Hname.
    unfold Exact.Model.hasProxy, Exact.Model.retrieveProxy. run_unfold.
    unfold JSArray.get. cbn. rewrite Hempty. by split.
Qed.

Lemma round_trip_named_length_witness :
  let E := listed_names in
  let H := hooks_named_length in
  let m := Exact.ModelObj.Mk JSArray.empty (VStr "a") in
  ∃ m1 t, Exact.Model.registerProxy (ProxyRef 1) m = Some (Throw RangeError, m1, t) ∧
          Exact.Model.hasProxy (VStr "length") m1 = Some (Normal false, m1, []) ∧
          Exact.Model.retrieveProxy (VStr "length") m1 =
            Some (Normal (JSArray.Number 0), m1, []).
Proof.
  intros E H m.
  exact (@round_trip_named_length E H (ProxyRef 1) m eq_refl eq_refl).
Defined.

(** ** What the factory does on the Arrays *)

Section Factory.
Context `{Engine}.

Lemma Exact_Model_new_free (k : value) (h : Exact.Heap) :
  ordinary (toPropertyKey k) →
  truthy_ref (default Undefined
                (JSArray.own (Exact.Model_instanceMap h) !! toPropertyKey k)) = false →
  ∃ n, Exact.Model.new k h =
         Some (Normal (length (Exact.models h)),
               Exact.set_Model_instanceMap
                 (JSArray.Mk (<[toPropertyKey k := Obj (length (Exact.models h))]>
                                (JSArray.own (Exact.Model_instanceMap h))) n)
                 (Exact.set_models
                    (λ s, s ++ [Exact.ModelObj.Mk JSArray.empty k]) h), []).
Proof.
  intros Hk Hfree. unfold Exact.Model.new. run_unfold.
  rewrite (JSArray_get_ordinary _ _ Hk). cbn. rewrite Hfree. cbn.
  match goal with |- context [JSArray.set ?a ?s ?v] =>
    destruct (JSArray_set_ordinary a s v Hk) as [n Hset]
  end.
  rewrite Hset. cbn. by exists n.
Qed.

Lemma Exact_Model_getInstance_held (k : value) (h : Exact.Heap) (l : loc) :
  truthy k = true →
  ordinary (toPropertyKey k) →
  JSArray.own (Exact.Model_instanceMap h) !! toPropertyKey k = Some (Obj l) →
  Exact.Model.getInstance k h = Some (Normal (JSArray.Ref (Obj l)), h, []).
Proof.
  intros Htruthy Hk Hl. unfold Exact.Model.getInstance. rewrite Htruthy.
  run_unfold. cbn. rewrite (JSArray_get_ordinary _ _ Hk), Hl. cbn.
  by rewrite (JSArray_get_ordinary _ _ Hk), Hl.
Qed.
End Factory.

(** X22.  The factory on the Array is a per-key singleton on ordinary
    keys.  For a truthy key [k] whose property name the Array does not
    supply itself, [Model.getInstance(k)] returns an instance [l]; called
    again in the state it left it returns the same [l] and changes
    nothing; and in every later state in which the Array still holds [l]
    under [k] it returns [l] again. *)
Theorem getInstance_singleton_on_the_Array `{Engine} (k : value) (h : Exact.Heap) :
  truthy k = true →
  ordinary (toPropertyKey k) →
  ∃ l h1, Exact.Model.getInstance k h = Some (Normal (JSArray.Ref (Obj l)), h1, []) ∧
          Exact.Model.getInstance k h1 = Some (Normal (JSArray.Ref (Obj l)), h1, []) ∧
          ∀ h2, JSArray.own (Exact.Model_instanceMap h2) !! toPropertyKey k =
                  Some (Obj l) →
                Exact.Model.getInstance k h2 =
                  Some (Normal (JSArray.Ref (Obj l)), h2, []).
Proof.
  intros Htruthy Hk.
  destruct (truthy_ref (default Undefined
              (JSArray.own (Exact.Model_instanceMap h) !! toPropertyKey k)))
    eqn:Hheld.
  - destruct (JSArray.own (Exact.Model_instanceMap h) !! toPropertyKey k)
      as [[| |l]|] eqn:Hl; try discriminate Hheld.
    exists l, h. split; [by apply Exact_Model_getInstance_held |].
    split; [by apply Exact_Model_getInstance_held |].
    intros h2 H2. by apply Exact_Model_getInstance_held.
  - destruct (Exact_Model_new_free k h Hk Hheld) as [n Hnew].
    unfold Exact.Model.getInstance at 1. rewrite Htruthy. run_unfold. cbn.
    rewrite (JSArray_get_ordinary _ _ Hk). cbn. rewrite Hheld. cbn.
    rewrite Hnew. cbn.
    match goal with |- context [JSArray.set ?a ?s ?v] =>
      destruct (JSArray_set_ordinary a s v Hk) as [n2 Hset]
    end.
    rewrite Hset. cbn. rewrite (JSArray_get_ordinary _ _ Hk). cbn.
    rewrite lookup_insert_eq. cbn.
    eexists _, _. split; [reflexivity |]. split.
    + apply Exact_Model_getInstance_held; [done | done |]. cbn.
      apply lookup_insert_eq.
    + intros h2 H2. by apply Exact_Model_getInstance_held.
Qed.

Lemma getInstance_singleton_on_the_Array_witness :
  let E := listed_names in
  truthy (VStr "a") = true ∧
  ordinary "a" ∧
  ∃ l h1, Exact.Model.getInstance (VStr "a") Exact.initial =
            Some (Normal (JSArray.Ref (Obj l)), h1, []) ∧
          Exact.Model.getInstance (VStr "a") h1 =
            Some (Normal (JSArray.Ref (Obj l)), h1, []).
Proof.
  intros E.
  assert (Hname : ordinary (toPropertyKey (VStr "a")))
    by (apply listed_names_ordinary; vm_compute; reflexivity).
  destruct (getInstance_singleton_on_the_Array (VStr "a") Exact.initial
              eq_refl Hname) as (l & h1 & Hfirst & Hsecond & _).
  split; [reflexivity |]. split; [exact Hname |].
  exists l, h1. split; [exact Hfirst | exact Hsecond].
Defined.

(** X23.  A name that the Array inherits, with no entry of its own:
    [Model.getInstance(k)] returns what the Array inherits, not an
    instance, and constructs nothing; [new Model(k)] throws the error of
    a key in use; [Facade.hasCore(k)] is true with no core registered;
    and none of them changes the state. *)
Theorem static_methods_on_an_inherited_name `{Engine} (k : value) (h : Exact.Heap) :
  truthy k = true →
  inherits (toPropertyKey k) = true →
  toPropertyKey k ≠ "length" →
  (JSArray.own (Exact.Model_instanceMap h) !! toPropertyKey k = None →
   Exact.Model.getInstance k h = Some (Normal JSArray.Inherited, h, []) ∧
   Exact.Model.new k h = Some (Throw (JsError Model.MULTITON_MSG), h, [])) ∧
  (JSArray.own (Exact.Facade_instanceMap h) !! toPropertyKey k = None →
   Exact.Facade.hasCore k h = Some (Normal true, h, [])).
Proof.
  intros Htruthy Hin Hlen. apply String.eqb_neq in Hlen. split.
  - intros Hfree. unfold Exact.Model.getInstance, Exact.Model.new.
    rewrite Htruthy. run_unfold. unfold JSArray.get. cbn.
    rewrite Hlen, Hfree, Hin. cbn. by rewrite Hfree.
  - intros Hfree. unfold Exact.Facade.hasCore. run_unfold. unfold JSArray.get.
    by rewrite Hlen, Hfree, Hin.
Qed.

Lemma static_methods_on_an_inherited_name_witness :
  let E := listed_names in
  inherits "push" = true ∧
  Exact.Model.getInstance (VStr "push") Exact.initial =
    Some (Normal JSArray.Inherited, Exact.initial, []) ∧
  Exact.Facade.hasCore (VStr "push") Exact.initial =
    Some (Normal true, Exact.initial, []).
Proof.
  intros E.
  assert (Hin : inherits (toPropertyKey (VStr "push")) = true)
    by (vm_compute; reflexivity).
  destruct (static_methods_on_an_inherited_name (VStr "push") Exact.initial
              eq_refl Hin) as [Hmodel Hfacade]; [discriminate |].
  destruct (Hmodel eq_refl) as [Hget _].
  split; [exact Hin |]. split; [exact Hget | exact (Hfacade eq_refl)].
Defined.

(** X24.  An index key moves the length of the Array, and the length
    then reads as a key in use.  After [new Model(k)] for a key that is
    an array index [i], on a state without an entry for it, the length of
    [Model.instanceMap] is above [i]; from then on [new Model("length")]
    throws the error of a key in use, [Model.getInstance("length")]
    returns the length, a number, and [Model.removeModel("length")]
    throws a TypeError. *)
Theorem index_keys_move_the_length `{Engine} (k : value) (i : N) (h : Exact.Heap) :
  JSArray.index (toPropertyKey k) = Some i →
  ordinary (toPropertyKey k) →
  JSArray.own (Exact.Model_instanceMap h) !! toPropertyKey k = None →
  ∃ this h1,
    Exact.Model.new k h = Some (Normal this, h1, []) ∧
    (i < JSArray.length (Exact.Model_instanceMap h1))%N ∧
    Exact.Model.new (VStr "length") h1 =
      Some (Throw (JsError Model.MULTITON_MSG), h1, []) ∧
    Exact.Model.getInstance (VStr "length") h1 =
      Some (Normal (JSArray.Number (JSArray.length (Exact.Model_instanceMap h1))),
            h1, []) ∧
    Exact.Model.removeModel (VStr "length") h1 = Some (Throw TypeError, h1, []).
Proof.
  intros Hi Hk Hfree.
  assert (Hnew : Exact.Model.new k h =
    Some (Normal (length (Exact.models h)),
          Exact.set_Model_instanceMap
            (JSArray.Mk (<[toPropertyKey k := Obj (length (Exact.models h))]>
                           (JSArray.own (Exact.Model_instanceMap h)))
               (N.max (JSArray.length (Exact.Model_instanceMap h)) (i + 1)))
            (Exact.set_models (λ s, s ++ [Exact.ModelObj.Mk JSArray.empty k]) h),
          [])).
  { destruct Hk as [Hin Hlen]. apply String.eqb_neq in Hlen.
    unfold Exact.Model.new. run_unfold. unfold JSArray.get, JSArray.set. cbn.
    rewrite Hlen, Hfree, Hin. cbn. rewrite Hi.
    destruct (String.eqb (toPropertyKey k) "__proto__") eqn:Hp.
    - apply String.eqb_eq in Hp. rewrite Hp in Hin. rewrite Hin. reflexivity.
    - reflexivity. }
  eexists _, _. split; [exact Hnew |]. cbn.
  assert (Hpos : N.eqb (N.max (JSArray.length (Exact.Model_instanceMap h)) (i + 1)) 0
                 = false) by (apply N.eqb_neq; lia).
  split; [lia |]. split; [| split].
  - unfold Exact.Model.new. run_unfold. unfold JSArray.get. cbn.
    by rewrite Hpos.
  - unfold Exact.Model.getInstance. run_unfold. unfold JSArray.get. cbn.
    by rewrite Hpos.
  - reflexivity.
Qed.

Lemma index_keys_move_the_length_witness :
  let E := listed_names in
  JSArray.index "5" = Some 5%N ∧
  ∃ this h1,
    Exact.Model.new (VNum 5) Exact.initial = Some (Normal this, h1, []) ∧
    JSArray.length (Exact.Model_instanceMap h1) = 6%N ∧
    Exact.Model.new (VStr "length") h1 =
      Some (Throw (JsError Model.MULTITON_MSG), h1, []).
Proof.
  intros E.
  assert (Hi : JSArray.index (toPropertyKey (VNum 5)) = Some 5%N)
    by (vm_compute; reflexivity).
  assert (Hname : ordinary (toPropertyKey (VNum 5)))
    by (apply listed_names_ordinary; vm_compute; reflexivity).
  destruct (index_keys_move_the_length (VNum 5) 5 Exact.initial Hi Hname eq_refl)
    as (this & h1 & Hnew & _ & Hthrow & _).
  split; [exact Hi |]. exists this, h1.
  split; [exact Hnew |]. split; [| exact Hthrow].
  assert (Hrun : Exact.Model.new (VNum 5) Exact.initial =
                 Some (Normal 0,
                       Exact.MkHeap [Exact.ModelObj.Mk JSArray.empty (VNum 5)]
                         [] [] []
                         (JSArray.Mk {["5" := Obj 0]} 6) ∅ ∅ JSArray.empty, []))
    by (vm_compute; reflexivity).
  rewrite Hrun in Hnew. injection Hnew as _ <-. reflexivity.
Defined.

(** X25.  On a key whose property name the Array does not supply itself,
    the constructor and the factory of the Facade on the Arrays do what
    they do on the maps of entries: from states that correspond,
    [new Facade(k)] and [Facade.getInstance(k)] complete in the same way,
    with the same result and the same calls, and leave states that
    correspond. *)
Theorem Facade_construction_on_ordinary_keys `{Engine} (k : value)
    (h : Exact.Heap) (w : World) :
  ordinary (toPropertyKey k) →
  same_heap h w →
  (∃ h1, Exact.Facade.new k h =
           Some (result (Facade.new k w), h1, events (Facade.new k w)) ∧
         same_heap h1 (final (Facade.new k w))) ∧
  (∃ r h1, result (Facade.getInstance k w) = Normal r ∧
           Exact.Facade.getInstance k h =
             Some (Normal (JSArray.Ref r), h1, events (Facade.getInstance k w)) ∧
           same_heap h1 (final (Facade.getInstance k w))).
Proof.
  intros Hk Hh. split.
  - destruct (Facade_instanceMap w !! toPropertyKey k) as [l|] eqn:Hl.
    + rewrite (Facade_new_taken k w l Hl). exists h.
      split; [by eapply Exact_Facade_new_taken | done].
    + rewrite (Facade_new_exact k w Hl).
      destruct (Exact_Facade_new_fresh k h w Hk Hh Hl) as (h1 & Hrun & Hh1).
      by exists h1.
  - destruct (Exact_Facade_getInstance_ordinary k h w Hk Hh)
      as (r & h1 & Hr & Hrun & Hh1).
    exists r, h1. split; [done |]. split; [| done]. rewrite Hrun.
    destruct (truthy k) eqn:Htruthy.
    + by destruct (Facade_instanceMap w !! toPropertyKey k) as [l|] eqn:Hl;
        [rewrite (Facade_getInstance_taken k w l Htruthy Hl)
        | rewrite (Facade_getInstance_exact k w Htruthy Hl)].
    + by rewrite (Facade_getInstance_falsy k w Htruthy).
Qed.

Lemma Facade_construction_on_ordinary_keys_witness :
  let E := listed_names in
  ordinary "a" ∧
  same_heap Exact.initial initial ∧
  ∃ h1, Exact.Facade.getInstance (VStr "a") Exact.initial =
          Some (Normal (JSArray.Ref (Obj 0)), h1, []) ∧
        same_heap h1 (final (Facade.getInstance (VStr "a") initial)).
Proof.
  intros E.
  assert (Hname : ordinary (toPropertyKey (VStr "a")))
    by (apply listed_names_ordinary; vm_compute; reflexivity).
  destruct (Facade_construction_on_ordinary_keys (VStr "a") Exact.initial initial
              Hname same_heap_initial)
    as (_ & r & h1 & Hr & Hrun & Hh1).
  split; [exact Hname |]. split; [exact same_heap_initial |].
  exists h1. split; [| exact Hh1].
  assert (Hobj : r = Obj 0) by (vm_compute in Hr; congruence).
  assert (Hev : events (Facade.getInstance (VStr "a") initial) = [])
    by (vm_compute; reflexivity).
  rewrite <- Hobj, <- Hev. exact Hrun.
Defined.

(** X26.  The constructor and the factory of the Facade at the names of
    the Array.  Under a name that the Array inherits, with no entry of
    its own, [new Facade(k)] throws the error of a key in use and
    [Facade.getInstance(k)] returns what the Array inherits, not a
    Facade; neither changes the state.  Under "length" the constructor
    throws the same error in every state, the length being a number and
    so not [null]; the factory throws it too while the length is 0, and
    returns the length once it is not. *)
Theorem Facade_with_a_name_of_the_Array `{Engine} (k : value) (h : Exact.Heap) :
  truthy k = true →
  inherits (toPropertyKey k) = true →
  toPropertyKey k ≠ "length" →
  JSArray.own (Exact.Facade_instanceMap h) !! toPropertyKey k = None →
  (Exact.Facade.new k h = Some (Throw (JsError Facade.MULTITON_MSG), h, []) ∧
   Exact.Facade.getInstance k h = Some (Normal JSArray.Inherited, h, [])) ∧
  Exact.Facade.new (VStr "length") h =
    Some (Throw (JsError Facade.MULTITON_MSG), h, []) ∧
  Exact.Facade.getInstance (VStr "length") h =
    Some (if N.eqb (JSArray.length (Exact.Facade_instanceMap h)) 0
          then Throw (JsError Facade.MULTITON_MSG)
          else Normal (JSArray.Number (JSArray.length (Exact.Facade_instanceMap h))),
          h, []).
Proof.
  intros Htruthy Hin Hlen Hfree. apply String.eqb_neq in Hlen.
  split; [split |]; [| | split].
  - unfold Exact.Facade.new. run_unfold. unfold JSArray.get.
    by rewrite Hlen, Hfree, Hin.
  - unfold Exact.Facade.getInstance. rewrite Htruthy. run_unfold.
    unfold JSArray.get. rewrite Hlen, Hin. cbn beta iota delta [negb].
    rewrite Hfree. cbn. by rewrite Hfree.
  - reflexivity.
  - unfold Exact.Facade.getInstance, Exact.Facade.new. run_unfold.
    unfold JSArray.get. cbn.
    by destruct (N.eqb (JSArray.length (Exact.Facade_instanceMap h)) 0).
Qed.

Lemma Facade_with_a_name_of_the_Array_witness :
  let E := listed_names in
  inherits "constructor" = true ∧
  Exact.Facade.new (VStr "constructor") Exact.initial =
    Some (Throw (JsError Facade.MULTITON_MSG), Exact.initial, []) ∧
  Exact.Facade.getInstance (VStr "length") Exact.initial =
    Some (Throw (JsError Facade.MULTITON_MSG), Exact.initial, []).
Proof.
  intros E.
  assert (Hin : inherits (toPropertyKey (VStr "constructor")) = true)
    by (vm_compute; reflexivity).
  destruct (Facade_with_a_name_of_the_Array (VStr "constructor") Exact.initial
              eq_refl Hin) as ((Hnew & _) & _ & Hlength);
    [discriminate | reflexivity |].
  split; [exact Hin |]. split; [exact Hnew | exact Hlength].
Defined.
